(** * Gemini <-> OpenAI protocol converter

    A shallow embedding of [dev_notes/02_Implementation/refined_reference.py]
    (classes [GeminiToOpenAIConverter], [OpenAIToGeminiConverter] and
    [GeminiProxyService]) together with the properties the design document
    states about it.

    Conventions of the embedding:
    - a Python [str] is a [string]; every character is read as a code point
      in the range 0..255;
    - a Python [dict] whose iteration order is observable is an association
      list with unique keys in insertion order ([Dict.set] keeps that
      discipline);
    - a key that may be absent from a JSON object, and an attribute that may
      be [None], is an [option];
    - [json.loads] and [json.dumps] belong to the Python standard library,
      not to the repository: the converters are parameterised by them inside
      Sections, and a concrete parser and printer ([Json.loads], [Json.dumps])
      are supplied to run the converters on examples;
    - [json.loads] raises [json.JSONDecodeError], which two handlers of the
      source catch, and other exceptions, which none does.  The sections
      [OpenAIToGeminiConverter] and [GeminiProxyService] describe the runs in
      which [json.loads] raises nothing but the first; module [Raising]
      describes them all, and agrees with the sections on those runs
      ([accumulate_continue], [convert_returned],
      [convert_response_returned]). *)

From Stdlib Require Import String Ascii List Bool Arith ZArith Lia.
From Stdlib Require Import Numbers.DecimalString.
From Stdlib Require Numbers.DecimalPos Numbers.DecimalZ.
Import ListNotations.

Open Scope string_scope.
Open Scope list_scope.

Set Warnings "-register-all".

(** ** Python values *)

(** JSON documents as Python sees them after [json.loads]: [dict], [list],
    [str], [int], [float], [bool] and [None].  A float keeps its literal. *)
Inductive json : Type :=
| JNull
| JBool (b : bool)
| JInt (z : Z)
| JFloat (literal : string)
| JStr (s : string)
| JArr (items : list json)
| JObj (members : list (string * json)).

(** Python dictionaries with string keys, in insertion order. *)
Module Dict.

Definition t (V : Type) : Type := list (string * V).

Definition empty {V} : t V := [].

Fixpoint get {V} (k : string) (d : t V) : option V :=
  match d with
  | [] => None
  | (k', v) :: d' => if String.eqb k k' then Some v else get k d'
  end.

Definition mem {V} (k : string) (d : t V) : bool :=
  match get k d with Some _ => true | None => false end.

(** [d[k] = v]: an existing key keeps its position. *)
Fixpoint set {V} (k : string) (v : V) (d : t V) : t V :=
  match d with
  | [] => [(k, v)]
  | (k', v') :: d' =>
      if String.eqb k k' then (k', v) :: d' else (k', v') :: set k v d'
  end.

(** [del d[k]]. *)
Fixpoint del {V} (k : string) (d : t V) : t V :=
  match d with
  | [] => []
  | (k', v') :: d' =>
      if String.eqb k k' then del k d' else (k', v') :: del k d'
  end.

Definition values {V} (d : t V) : list V := map snd d.

Definition keys {V} (d : t V) : list string := map fst d.

End Dict.

(** ** Python string operations *)

Module PyStr.

(** [str.isspace] on one character, which is also the class [\s] of [re]
    for [str] patterns, restricted to code points below 256. *)
Definition is_space (c : ascii) : bool :=
  let n := nat_of_ascii c in
  (((9 <=? n) && (n <=? 13)) || ((28 <=? n) && (n <=? 32))
   || (n =? 133) || (n =? 160))%nat.

Fixpoint lstrip (s : string) : string :=
  match s with
  | String c r => if is_space c then lstrip r else s
  | EmptyString => EmptyString
  end.

(** Removes the trailing white space; the result keeps every character up
    to the last one that is not white space. *)
Fixpoint rstrip (s : string) : string :=
  match s with
  | String c r =>
      match rstrip r with
      | EmptyString => if is_space c then EmptyString else String c EmptyString
      | r' => String c r'
      end
  | EmptyString => EmptyString
  end.

(** [s.strip()]. *)
Definition strip (s : string) : string := rstrip (lstrip s).

(** Truth value of a string: non-empty. *)
Definition truthy (s : string) : bool :=
  match s with EmptyString => false | _ => true end.

(** Truth value of an optional string attribute ([None] is false). *)
Definition truthy_opt (o : option string) : bool :=
  match o with Some s => truthy s | None => false end.

(** [str(n)] and [f"{n}"] for an integer. *)
Definition of_Z (z : Z) : string := NilZero.string_of_int (Z.to_int z).

Definition nl : ascii := ascii_of_nat 10.

(** The one-character string holding a newline. *)
Definition newline : string := String nl EmptyString.

End PyStr.

(** ** The JSON library

    A model of [json.loads] (default, strict decoder) and [json.dumps]
    (default separators) of the Python standard library, for the examples.
    Numbers with a fraction or an exponent, [NaN] and the infinities are
    accepted and kept as their literal, which is also how they are printed;
    a [\u] escape above code point 255 is outside the character range of the
    embedding and is refused; integers and nesting have no limit here
    ([loads_within] below adds the limit on the digits of an integer). *)

Module Json.

Definition dquote : ascii := ascii_of_nat 34.
Definition backslash : ascii := ascii_of_nat 92.

(** The one-character string holding a double quote. *)
Definition dq : string := String dquote EmptyString.

(** *** Decoding *)

Definition is_ws (c : ascii) : bool :=
  let n := nat_of_ascii c in
  ((n =? 32) || (n =? 9) || (n =? 10) || (n =? 13))%nat.

Fixpoint skip_ws (s : list ascii) : list ascii :=
  match s with
  | c :: r => if is_ws c then skip_ws r else s
  | [] => []
  end.

Definition is_digit (c : ascii) : bool :=
  let n := nat_of_ascii c in ((48 <=? n) && (n <=? 57))%nat.

Fixpoint span_digits (s : list ascii) : list ascii * list ascii :=
  match s with
  | c :: r =>
      if is_digit c
      then let '(ds, r') := span_digits r in (c :: ds, r')
      else ([], s)
  | [] => ([], [])
  end.

Definition Z_of_digits (ds : list ascii) : Z :=
  fold_left (fun a d => (10 * a + Z.of_nat (nat_of_ascii d - 48))%Z) ds 0%Z.

Definition hex_value (c : ascii) : option nat :=
  let n := nat_of_ascii c in
  if ((48 <=? n) && (n <=? 57))%nat then Some (n - 48)
  else if ((97 <=? n) && (n <=? 102))%nat then Some (n - 87)
  else if ((65 <=? n) && (n <=? 70))%nat then Some (n - 55)
  else None.

(** The integer part of a number: an optional minus sign, then either a
    single zero or a run of digits that does not start with zero. *)
Definition scan_int (s : list ascii) : option (list ascii * list ascii) :=
  let '(sign, s1) :=
    match s with
    | "-"%char :: r => (["-"%char], r)
    | _ => ([], s)
    end in
  match s1 with
  | "0"%char :: r => Some (sign ++ ["0"%char], r)
  | _ =>
      match span_digits s1 with
      | ([], _) => None
      | (ds, r) => Some (sign ++ ds, r)
      end
  end.

(** The optional fraction: a dot and at least one digit. *)
Definition scan_frac (s : list ascii) : list ascii * list ascii :=
  match s with
  | "."%char :: r =>
      match span_digits r with
      | ([], _) => ([], s)
      | (ds, r') => ("."%char :: ds, r')
      end
  | _ => ([], s)
  end.

(** The optional exponent: [e] or [E], an optional sign, at least one
    digit. *)
Definition scan_exp (s : list ascii) : list ascii * list ascii :=
  match s with
  | e :: r =>
      if (Ascii.eqb e "e"%char || Ascii.eqb e "E"%char)%bool then
        let '(sg, r1) :=
          match r with
          | c :: r' =>
              if (Ascii.eqb c "-"%char || Ascii.eqb c "+"%char)%bool
              then ([c], r') else ([], r)
          | [] => ([], r)
          end in
        match span_digits r1 with
        | ([], _) => ([], s)
        | (ds, r2) => (e :: sg ++ ds, r2)
        end
      else ([], s)
  | [] => ([], s)
  end.

Definition int_of_literal (l : list ascii) : Z :=
  match l with
  | "-"%char :: ds => (- Z_of_digits ds)%Z
  | ds => Z_of_digits ds
  end.

Definition parse_number (s : list ascii) : option (json * list ascii) :=
  match scan_int s with
  | None => None
  | Some (i, r) =>
      let '(f, r1) := scan_frac r in
      let '(e, r2) := scan_exp r1 in
      match f, e with
      | [], [] => Some (JInt (int_of_literal i), r2)
      | _, _ => Some (JFloat (string_of_list_ascii (i ++ f ++ e)), r2)
      end
  end.

(** The body of a string, after its opening quote. *)
Fixpoint parse_string (s : list ascii) : option (string * list ascii) :=
  match s with
  | [] => None
  | c :: r =>
      if Ascii.eqb c dquote then Some (EmptyString, r)
      else if Ascii.eqb c backslash then
        match r with
        | "u"%char :: h1 :: h2 :: h3 :: h4 :: r' =>
            match hex_value h1, hex_value h2, hex_value h3, hex_value h4 with
            | Some 0, Some 0, Some a, Some b =>
                match parse_string r' with
                | Some (str, r'') =>
                    Some (String (ascii_of_nat (16 * a + b)) str, r'')
                | None => None
                end
            | _, _, _, _ => None
            end
        | e :: r' =>
            let decoded :=
              if Ascii.eqb e dquote then Some dquote
              else if Ascii.eqb e backslash then Some backslash
              else match e with
                   | "/"%char => Some "/"%char
                   | "b"%char => Some (ascii_of_nat 8)
                   | "f"%char => Some (ascii_of_nat 12)
                   | "n"%char => Some (ascii_of_nat 10)
                   | "r"%char => Some (ascii_of_nat 13)
                   | "t"%char => Some (ascii_of_nat 9)
                   | _ => None
                   end in
            match decoded, parse_string r' with
            | Some d, Some (str, r'') => Some (String d str, r'')
            | _, _ => None
            end
        | [] => None
        end
      else if (nat_of_ascii c <? 32)%nat then None
      else
        match parse_string r with
        | Some (str, r') => Some (String c str, r')
        | None => None
        end
  end.

Definition strip_prefix (p : string) (s : list ascii) : option (list ascii) :=
  let n := String.length p in
  if list_eq_dec ascii_dec (firstn n s) (list_ascii_of_string p)
  then Some (skipn n s) else None.

(** The constants and numbers, tried in the order of the scanner. *)
Definition parse_atom (s : list ascii) : option (json * list ascii) :=
  match strip_prefix "null" s with Some r => Some (JNull, r) | None =>
  match strip_prefix "true" s with Some r => Some (JBool true, r) | None =>
  match strip_prefix "false" s with Some r => Some (JBool false, r) | None =>
  match parse_number s with Some res => Some res | None =>
  match strip_prefix "NaN" s with Some r => Some (JFloat "NaN", r) | None =>
  match strip_prefix "Infinity" s with
  | Some r => Some (JFloat "Infinity", r) | None =>
  match strip_prefix "-Infinity" s with
  | Some r => Some (JFloat "-Infinity", r) | None => None
  end end end end end end end.

(** The scanner.  [fuel] bounds the recursion; [loads] supplies enough of
    it for every input. *)
Fixpoint parse_value (fuel : nat) (s : list ascii)
  : option (json * list ascii) :=
  match fuel with
  | O => None
  | S fuel' =>
      match s with
      | [] => None
      | c :: r =>
          if Ascii.eqb c dquote then
            match parse_string r with
            | Some (str, r') => Some (JStr str, r')
            | None => None
            end
          else
            match c with
            | "{"%char =>
                match skip_ws r with
                | "}"%char :: r' => Some (JObj [], r')
                | r' => parse_members fuel' r' []
                end
            | "["%char =>
                match skip_ws r with
                | "]"%char :: r' => Some (JArr [], r')
                | r' => parse_elements fuel' r' []
                end
            | _ => parse_atom s
            end
      end
  end
with parse_elements (fuel : nat) (s : list ascii) (acc : list json)
  : option (json * list ascii) :=
  match fuel with
  | O => None
  | S fuel' =>
      match parse_value fuel' s with
      | Some (v, r) =>
          match skip_ws r with
          | ","%char :: r' => parse_elements fuel' (skip_ws r') (acc ++ [v])
          | "]"%char :: r' => Some (JArr (acc ++ [v]), r')
          | _ => None
          end
      | None => None
      end
  end
with parse_members (fuel : nat) (s : list ascii) (acc : Dict.t json)
  : option (json * list ascii) :=
  match fuel with
  | O => None
  | S fuel' =>
      match s with
      | c :: r =>
          if Ascii.eqb c dquote then
            match parse_string r with
            | Some (k, r1) =>
                match skip_ws r1 with
                | ":"%char :: r2 =>
                    match parse_value fuel' (skip_ws r2) with
                    | Some (v, r3) =>
                        match skip_ws r3 with
                        | ","%char :: r4 =>
                            parse_members fuel' (skip_ws r4) (Dict.set k v acc)
                        | "}"%char :: r4 => Some (JObj (Dict.set k v acc), r4)
                        | _ => None
                        end
                    | None => None
                    end
                | _ => None
                end
            | None => None
            end
          else None
      | [] => None
      end
  end.

(** [json.loads s]: [None] stands for [json.JSONDecodeError]. *)
Definition loads (s : string) : option json :=
  let l := list_ascii_of_string s in
  match parse_value (2 * List.length l + 2) (skip_ws l) with
  | Some (v, r) =>
      match skip_ws r with
      | [] => Some v
      | _ => None
      end
  | None => None
  end.

(** *** Encoding *)

Definition hex_digit (n : nat) : ascii :=
  nth n (list_ascii_of_string "0123456789abcdef") "0"%char.

Definition escape_char (ensure_ascii : bool) (c : ascii) : string :=
  let n := nat_of_ascii c in
  if Ascii.eqb c dquote then String backslash dq
  else if Ascii.eqb c backslash then String backslash (String backslash "")
  else if (n =? 10)%nat then String backslash "n"
  else if (n =? 13)%nat then String backslash "r"
  else if (n =? 9)%nat then String backslash "t"
  else if (n =? 12)%nat then String backslash "f"
  else if (n =? 8)%nat then String backslash "b"
  else if ((n <? 32) || (ensure_ascii && (126 <? n)))%nat%bool then
    String backslash
      ("u00" ++ String (hex_digit (n / 16)) (String (hex_digit (n mod 16)) ""))
  else String c "".

Fixpoint escape (ensure_ascii : bool) (s : string) : string :=
  match s with
  | String c r => escape_char ensure_ascii c ++ escape ensure_ascii r
  | EmptyString => EmptyString
  end.

Definition quote (ensure_ascii : bool) (s : string) : string :=
  dq ++ escape ensure_ascii s ++ dq.

(** [sep.join(l)]. *)
Fixpoint join (sep : string) (l : list string) : string :=
  match l with
  | [] => ""
  | [x] => x
  | x :: r => x ++ sep ++ join sep r
  end.

(** [json.dumps(j, ensure_ascii=...)]. *)
Fixpoint dumps (ensure_ascii : bool) (j : json) : string :=
  match j with
  | JNull => "null"
  | JBool true => "true"
  | JBool false => "false"
  | JInt z => PyStr.of_Z z
  | JFloat l => l
  | JStr s => quote ensure_ascii s
  | JArr items => "[" ++ join ", " (map (dumps ensure_ascii) items) ++ "]"
  | JObj members =>
      "{" ++ join ", "
               (map (fun kv => match kv with
                               | (k, v) => (quote ensure_ascii k ++ ": "
                                            ++ dumps ensure_ascii v)%string
                               end) members)
      ++ "}"
  end.

End Json.

(** ** Dialect A requests (Gemini) *)

(** The value of a ["functionCall"] key. *)
Record function_call : Type := mk_function_call {
  fc_name : option string;
  fc_args : option json
}.

(** The value of a ["functionResponse"] key. *)
Record function_response : Type := mk_function_response {
  fr_name : option string;
  fr_response : option json
}.

(** A part that is a JSON object: each of the three keys the converter
    looks at is present or absent. *)
Record part_dict : Type := mk_part_dict {
  p_text : option string;
  p_functionCall : option function_call;
  p_functionResponse : option function_response
}.

(** A part is a [dict], a bare [str], or something else (ignored). *)
Inductive part : Type :=
| PartDict (d : part_dict)
| PartStr (s : string)
| PartOther.

(** One entry of [contents]. *)
Record content : Type := mk_content {
  c_role : option string;
  c_parts : option (list part)
}.

Definition text_part (t : string) : part :=
  PartDict (mk_part_dict (Some t) None None).

Definition functionCall_part (fc : function_call) : part :=
  PartDict (mk_part_dict None (Some fc) None).

Definition functionResponse_part (fr : function_response) : part :=
  PartDict (mk_part_dict None None (Some fr)).

(** ** Dialect B requests (OpenAI) *)

(** An entry of ["tool_calls"]: [{"id", "type", "function": {"name",
    "arguments"}}]. *)
Record tool_call : Type := mk_tool_call {
  tc_id : string;
  tc_type : string;
  tc_name : string;
  tc_arguments : string
}.

(** An entry of [messages].  ["content"] holds a string or [None];
    ["tool_call_id"] and ["tool_calls"] are present or absent. *)
Record message : Type := mk_message {
  m_role : string;
  m_content : option string;
  m_tool_call_id : option string;
  m_tool_calls : option (list tool_call)
}.

Definition option_string_eqb (a b : option string) : bool :=
  match a, b with
  | Some x, Some y => String.eqb x y
  | None, None => true
  | _, _ => false
  end.

(** ** GeminiToOpenAIConverter *)

Section GeminiToOpenAIConverter.

(** [json.dumps] with its default arguments. *)
Variable json_dumps : json -> string.

(** [content.get("role", "user")]. *)
Definition get_role (c : content) : string :=
  match c_role c with Some r => r | None => "user" end.

(** [content.get("parts", [])]. *)
Definition get_parts (c : content) : list part :=
  match c_parts c with Some ps => ps | None => [] end.

(** [f"{d.get('name', 'unknown')}:0"]. *)
Definition synth_id (name : option string) : string :=
  (match name with Some n => n | None => "unknown" end) ++ ":0".

Definition tool_message (fr : function_response) : message :=
  {| m_role := "tool";
     m_content :=
       Some (json_dumps
               (match fr_response fr with Some r => r | None => JObj [] end));
     m_tool_call_id := Some (synth_id (fr_name fr));
     m_tool_calls := None |}.

(** Body of the loop over the parts of a user turn; the state is
    [(combined_text, tool_messages)]. *)
Definition user_part_step (st : string * list message) (p : part)
  : string * list message :=
  let '(combined_text, tool_messages) := st in
  match p with
  | PartDict d =>
      match p_text d with
      | Some t => ((combined_text ++ t)%string, tool_messages)
      | None =>
          match p_functionResponse d with
          | Some func_response =>
              (combined_text, tool_messages ++ [tool_message func_response])
          | None => st
          end
      end
  | PartStr s => ((combined_text ++ s)%string, tool_messages)
  | PartOther => st
  end.

Definition user_message (text : string) : message :=
  {| m_role := "user"; m_content := Some text;
     m_tool_call_id := None; m_tool_calls := None |}.

Definition convert_user (parts : list part) : list message :=
  let '(combined_text, tool_messages) :=
    fold_left user_part_step parts ("", []) in
  (if PyStr.truthy (PyStr.strip combined_text)
   then [user_message (PyStr.strip combined_text)] else [])
  ++ tool_messages.

(** The test of the innermost loop: [next_part] is a [dict] with a
    ["functionResponse"] whose name equals the name of the call. *)
Definition answers (func_name : option string) (next_part : part) : bool :=
  match next_part with
  | PartDict d =>
      match p_functionResponse d with
      | Some fr => option_string_eqb func_name (fr_name fr)
      | None => false
      end
  | _ => false
  end.

(** The search [for j in range(i + 1, len(contents))] with its two
    [break]s: some later turn whose role is ["user"] holds a matching
    function response. *)
Definition has_response (contents : list content) (i : nat)
    (fc : function_call) : bool :=
  existsb
    (fun next_content =>
       option_string_eqb (c_role next_content) (Some "user")
       && existsb (answers (fc_name fc)) (get_parts next_content))
    (skipn (i + 1) contents).

Definition to_tool_call (func_call : function_call) : tool_call :=
  {| tc_id := synth_id (fc_name func_call);
     tc_type := "function";
     tc_name := match fc_name func_call with Some n => n | None => "" end;
     tc_arguments :=
       json_dumps
         (match fc_args func_call with Some a => a | None => JObj [] end) |}.

(** Body of the loop over the parts of a model turn at index [i]; the
    state is [(combined_text, tool_calls)]. *)
Definition model_part_step (contents : list content) (i : nat)
    (st : string * list tool_call) (p : part) : string * list tool_call :=
  let '(combined_text, tool_calls) := st in
  match p with
  | PartDict d =>
      match p_text d with
      | Some t => ((combined_text ++ t)%string, tool_calls)
      | None =>
          match p_functionCall d with
          | Some func_call =>
              let is_last_message := Nat.eqb i (List.length contents - 1) in
              if is_last_message && negb (has_response contents i func_call)
              then st
              else (combined_text, tool_calls ++ [to_tool_call func_call])
          | None => st
          end
      end
  | PartStr s => ((combined_text ++ s)%string, tool_calls)
  | PartOther => st
  end.

Definition assistant_message (text : string) (tool_calls : list tool_call)
  : message :=
  {| m_role := "assistant";
     m_content :=
       if PyStr.truthy (PyStr.strip text)
       then Some (PyStr.strip text) else None;
     m_tool_call_id := None;
     m_tool_calls :=
       match tool_calls with [] => None | _ => Some tool_calls end |}.

Definition convert_model (contents : list content) (i : nat)
    (parts : list part) : list message :=
  let '(combined_text, tool_calls) :=
    fold_left (model_part_step contents i) parts ("", []) in
  if PyStr.truthy (PyStr.strip combined_text)
     || match tool_calls with [] => false | _ => true end
  then [assistant_message combined_text tool_calls]
  else [].

(** The messages appended while the outer loop visits [content] at
    index [i]. *)
Definition convert_content (contents : list content) (i : nat)
    (c : content) : list message :=
  if String.eqb (get_role c) "user" then convert_user (get_parts c)
  else if String.eqb (get_role c) "model"
       then convert_model contents i (get_parts c)
       else [].

(** [for i, content in enumerate(contents)], from index [i] on. *)
Fixpoint convert_from (contents : list content) (i : nat)
    (rest : list content) : list message :=
  match rest with
  | [] => []
  | c :: rest' =>
      convert_content contents i c ++ convert_from contents (S i) rest'
  end.

Definition convert_contents_to_messages (contents : list content)
  : list message :=
  convert_from contents 0 contents.

(** [generationConfig] is a JSON object or absent. *)
Definition copy_key (src dst : string) (config params : Dict.t json)
  : Dict.t json :=
  match Dict.get src config with
  | Some v => Dict.set dst v params
  | None => params
  end.

Definition convert_config_to_openai_params (config : option (Dict.t json))
  : Dict.t json :=
  match config with
  | None => Dict.empty
  | Some [] => Dict.empty
  | Some config =>
      let openai_params := Dict.empty in
      let openai_params :=
        copy_key "temperature" "temperature" config openai_params in
      let openai_params :=
        copy_key "maxOutputTokens" "max_tokens" config openai_params in
      let openai_params := copy_key "topP" "top_p" config openai_params in
      let openai_params :=
        copy_key "stopSequences" "stop" config openai_params in
      openai_params
  end.

End GeminiToOpenAIConverter.

(** ** Dialect B responses (OpenAI) *)

(** [tool_call.function.name] and [tool_call.function.arguments] of a
    complete response. *)
Record response_tool_call : Type := mk_response_tool_call {
  rtc_name : string;
  rtc_arguments : string
}.

Record response_message : Type := mk_response_message {
  rm_content : option string;
  rm_tool_calls : option (list response_tool_call)
}.

Record response_choice : Type := mk_response_choice {
  rc_message : response_message;
  rc_finish_reason : option string
}.

Record response_usage : Type := mk_response_usage {
  prompt_tokens : Z;
  completion_tokens : Z;
  total_tokens : Z
}.

Record chat_completion : Type := mk_chat_completion {
  cc_choices : list response_choice;
  cc_usage : option response_usage
}.

(** One fragment of a streamed response. *)
Record function_delta : Type := mk_function_delta {
  fd_name : option string;
  fd_arguments : option string
}.

Record tool_call_delta : Type := mk_tool_call_delta {
  td_index : option Z;
  td_id : option string;
  td_function : option function_delta
}.

Record delta : Type := mk_delta {
  d_content : option string;
  d_tool_calls : option (list tool_call_delta)
}.

Record chunk_choice : Type := mk_chunk_choice {
  ch_delta : option delta;
  ch_finish_reason : option string
}.

(** [chunk.choices]; the empty list also stands for [None]. *)
Record chunk : Type := mk_chunk {
  ck_choices : list chunk_choice
}.

(** ** Dialect A responses (Gemini) *)

Inductive gemini_part : Type :=
| TextPart (text : string)
| FunctionCallPart (name : string) (args : json).

(** The single candidate of a response: [content.parts] and [finishReason]
    ([None] in a streamed fragment without finish reason); [content.role],
    [index] and [safetyRatings] are constants. *)
Record candidate : Type := mk_candidate {
  cand_parts : list gemini_part;
  cand_finishReason : option string
}.

Record usage_metadata : Type := mk_usage_metadata {
  promptTokenCount : Z;
  candidatesTokenCount : Z;
  totalTokenCount : Z;
  promptTokensDetails : list (string * Z)
}.

Record gemini_response : Type := mk_gemini_response {
  gr_candidate : candidate;
  gr_usageMetadata : option usage_metadata
}.

(** One slot of [accumulated_tool_calls]. *)
Record acc_entry : Type := mk_acc_entry {
  a_id : string;
  a_name : string;
  a_arguments : string
}.

(** ** OpenAIToGeminiConverter *)

(** The pattern of [clean_markdown_json], an opening fence labelled json,
    white space up to a newline, a lazily matched body, a newline and the
    closing fence anchored at the end, under [re.DOTALL], as [re.match]
    explores it. *)
Module Re.

Definition nl : string := PyStr.newline.

Definition fence : string := "```".

(** The tail of the pattern, newline, fence, end anchor, at the current
    position.  Without [re.MULTILINE] the end anchor matches at the end
    of the string and just before a newline that ends the string. *)
Definition closing (s : string) : bool :=
  String.eqb s (nl ++ fence) || String.eqb s (nl ++ fence ++ nl).

(** The lazy group followed by the tail: the tail is tried first, and
    only when it fails does the group take one more character (any
    character, under [re.DOTALL]). *)
Fixpoint body (s : string) : option string :=
  if closing s then Some EmptyString
  else match s with
       | String c r =>
           match body r with
           | Some g => Some (String c g)
           | None => None
           end
       | EmptyString => None
       end.

(** The greedy white-space run, the newline and the rest: the run takes
    one more white-space character first, and gives it back when the rest
    fails. *)
Fixpoint after_label (s : string) : option string :=
  match s with
  | String c r =>
      let here := if Ascii.eqb c PyStr.nl then body r else None in
      if PyStr.is_space c
      then match after_label r with
           | Some g => Some g
           | None => here
           end
      else here
  | EmptyString => None
  end.

Fixpoint strip_prefix (p s : string) : option string :=
  match p, s with
  | EmptyString, _ => Some s
  | String a p', String b s' =>
      if Ascii.eqb a b then strip_prefix p' s' else None
  | String _ _, EmptyString => None
  end.

(** [re.match(json_pattern, s, re.DOTALL)]: group 1 of the match. *)
Definition match_json_fence (s : string) : option string :=
  match strip_prefix (fence ++ "json") s with
  | Some r => after_label r
  | None => None
  end.

End Re.

Section OpenAIToGeminiConverter.

(** [json.loads]; [None] stands for [json.JSONDecodeError].  The
    definitions of this section describe the converter on the texts on which
    [json.loads] returns a value or raises that exception; module [Raising]
    below takes every outcome of [json.loads]. *)
Variable json_loads : string -> option json.

Definition clean_markdown_json (content : string) : string :=
  match Re.match_json_fence (PyStr.strip content) with
  | Some json_content => json_content
  | None => content
  end.

(** The table of [convert_response_to_gemini]. *)
Definition finish_reason_mapping : Dict.t string :=
  [("stop", "STOP"); ("length", "MAX_TOKENS"); ("content_filter", "SAFETY");
   ("tool_calls", "STOP"); ("function_call", "STOP")].

(** The table of [convert_streaming_chunk_to_gemini]. *)
Definition streaming_finish_reason_mapping : Dict.t string :=
  [("stop", "STOP"); ("length", "MAX_TOKENS"); ("content_filter", "SAFETY");
   ("tool_calls", "STOP")].

(** [mapping.get(key)] for a key that may be [None]. *)
Definition mapping_get (mapping : Dict.t string) (key : option string)
  : option string :=
  match key with
  | Some k => Dict.get k mapping
  | None => None
  end.

(** The loop over [message.tool_calls]; [None] when an argument string is
    not JSON. *)
Fixpoint function_call_parts (tool_calls : list response_tool_call)
  : option (list gemini_part) :=
  match tool_calls with
  | [] => Some []
  | tc :: rest =>
      match json_loads (rtc_arguments tc) with
      | Some args =>
          match function_call_parts rest with
          | Some ps => Some (FunctionCallPart (rtc_name tc) args :: ps)
          | None => None
          end
      | None => None
      end
  end.

Definition convert_usage (u : response_usage) : usage_metadata :=
  {| promptTokenCount := prompt_tokens u;
     candidatesTokenCount := completion_tokens u;
     totalTokenCount := total_tokens u;
     promptTokensDetails := [("TEXT", prompt_tokens u)] |}.

(** [None] stands for an exception: [IndexError] on an empty [choices],
    [json.JSONDecodeError] on the arguments of a tool call.
    [Raising.convert_response_to_gemini] names the exception raised. *)
Definition convert_response_to_gemini (response : chat_completion)
  : option gemini_response :=
  match cc_choices response with
  | [] => None
  | choice :: _ =>
      let message := rc_message choice in
      let text_parts :=
        match rm_content message with
        | Some c =>
            if PyStr.truthy c then [TextPart (clean_markdown_json c)] else []
        | None => []
        end in
      match function_call_parts
              (match rm_tool_calls message with Some l => l | None => [] end)
      with
      | None => None
      | Some call_parts =>
          let finish_reason :=
            match mapping_get finish_reason_mapping (rc_finish_reason choice)
            with
            | Some r => r
            | None => "STOP"
            end in
          Some {| gr_candidate :=
                    {| cand_parts := text_parts ++ call_parts;
                       cand_finishReason := Some finish_reason |};
                  gr_usageMetadata := option_map convert_usage
                                                 (cc_usage response) |}
      end
  end.

Definition tool_call_key (tool_call : tool_call_delta) : string :=
  "tool_" ++ PyStr.of_Z (match td_index tool_call with
                         | Some i => i
                         | None => 0%Z
                         end).

Definition fresh_entry : acc_entry :=
  {| a_id := ""; a_name := ""; a_arguments := "" |}.

(** The slot of [tool_call] after the three accumulation statements;
    [entry] is the slot before them (a fresh one on first sight). *)
Definition update_entry (tool_call : tool_call_delta) (entry : acc_entry)
  : acc_entry :=
  let new_id :=
    match td_id tool_call with
    | Some i =>
        if PyStr.truthy i && negb (PyStr.truthy (a_id entry))
        then i else a_id entry
    | None => a_id entry
    end in
  let new_name :=
    match td_function tool_call with
    | Some f =>
        match fd_name f with
        | Some n =>
            if PyStr.truthy n && negb (PyStr.truthy (a_name entry))
            then n else a_name entry
        | None => a_name entry
        end
    | None => a_name entry
    end in
  let new_arguments :=
    match td_function tool_call with
    | Some f =>
        match fd_arguments f with
        | Some a =>
            if PyStr.truthy a then (a_arguments entry ++ a)%string
            else a_arguments entry
        | None => a_arguments entry
        end
    | None => a_arguments entry
    end in
  {| a_id := new_id; a_name := new_name; a_arguments := new_arguments |}.

(** Body of the loop over [delta.tool_calls]; the state is
    [(accumulated_tool_calls, parts)]. *)
Definition accumulate (st : Dict.t acc_entry * list gemini_part)
    (tool_call : tool_call_delta) : Dict.t acc_entry * list gemini_part :=
  let '(accumulated_tool_calls, parts) := st in
  let key := tool_call_key tool_call in
  let entry :=
    match Dict.get key accumulated_tool_calls with
    | Some e => e
    | None => fresh_entry
    end in
  let entry := update_entry tool_call entry in
  let accumulated_tool_calls := Dict.set key entry accumulated_tool_calls in
  let args_str := a_arguments entry in
  let name := a_name entry in
  if PyStr.truthy args_str && PyStr.truthy name then
    match json_loads args_str with
    | Some parsed_args =>
        (Dict.del key accumulated_tool_calls,
         parts ++ [FunctionCallPart name parsed_args])
    | None => (accumulated_tool_calls, parts)
    end
  else (accumulated_tool_calls, parts).

(** The tool calls the loop visits: none when [delta.tool_calls] is
    [None] or empty. *)
Definition delta_tool_calls (d : delta) : list tool_call_delta :=
  match d_tool_calls d with Some l => l | None => [] end.

(** Returns the optional fragment and the mapping as the call leaves
    it. *)
Definition convert_streaming_chunk_to_gemini (c : chunk)
    (accumulated_tool_calls : Dict.t acc_entry)
  : option candidate * Dict.t acc_entry :=
  match ck_choices c with
  | [] => (None, accumulated_tool_calls)
  | choice :: _ =>
      match ch_delta choice with
      | None => (None, accumulated_tool_calls)
      | Some delta =>
          let parts :=
            match d_content delta with
            | Some t => if PyStr.truthy t then [TextPart t] else []
            | None => []
            end in
          let '(accumulated_tool_calls, parts) :=
            fold_left accumulate (delta_tool_calls delta)
                      (accumulated_tool_calls, parts) in
          if match parts with [] => true | _ => false end
             && negb (PyStr.truthy_opt (ch_finish_reason choice))
          then (None, accumulated_tool_calls)
          else
            (Some {| cand_parts := parts;
                     cand_finishReason :=
                       if PyStr.truthy_opt (ch_finish_reason choice)
                       then mapping_get streaming_finish_reason_mapping
                                        (ch_finish_reason choice)
                       else None |},
             accumulated_tool_calls)
      end
  end.

End OpenAIToGeminiConverter.

(** ** GeminiProxyService: the streaming exchange *)

Record function_declaration : Type := mk_function_declaration {
  decl_name : option string;
  decl_description : option string;
  decl_parameters : option json
}.

(** An entry of [tools]: the ["functionDeclarations"] key is present or
    absent. *)
Record tool_group : Type := mk_tool_group {
  functionDeclarations : option (list function_declaration)
}.

(** [{"type": "function", "function": {"name", "description",
    "parameters"}}]. *)
Record openai_tool : Type := mk_openai_tool {
  ot_name : string;
  ot_description : string;
  ot_parameters : json
}.

(** The request body.  [rq_systemInstruction] holds the parts of the system
    instruction; [None] covers an absent instruction and one without
    parts. *)
Record request_data : Type := mk_request_data {
  rq_model : option string;
  rq_contents : option (list content);
  rq_systemInstruction : option (list part_dict);
  rq_generationConfig : option (Dict.t json);
  rq_tools : option (list tool_group)
}.

(** The keyword arguments of [client.chat.completions.create];
    ["tool_choice"] is ["auto"] exactly when [cp_tools] is present. *)
Record completion_params : Type := mk_completion_params {
  cp_model : string;
  cp_messages : list message;
  cp_stream : bool;
  cp_params : Dict.t json;
  cp_tools : option (list openai_tool)
}.

(** What an awaited call or an iteration does: it returns, or it raises an
    exception [e], kept as [str(e)]. *)
Inductive outcome (A : Type) : Type :=
| Returned (a : A)
| Raised (message : string).

Arguments Returned {A} a.
Arguments Raised {A} message.

(** What the stream returned by the client does when iterated: it delivers
    [delivered], then ends ([failure = None]) or raises. *)
Record stream : Type := mk_stream {
  delivered : list chunk;
  failure : option string
}.

Definition convert_tools_to_openai (tools : option (list tool_group))
  : option (list openai_tool) :=
  match tools with
  | None => None
  | Some groups =>
      let openai_tools :=
        flat_map
          (fun tool =>
             match functionDeclarations tool with
             | Some decls =>
                 map (fun func_decl =>
                        {| ot_name :=
                             match decl_name func_decl with
                             | Some n => n | None => "" end;
                           ot_description :=
                             match decl_description func_decl with
                             | Some d => d | None => "" end;
                           ot_parameters :=
                             match decl_parameters func_decl with
                             | Some j => j | None => JObj [] end |})
                     decls
             | None => []
             end)
          groups in
      match openai_tools with
      | [] => None
      | _ => Some openai_tools
      end
  end.

Section GeminiProxyService.

(** [json.loads], with [None] for [json.JSONDecodeError], as above. *)
Variable json_loads : string -> option json.

(** [json.dumps(_, ensure_ascii=b)]. *)
Variable json_dumps : bool -> json -> string.

(** Configuration the module reads: the model table and its default. *)
Variable MODEL_MAPPING : Dict.t string.
Variable DEFAULT_OPENAI_MODEL : string.

(** The network client: [await self.client.chat.completions.create]. *)
Variable create : completion_params -> outcome stream.

Definition map_gemini_model_to_openai (gemini_model : string) : string :=
  match Dict.get gemini_model MODEL_MAPPING with
  | Some m => m
  | None => DEFAULT_OPENAI_MODEL
  end.

Definition system_message (parts : list part_dict) : list message :=
  let system_text :=
    fold_left (fun text p => match p_text p with
                             | Some t => (text ++ t)%string
                             | None => text
                             end) parts "" in
  if PyStr.truthy (PyStr.strip system_text)
  then [{| m_role := "system"; m_content := Some (PyStr.strip system_text);
           m_tool_call_id := None; m_tool_calls := None |}]
  else [].

Definition build_completion_params (rq : request_data) : completion_params :=
  let gemini_model :=
    match rq_model rq with Some m => m | None => "gemini-1.5-pro" end in
  let contents :=
    match rq_contents rq with Some c => c | None => [] end in
  let messages := convert_contents_to_messages (json_dumps true) contents in
  let messages :=
    match rq_systemInstruction rq with
    | Some parts => system_message parts ++ messages
    | None => messages
    end in
  {| cp_model := map_gemini_model_to_openai gemini_model;
     cp_messages := messages;
     cp_stream := true;
     cp_params := convert_config_to_openai_params (rq_generationConfig rq);
     cp_tools := convert_tools_to_openai (rq_tools rq) |}.

Definition json_of_part (p : gemini_part) : json :=
  match p with
  | TextPart t => JObj [("text", JStr t)]
  | FunctionCallPart name args =>
      JObj [("functionCall", JObj [("name", JStr name); ("args", args)])]
  end.

(** The dictionary a streamed fragment is. *)
Definition json_of_chunk (c : candidate) : json :=
  JObj [("candidates",
         JArr [JObj [("content",
                      JObj [("parts", JArr (map json_of_part (cand_parts c)));
                            ("role", JStr "model")]);
                     ("finishReason",
                      match cand_finishReason c with
                      | Some r => JStr r
                      | None => JNull
                      end);
                     ("index", JInt 0);
                     ("safetyRatings", JArr [])]])].

Definition error_response (message : string) : json :=
  JObj [("error",
         JObj [("message", JStr message); ("type", JStr "internal_error")])].

(** One server-sent-event frame. *)
Definition data_frame (payload : json) : string :=
  "data: " ++ json_dumps false payload ++ PyStr.newline ++ PyStr.newline.

(** [async for chunk in stream]: the frames yielded and the mapping at
    the end. *)
Fixpoint consume (chunks : list chunk)
    (accumulated_tool_calls : Dict.t acc_entry)
  : list string * Dict.t acc_entry :=
  match chunks with
  | [] => ([], accumulated_tool_calls)
  | c :: rest =>
      let '(gemini_chunk, accumulated_tool_calls) :=
        convert_streaming_chunk_to_gemini json_loads c
                                          accumulated_tool_calls in
      let '(frames, accumulated_tool_calls) :=
        consume rest accumulated_tool_calls in
      (match gemini_chunk with
       | Some g => data_frame (json_of_chunk g) :: frames
       | None => frames
       end, accumulated_tool_calls)
  end.

(** The fragment built for a slot left at the end of the stream. *)
Definition final_gemini_chunk (name : string) (parsed_args : json)
  : candidate :=
  {| cand_parts := [FunctionCallPart name parsed_args];
     cand_finishReason := Some "STOP" |}.

(** Body of the loop over [accumulated_tool_calls.values()]. *)
Definition flush_entry (tool_data : acc_entry) : list string :=
  if PyStr.truthy (a_name tool_data) && PyStr.truthy (a_arguments tool_data)
  then match json_loads (a_arguments tool_data) with
       | Some parsed_args =>
           [data_frame
              (json_of_chunk (final_gemini_chunk (a_name tool_data)
                                                 parsed_args))]
       | None => []
       end
  else [].

Definition flush (accumulated_tool_calls : Dict.t acc_entry) : list string :=
  flat_map flush_entry (Dict.values accumulated_tool_calls).

Definition error_frame (message : string) : string :=
  data_frame (error_response message).

(** The frames the generator yields, in order, in an exchange where only
    the client raises; [Raising.stream_generate_content] adds the
    exceptions of the conversions.  The logging calls do not take part in
    the result. *)
Definition stream_generate_content (rq : request_data) : list string :=
  match create (build_completion_params rq) with
  | Raised e => [error_frame e]
  | Returned stream =>
      let '(frames, accumulated_tool_calls) :=
        consume (delivered stream) Dict.empty in
      match failure stream with
      | Some e => frames ++ [error_frame e]
      | None => frames ++ flush accumulated_tool_calls
      end
  end.

End GeminiProxyService.

(** ** GeminiProxyService: the single-shot exchange *)

(** [HTTPException(status_code=..., detail=...)]. *)
Record http_exception : Type := mk_http_exception {
  status_code : Z;
  detail : string
}.

Section GenerateContent.

Variable json_dumps : bool -> json -> string.
Variable MODEL_MAPPING : Dict.t string.
Variable DEFAULT_OPENAI_MODEL : string.

(** The keyword arguments [generate_content] builds; they hold no
    ["stream"] key, which [cp_stream = false] stands for. *)
Definition single_completion_params (rq : request_data) : completion_params :=
  let gemini_model :=
    match rq_model rq with Some m => m | None => "gemini-1.5-pro" end in
  let contents :=
    match rq_contents rq with Some c => c | None => [] end in
  let openai_model :=
    map_gemini_model_to_openai MODEL_MAPPING DEFAULT_OPENAI_MODEL
                               gemini_model in
  let messages := convert_contents_to_messages (json_dumps true) contents in
  let messages :=
    match rq_systemInstruction rq with
    | Some parts => system_message parts ++ messages
    | None => messages
    end in
  let openai_params :=
    convert_config_to_openai_params (rq_generationConfig rq) in
  let openai_tools := convert_tools_to_openai (rq_tools rq) in
  {| cp_model := openai_model;
     cp_messages := messages;
     cp_stream := false;
     cp_params := openai_params;
     cp_tools := openai_tools |}.

End GenerateContent.

(** ** Exceptions of [json.loads] that no handler catches *)

(** What [json.loads] does on a text: it returns the value, raises
    [json.JSONDecodeError], or raises another exception, such as the
    [ValueError] of an integer literal beyond the interpreter's digit limit
    or the [RecursionError] of a deeply nested text.  An exception is kept
    as [str(e)]. *)
Inductive loaded : Type :=
| Parsed (value : json)
| DecodeError (message : string)
| OtherError (message : string).

(** The value a loader returns, when it returns one: the loader as the
    sections above take it. *)
Definition loads_value (json_loads : string -> loaded) (s : string)
  : option json :=
  match json_loads s with
  | Parsed v => Some v
  | DecodeError _ => None
  | OtherError _ => None
  end.

(** The exceptions a conversion raises, with [str(e)]. *)
Inductive exception : Type :=
| IndexError
| JSONDecodeError (message : string)
| OtherException (message : string).

Definition str (e : exception) : string :=
  match e with
  | IndexError => "list index out of range"
  | JSONDecodeError message => message
  | OtherException message => message
  end.

(** The converters and the two exchanges once more, now with every outcome
    of [json.loads].  The [try] blocks of the source catch
    [json.JSONDecodeError] only, so any other exception of [json.loads]
    leaves the function that called it. *)
Module Raising.

Section OpenAIToGeminiConverter.

Variable json_loads : string -> loaded.

(** The loop over [message.tool_calls], which has no handler: the first
    argument string that [json.loads] does not return on ends it. *)
Fixpoint function_call_parts (tool_calls : list response_tool_call)
  : list gemini_part + exception :=
  match tool_calls with
  | [] => inl []
  | tc :: rest =>
      match json_loads (rtc_arguments tc) with
      | Parsed args =>
          match function_call_parts rest with
          | inl ps => inl (FunctionCallPart (rtc_name tc) args :: ps)
          | inr e => inr e
          end
      | DecodeError message => inr (JSONDecodeError message)
      | OtherError message => inr (OtherException message)
      end
  end.

(** The response, or the exception raised: [IndexError] by [choices[0]] on
    an empty list, or what [json.loads] raises. *)
Definition convert_response_to_gemini (response : chat_completion)
  : gemini_response + exception :=
  match cc_choices response with
  | [] => inr IndexError
  | choice :: _ =>
      let message := rc_message choice in
      let text_parts :=
        match rm_content message with
        | Some c =>
            if PyStr.truthy c then [TextPart (clean_markdown_json c)] else []
        | None => []
        end in
      match function_call_parts
              (match rm_tool_calls message with Some l => l | None => [] end)
      with
      | inr e => inr e
      | inl call_parts =>
          let finish_reason :=
            match mapping_get finish_reason_mapping (rc_finish_reason choice)
            with
            | Some r => r
            | None => "STOP"
            end in
          inl {| gr_candidate :=
                   {| cand_parts := text_parts ++ call_parts;
                      cand_finishReason := Some finish_reason |};
                 gr_usageMetadata := option_map convert_usage
                                                (cc_usage response) |}
      end
  end.

(** What one pass of the loop over [delta.tool_calls] does: it goes on
    with the state [(accumulated_tool_calls, parts)], or an exception
    leaves the [try] block and the call, and the caller is left with the
    mapping as the pass changed it. *)
Inductive step : Type :=
| Continue (st : Dict.t acc_entry * list gemini_part)
| Abort (accumulated_tool_calls : Dict.t acc_entry) (message : string).

(** Body of the loop over [delta.tool_calls]. *)
Definition accumulate (st : Dict.t acc_entry * list gemini_part)
    (tool_call : tool_call_delta) : step :=
  let '(accumulated_tool_calls, parts) := st in
  let key := tool_call_key tool_call in
  let entry :=
    match Dict.get key accumulated_tool_calls with
    | Some e => e
    | None => fresh_entry
    end in
  let entry := update_entry tool_call entry in
  let accumulated_tool_calls := Dict.set key entry accumulated_tool_calls in
  let args_str := a_arguments entry in
  let name := a_name entry in
  if PyStr.truthy args_str && PyStr.truthy name then
    match json_loads args_str with
    | Parsed parsed_args =>
        Continue (Dict.del key accumulated_tool_calls,
                  parts ++ [FunctionCallPart name parsed_args])
    | DecodeError _ => Continue (accumulated_tool_calls, parts)
    | OtherError message => Abort accumulated_tool_calls message
    end
  else Continue (accumulated_tool_calls, parts).

(** The loop: the passes in order, up to the first that raises. *)
Fixpoint accumulate_all (tool_calls : list tool_call_delta)
    (st : Dict.t acc_entry * list gemini_part) : step :=
  match tool_calls with
  | [] => Continue st
  | tool_call :: rest =>
      match accumulate st tool_call with
      | Continue st => accumulate_all rest st
      | Abort accumulated_tool_calls message =>
          Abort accumulated_tool_calls message
      end
  end.

(** What the call does, returning the optional fragment or raising, and
    the mapping as the call leaves it. *)
Definition convert_streaming_chunk_to_gemini (c : chunk)
    (accumulated_tool_calls : Dict.t acc_entry)
  : outcome (option candidate) * Dict.t acc_entry :=
  match ck_choices c with
  | [] => (Returned None, accumulated_tool_calls)
  | choice :: _ =>
      match ch_delta choice with
      | None => (Returned None, accumulated_tool_calls)
      | Some delta =>
          let parts :=
            match d_content delta with
            | Some t => if PyStr.truthy t then [TextPart t] else []
            | None => []
            end in
          match accumulate_all (delta_tool_calls delta)
                               (accumulated_tool_calls, parts)
          with
          | Abort accumulated_tool_calls message =>
              (Raised message, accumulated_tool_calls)
          | Continue (accumulated_tool_calls, parts) =>
              if match parts with [] => true | _ => false end
                 && negb (PyStr.truthy_opt (ch_finish_reason choice))
              then (Returned None, accumulated_tool_calls)
              else
                (Returned
                   (Some {| cand_parts := parts;
                            cand_finishReason :=
                              if PyStr.truthy_opt (ch_finish_reason choice)
                              then mapping_get streaming_finish_reason_mapping
                                               (ch_finish_reason choice)
                              else None |}),
                 accumulated_tool_calls)
          end
      end
  end.

End OpenAIToGeminiConverter.

Section GeminiProxyService.

Variable json_loads : string -> loaded.
Variable json_dumps : bool -> json -> string.
Variable MODEL_MAPPING : Dict.t string.
Variable DEFAULT_OPENAI_MODEL : string.

(** The network client, awaited for a stream and for one complete
    response. *)
Variable create : completion_params -> outcome stream.
Variable create_completion : completion_params -> outcome chat_completion.

(** [async for chunk in stream]: the frames yielded, the mapping at the
    end, and the exception that ended the loop, if a conversion raised
    one.  The fragments after that one are not asked for. *)
Fixpoint consume (chunks : list chunk)
    (accumulated_tool_calls : Dict.t acc_entry)
  : list string * Dict.t acc_entry * option string :=
  match chunks with
  | [] => ([], accumulated_tool_calls, None)
  | c :: rest =>
      match convert_streaming_chunk_to_gemini json_loads c
                                              accumulated_tool_calls
      with
      | (Raised message, accumulated_tool_calls) =>
          ([], accumulated_tool_calls, Some message)
      | (Returned gemini_chunk, accumulated_tool_calls) =>
          let '(frames, accumulated_tool_calls, raised) :=
            consume rest accumulated_tool_calls in
          (match gemini_chunk with
           | Some g => data_frame json_dumps (json_of_chunk g) :: frames
           | None => frames
           end, accumulated_tool_calls, raised)
      end
  end.

(** Body of the loop over [accumulated_tool_calls.values()]: the frames
    it yields, or the exception that its handler does not catch. *)
Definition flush_entry (tool_data : acc_entry) : outcome (list string) :=
  if PyStr.truthy (a_name tool_data) && PyStr.truthy (a_arguments tool_data)
  then match json_loads (a_arguments tool_data) with
       | Parsed parsed_args =>
           Returned
             [data_frame json_dumps
                (json_of_chunk (final_gemini_chunk (a_name tool_data)
                                                   parsed_args))]
       | DecodeError _ => Returned []
       | OtherError message => Raised message
       end
  else Returned [].

(** The loop: the frames yielded, and the exception that ended it, if
    any. *)
Fixpoint flush_values (values : list acc_entry)
  : list string * option string :=
  match values with
  | [] => ([], None)
  | tool_data :: rest =>
      match flush_entry tool_data with
      | Returned frames =>
          let '(more, raised) := flush_values rest in
          (frames ++ more, raised)
      | Raised message => ([], Some message)
      end
  end.

Definition flush (accumulated_tool_calls : Dict.t acc_entry)
  : list string * option string :=
  flush_values (Dict.values accumulated_tool_calls).

(** The frames the generator yields, in order.  Whatever is raised inside
    the [try] block reaches [except Exception], which yields the error
    frame and ends the generator.  The logging calls do not take part in
    the result. *)
Definition stream_generate_content (rq : request_data) : list string :=
  match create (build_completion_params json_dumps MODEL_MAPPING
                  DEFAULT_OPENAI_MODEL rq) with
  | Raised e => [error_frame json_dumps e]
  | Returned stream =>
      match consume (delivered stream) Dict.empty with
      | (frames, _, Some e) => frames ++ [error_frame json_dumps e]
      | (frames, accumulated_tool_calls, None) =>
          match failure stream with
          | Some e => frames ++ [error_frame json_dumps e]
          | None =>
              match flush accumulated_tool_calls with
              | (more, Some e) =>
                  frames ++ more ++ [error_frame json_dumps e]
              | (more, None) => frames ++ more
              end
          end
      end
  end.

(** The response returned, or the [HTTPException] raised in the handler
    of [generate_content].  The logging calls do not take part in the
    result. *)
Definition generate_content (rq : request_data)
  : gemini_response + http_exception :=
  match create_completion (single_completion_params json_dumps MODEL_MAPPING
                             DEFAULT_OPENAI_MODEL rq) with
  | Raised e => inr {| status_code := 500; detail := e |}
  | Returned response =>
      match convert_response_to_gemini json_loads response with
      | inl gemini_response => inl gemini_response
      | inr e => inr {| status_code := 500; detail := str e |}
      end
  end.

End GeminiProxyService.

End Raising.

(** ** Vocabulary of the properties *)

(** [config.get(k)] on an optional configuration. *)
Definition config_get (k : string) (config : option (Dict.t json))
  : option json :=
  match config with
  | Some c => Dict.get k c
  | None => None
  end.

(** The finish-reason table as the design document words it: five entries
    and a default. *)
Definition spec_finish_reason (backend : option string) : string :=
  match backend with
  | Some r =>
      if String.eqb r "stop" then "STOP"
      else if String.eqb r "length" then "MAX_TOKENS"
      else if String.eqb r "content_filter" then "SAFETY"
      else if String.eqb r "tool_calls" then "STOP"
      else if String.eqb r "function_call" then "STOP"
      else "STOP"
  | None => "STOP"
  end.

(** The function responses the loop over the parts of a user turn reads as
    such, in order: dictionaries with a functionResponse key and no text
    key. *)
Definition responses_of (parts : list part) : list function_response :=
  flat_map (fun p => match p with
                     | PartDict d =>
                         match p_text d, p_functionResponse d with
                         | None, Some fr => [fr]
                         | _, _ => []
                         end
                     | _ => []
                     end) parts.

(** A string all of whose characters are white space. *)
Fixpoint all_space (w : string) : bool :=
  match w with
  | String c r => PyStr.is_space c && all_space r
  | EmptyString => true
  end.

(** A single outer fenced block labelled json: the opening fence and its
    label, optional white space up to a line break, the interior, a line
    break and the closing fence. *)
Definition json_fenced (t : string) : Prop :=
  exists w interior : string,
    all_space w = true /\
    t = (Re.fence ++ "json" ++ w ++ PyStr.newline
         ++ interior ++ PyStr.newline ++ Re.fence)%string.

(** A response with one choice and no tool call. *)
Definition text_response (text : string) (finish_reason : option string)
  : chat_completion :=
  {| cc_choices :=
       [{| rc_message := {| rm_content := Some text; rm_tool_calls := None |};
           rc_finish_reason := finish_reason |}];
     cc_usage := None |}.

(** A user or model turn. *)
Definition turn (role : string) (parts : list part) : content :=
  {| c_role := Some role; c_parts := Some parts |}.

(** A streamed fragment carrying one tool-call entry and nothing else: no
    text, no finish reason. *)
Definition tool_call_fragment (index : option Z) (id : option string)
    (name arguments : option string) : chunk :=
  {| ck_choices :=
       [{| ch_delta :=
             Some {| d_content := None;
                     d_tool_calls :=
                       Some [{| td_index := index; td_id := id;
                                td_function :=
                                  Some {| fd_name := name;
                                          fd_arguments := arguments |} |}] |};
           ch_finish_reason := None |}] |}.

(** A streamed fragment carrying text and a finish reason. *)
Definition text_fragment (text : string) (finish_reason : option string)
  : chunk :=
  {| ck_choices :=
       [{| ch_delta := Some {| d_content := Some text; d_tool_calls := None |};
           ch_finish_reason := finish_reason |}] |}.

(** The tool-call entries a fragment hands to the accumulation loop. *)
Definition chunk_tool_calls (c : chunk) : list tool_call_delta :=
  match ck_choices c with
  | choice :: _ =>
      match ch_delta choice with
      | Some d => delta_tool_calls d
      | None => []
      end
  | [] => []
  end.

(** The slot a tool-call entry meets in the mapping: the stored one, or a
    fresh one on first sight. *)
Definition slot (acc : Dict.t acc_entry) (tc : tool_call_delta) : acc_entry :=
  match Dict.get (tool_call_key tc) acc with
  | Some e => e
  | None => fresh_entry
  end.

(** What a tool-call entry of a fragment brings: its identifier, function
    name and argument text, empty when absent. *)
Definition incoming_id (tc : tool_call_delta) : string :=
  match td_id tc with Some i => i | None => "" end.

Definition incoming_name (tc : tool_call_delta) : string :=
  match td_function tc with
  | Some f => match fd_name f with Some n => n | None => "" end
  | None => ""
  end.

Definition incoming_arguments (tc : tool_call_delta) : string :=
  match td_function tc with
  | Some f => match fd_arguments f with Some a => a | None => "" end
  | None => ""
  end.

(** The string [{"x":] and the string [{"x":1}], and [{"a":1}]. *)
Definition args_head : string := "{" ++ Json.dq ++ "x" ++ Json.dq ++ ":".
Definition args_tail : string := "1}".
Definition a1_text : string := "{" ++ Json.dq ++ "a" ++ Json.dq ++ ":1}".

(** A slot is pending when the loop would not emit it: its name or its
    buffer is empty, or the buffer is not JSON. *)
Definition pending (json_loads : string -> option json) (e : acc_entry)
  : bool :=
  negb (PyStr.truthy (a_arguments e) && PyStr.truthy (a_name e)
        && match json_loads (a_arguments e) with
           | Some _ => true
           | None => false
           end).

(** Every slot of the mapping is pending. *)
Definition all_pending (json_loads : string -> option json)
    (acc : Dict.t acc_entry) : Prop :=
  Forall (fun kv => pending json_loads (snd kv) = true) acc.

(** A sample history: a model turn calling [f], a user turn, and a final
    model turn with text and a call of [g]. *)
Definition call_f : part :=
  functionCall_part (mk_function_call (Some "f") None).

Definition call_g : part :=
  functionCall_part (mk_function_call (Some "g") None).

Definition sample_history : list content :=
  [turn "model" [call_f];
   turn "user" [text_part "hi"];
   turn "model" [text_part "done"; call_g]].

(** The text a turn holds: its text parts and bare strings, in order. *)
Definition texts_of (parts : list part) : string :=
  fold_right String.append ""
    (map (fun p => match p with
                   | PartDict d => match p_text d with
                                   | Some t => t
                                   | None => ""
                                   end
                   | PartStr s => s
                   | PartOther => ""
                   end) parts).

(** The pieces of a text, put together. *)
Definition joined (pieces : list string) : string :=
  fold_right String.append "" pieces.

(** The function calls the loop over the parts of a model turn reads as
    such, in order: dictionaries with a functionCall key and no text key. *)
Definition calls_of (parts : list part) : list function_call :=
  flat_map (fun p => match p with
                     | PartDict d =>
                         match p_text d, p_functionCall d with
                         | None, Some fc => [fc]
                         | _, _ => []
                         end
                     | _ => []
                     end) parts.

(** Whether a text is blank: empty once trimmed. *)
Definition blank (text : string) : bool :=
  negb (PyStr.truthy (PyStr.strip text)).

(** All function declarations of a tool list, group after group. *)
Definition declarations_of (tools : option (list tool_group))
  : list function_declaration :=
  match tools with
  | Some groups =>
      flat_map (fun g => match functionDeclarations g with
                         | Some decls => decls
                         | None => []
                         end) groups
  | None => []
  end.

(** A fenced block labelled json around [interior]. *)
Definition wrap_json (interior : string) : string :=
  Re.fence ++ "json" ++ PyStr.newline ++ interior ++ PyStr.newline ++ Re.fence.

(** The first character of a string, if any, is not white space. *)
Definition starts_tight (s : string) : bool :=
  match s with
  | String c _ => negb (PyStr.is_space c)
  | EmptyString => true
  end.

(** A streamed fragment carrying one piece of argument text for a slot. *)
Definition args_fragment (index : option Z) (piece : string) : chunk :=
  tool_call_fragment index None None (Some piece).

(** A part of a streamed fragment is well formed: a text is not empty, a
    function call has a name and arguments parsed from a non-empty
    buffer. *)
Definition well_formed_part (json_loads : string -> option json)
    (p : gemini_part) : Prop :=
  match p with
  | TextPart t => t <> ""
  | FunctionCallPart name args =>
      name <> "" /\ exists buffer, buffer <> "" /\ json_loads buffer = Some args
  end.

(** A message of a converted request is well formed. *)
Definition trimmed (t : string) : Prop := t <> "" /\ PyStr.strip t = t.

Definition well_formed_message (m : message) : Prop :=
  (m_role m = "user"
   /\ (exists t, m_content m = Some t /\ trimmed t)
   /\ m_tool_call_id m = None /\ m_tool_calls m = None)
  \/ (m_role m = "tool"
      /\ (exists payload, m_content m = Some payload)
      /\ (exists name, m_tool_call_id m = Some (name ++ ":0")%string)
      /\ m_tool_calls m = None)
  \/ (m_role m = "assistant"
      /\ (m_content m = None \/ exists t, m_content m = Some t /\ trimmed t)
      /\ (m_tool_calls m = None
          \/ exists tc tcs, m_tool_calls m = Some (tc :: tcs)
                            /\ forall c, In c (tc :: tcs) ->
                                         tc_type c = "function"
                                         /\ exists name,
                                             tc_id c = (name ++ ":0")%string)
      /\ (m_content m <> None \/ m_tool_calls m <> None)
      /\ m_tool_call_id m = None).

(** The tool calls of a choice of a complete response. *)
Definition response_tool_calls (choice : response_choice)
  : list response_tool_call :=
  match rm_tool_calls (rc_message choice) with
  | Some l => l
  | None => []
  end.

(** The text part a choice of a complete response gives. *)
Definition response_text_parts (choice : response_choice) : list gemini_part :=
  match rm_content (rc_message choice) with
  | Some t => if PyStr.truthy t then [TextPart (clean_markdown_json t)] else []
  | None => []
  end.

(** The tool declaration a function declaration is converted into. *)
Definition declared_tool (d : function_declaration) : openai_tool :=
  {| ot_name := match decl_name d with Some n => n | None => "" end;
     ot_description := match decl_description d with
                       | Some t => t
                       | None => ""
                       end;
     ot_parameters := match decl_parameters d with
                      | Some j => j
                      | None => JObj []
                      end |}.

(** A tool call of a complete response is converted into a part when its
    argument text parses. *)
Definition call_converted (json_loads : string -> loaded)
    (tc : response_tool_call) (p : gemini_part) : Prop :=
  exists args, json_loads (rtc_arguments tc) = Parsed args
               /\ p = FunctionCallPart (rtc_name tc) args.

(** The tool-call entry an argument fragment hands to the loop. *)
Definition piece_entry (index : option Z) (piece : string) : tool_call_delta :=
  mk_tool_call_delta index None (Some (mk_function_delta None (Some piece))).

(** Clients of the single-shot exchange: one that answers with a given
    response, one that raises. *)
Definition answering_client (response : chat_completion)
  : completion_params -> outcome chat_completion :=
  fun _ => Returned response.

Definition raising_client (e : string)
  : completion_params -> outcome chat_completion :=
  fun _ => Raised e.

(** The index a tool-call entry is filed under: 0 when it has none. *)
Definition slot_index (tc : tool_call_delta) : Z :=
  match td_index tc with Some i => i | None => 0%Z end.

(** The messages of a turn that is not the last of its history, and of a
    turn that is: the conversion of the turn at index 0 of a history of two
    turns, and of one. *)
Definition kept_turn (json_dumps : json -> string) (c : content)
  : list message :=
  convert_content json_dumps [c; c] 0 c.

Definition final_turn (json_dumps : json -> string) (c : content)
  : list message :=
  convert_content json_dumps [c] 0 c.

(** The values a finishReason takes. *)
Definition gemini_finish_reason (r : string) : bool :=
  String.eqb r "STOP" || String.eqb r "MAX_TOKENS" || String.eqb r "SAFETY".

(** A slot that the loop at the end of the stream discards: its name or
    its buffer is empty, or [json.loads] raises [json.JSONDecodeError] on
    the buffer. *)
Definition discarded (json_loads : string -> loaded) (e : acc_entry) : bool :=
  negb (PyStr.truthy (a_name e) && PyStr.truthy (a_arguments e))
  || match json_loads (a_arguments e) with
     | DecodeError _ => true
     | Parsed _ => false
     | OtherError _ => false
     end.

(** Every slot of the mapping is one the loop discards. *)
Definition all_discarded (json_loads : string -> loaded)
    (acc : Dict.t acc_entry) : Prop :=
  Forall (fun kv => discarded json_loads (snd kv) = true) acc.

(** The number of decimal digits of the first integer of a value, in the
    order of the text, that has more than [limit] of them. *)
Fixpoint first_long_integer (limit : nat) (j : json) : option nat :=
  match j with
  | JInt z =>
      let digits := String.length (PyStr.of_Z (Z.abs z)) in
      if (limit <? digits)%nat then Some digits else None
  | JArr items =>
      fold_right (fun item later =>
                    match first_long_integer limit item with
                    | Some digits => Some digits
                    | None => later
                    end) None items
  | JObj members =>
      fold_right (fun member later =>
                    match first_long_integer limit (snd member) with
                    | Some digits => Some digits
                    | None => later
                    end) None members
  | _ => None
  end.

(** The message of the [ValueError] raised on an integer of [digits]
    decimal digits by an interpreter that limits them to [limit]. *)
Definition digit_limit_message (limit digits : nat) : string :=
  "Exceeds the limit (" ++ PyStr.of_Z (Z.of_nat limit)
  ++ " digits) for integer string conversion: value has "
  ++ PyStr.of_Z (Z.of_nat digits)
  ++ " digits; use sys.set_int_max_str_digits() to increase the limit".

(** A loader for the examples, after [json.loads] of an interpreter whose
    integers are limited to [limit] decimal digits (4300 unless set
    otherwise): the parser of the library model, and the [ValueError] of an
    integer beyond the limit.  The message of a [json.JSONDecodeError],
    which no handler reads, is cut short. *)
Definition loads_within (limit : nat) (s : string) : loaded :=
  match Json.loads s with
  | Some v =>
      match first_long_integer limit v with
      | Some digits => OtherError (digit_limit_message limit digits)
      | None => Parsed v
      end
  | None => DecodeError "Expecting value"
  end.

(** A text of [n] digits 1. *)
Fixpoint ones (n : nat) : string :=
  match n with
  | O => ""
  | S n => String "1" (ones n)
  end.

(** Sample exchanges: a request with one user turn, and clients that
    refuse the request, break off after a first fragment, or deliver a
    stream to its end. *)
Definition sample_request : request_data :=
  {| rq_model := Some "gemini-1.5-pro";
     rq_contents := Some [turn "user" [text_part "Hi"]];
     rq_systemInstruction := None;
     rq_generationConfig := None;
     rq_tools := None |}.

Definition refusing_client (e : string) : completion_params -> outcome stream :=
  fun _ => Raised e.

Definition breaking_client (e : string) : completion_params -> outcome stream :=
  fun _ => Returned {| delivered := [text_fragment "Hel" None];
                       failure := Some e |}.

Definition serving_client (chunks : list chunk)
  : completion_params -> outcome stream :=
  fun _ => Returned {| delivered := chunks; failure := None |}.

(** Rewrites the loop step in the goal with an equation proved for it. *)
Ltac use_step S :=
  match type of S with
  | _ = ?r =>
      match goal with
      | |- context [accumulate ?j ?st ?tc] =>
          replace (accumulate j st tc) with r by (symmetry; exact S)
      end
  end.

(** ** Dictionaries *)

Module DictFacts.

Lemma get_set_same {V} (k : string) (v : V) (d : Dict.t V) :
  Dict.get k (Dict.set k v d) = Some v.
Proof.
  induction d as [|[k' v'] d IH]; simpl.
  - now rewrite String.eqb_refl.
  - destruct (String.eqb k k') eqn:E; simpl; rewrite E; auto.
Qed.

Lemma get_set_other {V} (k k0 : string) (v : V) (d : Dict.t V) :
  k0 <> k -> Dict.get k0 (Dict.set k v d) = Dict.get k0 d.
Proof.
  intros Hne. induction d as [|[k' v'] d IH]; simpl.
  - apply String.eqb_neq in Hne. now rewrite Hne.
  - destruct (String.eqb k k') eqn:E; simpl.
    + apply String.eqb_eq in E; subst k'.
      apply String.eqb_neq in Hne. now rewrite Hne.
    + destruct (String.eqb k0 k'); auto.
Qed.

Lemma get_del_same {V} (k : string) (d : Dict.t V) :
  Dict.get k (Dict.del k d) = None.
Proof.
  induction d as [|[k' v'] d IH]; simpl; auto.
  destruct (String.eqb k k') eqn:E; simpl; auto. now rewrite E.
Qed.

Lemma get_del_other {V} (k k0 : string) (d : Dict.t V) :
  k0 <> k -> Dict.get k0 (Dict.del k d) = Dict.get k0 d.
Proof.
  intros Hne. induction d as [|[k' v'] d IH]; simpl; auto.
  destruct (String.eqb k k') eqn:E; simpl.
  - apply String.eqb_eq in E; subst k'.
    apply String.eqb_neq in Hne. now rewrite Hne.
  - destruct (String.eqb k0 k'); auto.
Qed.

End DictFacts.

(** ** Generation parameters *)

Section ConfigFacts.

Lemma params_lookup (config : option (Dict.t json)) (k : string) :
  Dict.get k (convert_config_to_openai_params config) =
  if String.eqb k "temperature" then config_get "temperature" config
  else if String.eqb k "max_tokens" then config_get "maxOutputTokens" config
  else if String.eqb k "top_p" then config_get "topP" config
  else if String.eqb k "stop" then config_get "stopSequences" config
  else None.
Proof.
  assert (Hempty : forall c : option (Dict.t json),
             (Dict.get k (@Dict.empty json) =
              if String.eqb k "temperature" then None
              else if String.eqb k "max_tokens" then None
              else if String.eqb k "top_p" then None
              else if String.eqb k "stop" then None
              else @None json)).
  { intros _.
    repeat match goal with |- context [if ?b then _ else _] => destruct b end;
      reflexivity. }
  destruct config as [[|kv c]|]; [exact (Hempty None) | | exact (Hempty None)].
  unfold convert_config_to_openai_params, config_get.
  remember (kv :: c) as cfg eqn:Hcfg. clear Hcfg Hempty.
  unfold copy_key, Dict.empty.
  destruct (Dict.get "temperature" cfg), (Dict.get "maxOutputTokens" cfg),
    (Dict.get "topP" cfg), (Dict.get "stopSequences" cfg);
    cbn [Dict.set Dict.get String.eqb Ascii.eqb Bool.eqb];
    destruct (String.eqb_spec k "temperature") as [->|?]; try reflexivity;
    destruct (String.eqb_spec k "max_tokens") as [->|?]; try reflexivity;
    destruct (String.eqb_spec k "top_p") as [->|?]; try reflexivity;
    destruct (String.eqb_spec k "stop") as [->|?]; reflexivity.
Qed.

End ConfigFacts.

(** C8.  [convert_config_to_openai_params] preserves presence: an absent or
    empty configuration gives the empty parameter set; [temperature],
    [max_tokens], [top_p] and [stop] are present in the result exactly when
    [temperature], [maxOutputTokens], [topP] and [stopSequences] are present
    in the input, with the same value; no other key, [topK] included, is
    ever present; a configuration holding only [topP] gives a parameter set
    holding only [top_p]. *)
Theorem C8_config_presence_preserving :
  convert_config_to_openai_params None = Dict.empty
  /\ convert_config_to_openai_params (Some Dict.empty) = Dict.empty
  /\ (forall config : option (Dict.t json),
         Dict.get "temperature" (convert_config_to_openai_params config)
         = config_get "temperature" config
         /\ Dict.get "max_tokens" (convert_config_to_openai_params config)
            = config_get "maxOutputTokens" config
         /\ Dict.get "top_p" (convert_config_to_openai_params config)
            = config_get "topP" config
         /\ Dict.get "stop" (convert_config_to_openai_params config)
            = config_get "stopSequences" config
         /\ Dict.get "topK" (convert_config_to_openai_params config) = None
         /\ forallb
              (fun k => existsb (String.eqb k)
                                ["temperature"; "max_tokens"; "top_p"; "stop"])
              (Dict.keys (convert_config_to_openai_params config))
            = true)
  /\ (forall v : json,
         convert_config_to_openai_params (Some [("topP", v)]) = [("top_p", v)]).
Proof.
  split; [reflexivity|]. split; [reflexivity|]. split; [|reflexivity].
  intros config. repeat split; try (rewrite params_lookup; reflexivity).
  destruct config as [[|kv c]|]; try reflexivity.
  unfold convert_config_to_openai_params, copy_key.
  remember (kv :: c) as cfg eqn:Hcfg. clear Hcfg.
  destruct (Dict.get "temperature" cfg), (Dict.get "maxOutputTokens" cfg),
    (Dict.get "topP" cfg), (Dict.get "stopSequences" cfg); reflexivity.
Qed.

(** ** Conversation turns *)

Section TurnFacts.

Variable json_dumps : json -> string.

Lemma user_fold_messages (parts : list part) (t : string)
    (ms : list message) :
  snd (fold_left (user_part_step json_dumps) parts (t, ms))
  = ms ++ map (tool_message json_dumps) (responses_of parts).
Proof.
  revert t ms. induction parts as [|p parts IH]; intros t ms; simpl.
  - now rewrite app_nil_r.
  - destruct p as [d|s|]; simpl; try apply IH.
    destruct (p_text d); [apply IH|].
    destruct (p_functionResponse d) as [fr|]; [|apply IH].
    rewrite IH. simpl. now rewrite <- app_assoc.
Qed.

Lemma convert_user_tool_messages (parts : list part) :
  exists text_turn,
    convert_user json_dumps parts
    = text_turn ++ map (tool_message json_dumps) (responses_of parts).
Proof.
  unfold convert_user.
  pose proof (user_fold_messages parts "" []) as H.
  destruct (fold_left (user_part_step json_dumps) parts ("", []))
    as [text tms].
  simpl in H. subst tms. eexists. reflexivity.
Qed.

Lemma in_responses_of (parts : list part) (d : part_dict)
    (fr : function_response) :
  In (PartDict d) parts -> p_text d = None ->
  p_functionResponse d = Some fr -> In fr (responses_of parts).
Proof.
  intros Hin Ht Hr. unfold responses_of. apply in_flat_map.
  exists (PartDict d). split; [exact Hin|]. rewrite Ht, Hr. now left.
Qed.

(** What the loop appends for the turn at index [i + j] is part of the
    result. *)
Lemma convert_from_incl (contents rest : list content) (i j : nat)
    (c : content) :
  nth_error rest j = Some c ->
  incl (convert_content json_dumps contents (i + j) c)
       (convert_from json_dumps contents i rest).
Proof.
  revert i j. induction rest as [|c0 rest IH]; intros i j Hn.
  - destruct j; discriminate.
  - destruct j as [|j]; simpl in *.
    + injection Hn as ->. rewrite Nat.add_0_r. now apply incl_appl.
    + apply incl_appr. replace (i + S j) with (S i + j) by lia.
      now apply IH.
Qed.

Lemma convert_content_incl (contents : list content) (i : nat)
    (c : content) :
  nth_error contents i = Some c ->
  incl (convert_content json_dumps contents i c)
       (convert_contents_to_messages json_dumps contents).
Proof.
  intros H. exact (convert_from_incl contents contents 0 i c H).
Qed.

End TurnFacts.

(** C10.  For every part of a user-role turn that the converter reads as a
    functionResponse (a dictionary with a functionResponse key and no text
    key), the converted request holds a tool turn whose call identifier is
    the name of the response followed by [:0] ([unknown:0] when the name is
    absent) and whose payload is [json.dumps] of the response field ([{}]
    when it is absent); a ToolCall identifier is synthesized in the same
    format. *)
Theorem C10_tool_result_turn (json_dumps : json -> string) :
  (forall (contents : list content) (i : nat) (c : content)
          (d : part_dict) (fr : function_response),
      nth_error contents i = Some c ->
      get_role c = "user" ->
      In (PartDict d) (get_parts c) ->
      p_text d = None ->
      p_functionResponse d = Some fr ->
      In {| m_role := "tool";
            m_content :=
              Some (json_dumps (match fr_response fr with
                                | Some r => r
                                | None => JObj []
                                end));
            m_tool_call_id :=
              Some ((match fr_name fr with
                     | Some n => n
                     | None => "unknown"
                     end) ++ ":0")%string;
            m_tool_calls := None |}
         (convert_contents_to_messages json_dumps contents))
  /\ (forall fc : function_call,
         tc_id (to_tool_call json_dumps fc)
         = ((match fc_name fc with
             | Some n => n
             | None => "unknown"
             end) ++ ":0")%string).
Proof.
  split; [|reflexivity].
  intros contents i c d fr Hn Hrole Hin Ht Hr.
  apply (convert_content_incl json_dumps contents i c Hn).
  unfold convert_content. rewrite Hrole. simpl.
  destruct (convert_user_tool_messages json_dumps (get_parts c)) as [tt ->].
  apply in_or_app. right.
  apply (in_map (tool_message json_dumps)) with (x := fr).
  eapply in_responses_of; eauto.
Qed.

Lemma C10_tool_result_turn_witness :
  In {| m_role := "tool";
        m_content := Some "{}";
        m_tool_call_id := Some "lookup:0";
        m_tool_calls := None |}
     (convert_contents_to_messages (Json.dumps true)
        [turn "user"
              [text_part "ok";
               functionResponse_part
                 (mk_function_response (Some "lookup") None)]]).
Proof.
  exact (proj1 (C10_tool_result_turn (Json.dumps true))
           [turn "user"
                 [text_part "ok";
                  functionResponse_part
                    (mk_function_response (Some "lookup") None)]]
           0 _ (mk_part_dict None None
                             (Some (mk_function_response (Some "lookup") None)))
           (mk_function_response (Some "lookup") None)
           eq_refl eq_refl (or_intror (or_introl eq_refl)) eq_refl eq_refl).
Defined.

(** C7 as stated fails: the same parts under role [assistant] and under
    role [model] are not converted alike. *)
Lemma C7_assistant_is_not_model :
  convert_contents_to_messages (Json.dumps true)
    [turn "assistant" [text_part "hi"]] = []
  /\ convert_contents_to_messages (Json.dumps true)
       [turn "model" [text_part "hi"]]
     = [{| m_role := "assistant"; m_content := Some "hi";
           m_tool_call_id := None; m_tool_calls := None |}]
  /\ convert_contents_to_messages (Json.dumps true)
       [turn "assistant" [text_part "hi"]]
     <> convert_contents_to_messages (Json.dumps true)
          [turn "model" [text_part "hi"]].
Proof.
  repeat split; try reflexivity. vm_compute. discriminate.
Qed.

(** ** Finish reasons *)

Lemma finish_reason_table (r : option string) :
  match mapping_get finish_reason_mapping r with
  | Some m => m
  | None => "STOP"
  end = spec_finish_reason r.
Proof.
  destruct r as [r|]; [|reflexivity].
  unfold mapping_get, finish_reason_mapping, spec_finish_reason. simpl.
  repeat match goal with
         | |- context [String.eqb r ?k] => destruct (String.eqb r k)
         end; reflexivity.
Qed.

Lemma convert_response_finish_reason (json_loads : string -> option json)
    (response : chat_completion) (out : gemini_response) :
  convert_response_to_gemini json_loads response = Some out ->
  exists choice rest,
    cc_choices response = choice :: rest
    /\ cand_finishReason (gr_candidate out)
       = Some (spec_finish_reason (rc_finish_reason choice)).
Proof.
  unfold convert_response_to_gemini.
  destruct (cc_choices response) as [|choice rest]; [discriminate|].
  destruct (function_call_parts json_loads _); [|discriminate].
  intros [= <-]. exists choice, rest. split; [reflexivity|]. simpl.
  now rewrite finish_reason_table.
Qed.

Lemma convert_chunk_finish_reason (json_loads : string -> option json)
    (c : chunk) (acc acc' : Dict.t acc_entry) (out : candidate) :
  convert_streaming_chunk_to_gemini json_loads c acc = (Some out, acc') ->
  exists choice rest,
    ck_choices c = choice :: rest
    /\ cand_finishReason out
       = if PyStr.truthy_opt (ch_finish_reason choice)
         then mapping_get streaming_finish_reason_mapping
                          (ch_finish_reason choice)
         else None.
Proof.
  unfold convert_streaming_chunk_to_gemini.
  destruct (ck_choices c) as [|choice rest]; [discriminate|].
  destruct (ch_delta choice) as [d|]; [|discriminate].
  destruct (fold_left _ _ _) as [acc1 parts].
  destruct (_ && _); [discriminate|].
  intros [= <- _]. exists choice, rest. split; reflexivity.
Qed.

(** ** Pruning of trailing function calls *)

Section PruningFacts.

Variable json_dumps : json -> string.

Lemma convert_from_app (contents l1 l2 : list content) (i : nat) :
  convert_from json_dumps contents i (l1 ++ l2)
  = convert_from json_dumps contents i l1
    ++ convert_from json_dumps contents (i + List.length l1) l2.
Proof.
  revert i. induction l1 as [|c l1 IH]; intros i; simpl.
  - now rewrite Nat.add_0_r.
  - rewrite IH, <- app_assoc. now replace (S i + List.length l1)
      with (i + S (List.length l1)) by lia.
Qed.

(** No later turn, no response found. *)
Lemma has_response_last (contents : list content) (i : nat)
    (fc : function_call) :
  List.length contents <= i + 1 -> has_response contents i fc = false.
Proof.
  intros H. unfold has_response. now rewrite skipn_all2.
Qed.

(** In the last turn the loop over the parts never appends a tool call. *)
Lemma model_fold_last (contents : list content) (i : nat)
    (parts : list part) (t : string) (tcs : list tool_call) :
  i = List.length contents - 1 -> contents <> [] ->
  snd (fold_left (model_part_step json_dumps contents i) parts (t, tcs))
  = tcs.
Proof.
  intros Hi Hne. revert t tcs.
  induction parts as [|p parts IH]; intros t tcs; simpl; [reflexivity|].
  destruct p as [d|s|]; simpl; try apply IH.
  destruct (p_text d); [apply IH|].
  destruct (p_functionCall d) as [fc|]; [|apply IH].
  rewrite has_response_last.
  - subst i. rewrite Nat.eqb_refl. simpl. apply IH.
  - destruct contents; [congruence|]. simpl in *. lia.
Qed.

Lemma convert_user_no_tool_calls (parts : list part) (m : message) :
  In m (convert_user json_dumps parts) -> m_tool_calls m = None.
Proof.
  unfold convert_user.
  pose proof (user_fold_messages json_dumps parts "" []) as F.
  destruct (fold_left _ _ _) as [text tms]. simpl in F. subst tms.
  intros H. apply in_app_or in H. destruct H as [H|H].
  - destruct (PyStr.truthy _); [|contradiction].
    destruct H as [<-|[]]. reflexivity.
  - apply in_map_iff in H. destruct H as (fr & <- & _). reflexivity.
Qed.

Lemma final_turn_no_tool_calls (pre : list content) (c : content)
    (m : message) :
  In m (convert_content json_dumps (pre ++ [c]) (List.length pre) c) ->
  m_tool_calls m = None.
Proof.
  unfold convert_content.
  destruct (String.eqb (get_role c) "user").
  { apply convert_user_no_tool_calls. }
  destruct (String.eqb (get_role c) "model"); [|contradiction].
  unfold convert_model.
  pose proof (model_fold_last (pre ++ [c]) (List.length pre)
                (get_parts c) "" []) as F.
  destruct (fold_left _ _ _) as [text tcs]. simpl in F.
  rewrite F.
  - destruct (_ || _); [|contradiction].
    intros [<-|[]]. reflexivity.
  - rewrite length_app. simpl. lia.
  - destruct pre; discriminate.
Qed.

(** The loop over the parts only ever appends to the tool calls. *)
Lemma model_fold_keeps (contents : list content) (i : nat)
    (parts : list part) (t : string) (tcs : list tool_call)
    (tc : tool_call) :
  In tc tcs ->
  In tc (snd (fold_left (model_part_step json_dumps contents i) parts
                        (t, tcs))).
Proof.
  revert t tcs. induction parts as [|p parts IH]; intros t tcs H; simpl;
    [exact H|].
  destruct p as [d|s|]; simpl; try (apply IH; exact H).
  destruct (p_text d); [apply IH; exact H|].
  destruct (p_functionCall d) as [fc|]; [|apply IH; exact H].
  destruct (_ && _); apply IH; [exact H|].
  apply in_or_app. now left.
Qed.

(** Before the last turn every function call the loop reads is kept. *)
Lemma model_fold_preserves (contents : list content) (i : nat)
    (parts : list part) (t : string) (tcs : list tool_call)
    (d : part_dict) (fc : function_call) :
  i <> List.length contents - 1 ->
  In (PartDict d) parts -> p_text d = None -> p_functionCall d = Some fc ->
  In (to_tool_call json_dumps fc)
     (snd (fold_left (model_part_step json_dumps contents i) parts
                     (t, tcs))).
Proof.
  intros Hi Hin Ht Hf. revert t tcs.
  induction parts as [|p parts IH]; intros t tcs; [contradiction|].
  destruct Hin as [->|Hin].
  - simpl. rewrite Ht, Hf.
    apply Nat.eqb_neq in Hi. rewrite Hi. simpl.
    apply model_fold_keeps. apply in_or_app. right. now left.
  - change (fold_left (model_part_step json_dumps contents i) (p :: parts)
                      (t, tcs))
      with (fold_left (model_part_step json_dumps contents i) parts
                      (model_part_step json_dumps contents i (t, tcs) p)).
    destruct (model_part_step json_dumps contents i (t, tcs) p).
    now apply IH.
Qed.

End PruningFacts.

(** C1.  The messages converted from the final input turn close the
    converted request and carry no ToolCall at all, so none without a
    matching functionResponse: every functionCall of the final turn is
    dropped, in particular one that no functionResponse of the request
    matches.  A functionCall part of a model turn that is not the final
    input turn is always converted into a ToolCall of the assistant turn
    made from that turn. *)
Theorem C1_trailing_calls_pruned (json_dumps : json -> string) :
  (forall (pre : list content) (c : content),
      convert_contents_to_messages json_dumps (pre ++ [c])
      = convert_from json_dumps (pre ++ [c]) 0 pre
        ++ convert_content json_dumps (pre ++ [c]) (List.length pre) c
      /\ forall m : message,
          In m (convert_content json_dumps (pre ++ [c]) (List.length pre) c) ->
          m_tool_calls m = None)
  /\ (forall (contents : list content) (i : nat) (c : content)
             (d : part_dict) (fc : function_call),
         nth_error contents i = Some c ->
         i + 1 < List.length contents ->
         get_role c = "model" ->
         In (PartDict d) (get_parts c) ->
         p_text d = None ->
         p_functionCall d = Some fc ->
         exists (m : message) (tcs : list tool_call),
           In m (convert_content json_dumps contents i c)
           /\ In m (convert_contents_to_messages json_dumps contents)
           /\ m_role m = "assistant"
           /\ m_tool_calls m = Some tcs
           /\ In {| tc_id :=
                      ((match fc_name fc with
                        | Some n => n
                        | None => "unknown"
                        end) ++ ":0")%string;
                    tc_type := "function";
                    tc_name := match fc_name fc with
                               | Some n => n
                               | None => ""
                               end;
                    tc_arguments :=
                      json_dumps (match fc_args fc with
                                  | Some a => a
                                  | None => JObj []
                                  end) |} tcs).
Proof.
  split.
  - intros pre c. split.
    + unfold convert_contents_to_messages at 1.
      rewrite convert_from_app. simpl. now rewrite app_nil_r.
    + apply final_turn_no_tool_calls.
  - intros contents i c d fc Hn Hi Hrole Hin Ht Hf.
    assert (Hm : In (to_tool_call json_dumps fc)
                    (snd (fold_left (model_part_step json_dumps contents i)
                                    (get_parts c) ("", [])))).
    { eapply model_fold_preserves; eauto. lia. }
    assert (Hc : convert_content json_dumps contents i c
                 = convert_model json_dumps contents i (get_parts c)).
    { unfold convert_content. now rewrite Hrole. }
    unfold convert_model in Hc.
    destruct (fold_left _ _ _) as [text tcs]. simpl in Hm.
    destruct tcs as [|tc0 tcs]; [contradiction|].
    rewrite orb_true_r in Hc.
    exists (assistant_message text (tc0 :: tcs)), (tc0 :: tcs).
    assert (Hin' : In (assistant_message text (tc0 :: tcs))
                      (convert_content json_dumps contents i c)).
    { rewrite Hc. now left. }
    split; [exact Hin'|]. split.
    { exact (convert_content_incl json_dumps contents i c Hn _ Hin'). }
    split; [reflexivity|]. split; [reflexivity|]. exact Hm.
Qed.

Lemma C1_trailing_calls_pruned_witness :
  m_tool_calls {| m_role := "assistant"; m_content := Some "done";
                  m_tool_call_id := None; m_tool_calls := None |} = None
  /\ exists (m : message) (tcs : list tool_call),
      In m (convert_content (Json.dumps true) sample_history 0
                            (turn "model" [call_f]))
      /\ In m (convert_contents_to_messages (Json.dumps true) sample_history)
      /\ m_role m = "assistant"
      /\ m_tool_calls m = Some tcs
      /\ In {| tc_id := "f:0"; tc_type := "function"; tc_name := "f";
               tc_arguments := "{}" |} tcs.
Proof.
  split.
  - exact (proj2 (proj1 (C1_trailing_calls_pruned (Json.dumps true))
                    [turn "model" [call_f]; turn "user" [text_part "hi"]]
                    (turn "model" [text_part "done"; call_g]))
             _ (or_introl eq_refl)).
  - apply (proj2 (C1_trailing_calls_pruned (Json.dumps true))
             sample_history 0 _
             (mk_part_dict None (Some (mk_function_call (Some "f") None)) None)
             (mk_function_call (Some "f") None)).
    + reflexivity.
    + simpl. lia.
    + reflexivity.
    + left. reflexivity.
    + reflexivity.
    + reflexivity.
Defined.

(** A function call of the final turn is dropped also when an earlier turn
    holds a function response of the same name: the search for a response
    looks at later turns only. *)
Example final_call_dropped_despite_earlier_response :
  convert_contents_to_messages (Json.dumps true)
    [turn "user"
          [functionResponse_part (mk_function_response (Some "f") None)];
     turn "model" [functionCall_part (mk_function_call (Some "f") None)]]
  = [{| m_role := "tool"; m_content := Some "{}";
        m_tool_call_id := Some "f:0"; m_tool_calls := None |}].
Proof. reflexivity. Qed.

(** A function call of a turn that is not the final one is kept also when
    no function response answers it, even if nothing is converted after
    it. *)
Example dangling_call_kept_before_blank_turn :
  convert_contents_to_messages (Json.dumps true)
    [turn "model" [functionCall_part (mk_function_call (Some "f") None)];
     turn "user" [text_part "  "]]
  = [{| m_role := "assistant"; m_content := None;
        m_tool_call_id := None;
        m_tool_calls :=
          Some [{| tc_id := "f:0"; tc_type := "function"; tc_name := "f";
                   tc_arguments := "{}" |}] |}].
Proof. reflexivity. Qed.

(** ** Fenced JSON text *)

Module StrFacts.

Lemma app_assoc (a b c : string) :
  ((a ++ b) ++ c = a ++ (b ++ c))%string.
Proof. induction a as [|x a IH]; simpl; [reflexivity | now rewrite IH]. Qed.

Lemma app_nil_r (a : string) : (a ++ "" = a)%string.
Proof. induction a as [|x a IH]; simpl; [reflexivity | now rewrite IH]. Qed.

(** [rstrip] leaves no white space at the end. *)
Lemma rstrip_last (s x : string) (c : ascii) :
  PyStr.rstrip s = (x ++ String c "")%string -> PyStr.is_space c = false.
Proof.
  revert x. induction s as [|a r IH]; intros x H; simpl in H.
  - destruct x; discriminate.
  - destruct (PyStr.rstrip r) as [|b r'] eqn:E.
    + destruct (PyStr.is_space a) eqn:Ea.
      * destruct x; discriminate.
      * destruct x as [|y x]; simpl in H.
        -- injection H as ->. exact Ea.
        -- injection H as _ H. destruct x; discriminate.
    + destruct x as [|y x]; simpl in H; [discriminate|].
      injection H as _ H. exact (IH x H).
Qed.

Lemma strip_last (s x : string) (c : ascii) :
  PyStr.strip s = (x ++ String c "")%string -> PyStr.is_space c = false.
Proof. apply rstrip_last. Qed.

End StrFacts.

Module ReFacts.

Lemma body_eq (s : string) :
  Re.body s =
  if Re.closing s then Some EmptyString
  else match s with
       | String c r =>
           match Re.body r with
           | Some g => Some (String c g)
           | None => None
           end
       | EmptyString => None
       end.
Proof. destruct s; reflexivity. Qed.

(** What the lazy group and the tail accept. *)
Lemma body_sound (s g : string) :
  Re.body s = Some g ->
  s = (g ++ Re.nl ++ Re.fence)%string
  \/ s = (g ++ Re.nl ++ Re.fence ++ Re.nl)%string.
Proof.
  revert g. induction s as [|c r IH]; intros g; rewrite body_eq.
  - simpl. discriminate.
  - destruct (Re.closing (String c r)) eqn:E.
    + intros [= <-]. unfold Re.closing in E.
      apply orb_true_iff in E. destruct E as [E|E];
        apply String.eqb_eq in E; rewrite E; [now left | now right].
    + destruct (Re.body r) as [g'|]; [|discriminate].
      intros [= <-]. destruct (IH g' eq_refl) as [-> | ->];
        [now left | now right].
Qed.

Lemma body_complete (interior : string) :
  Re.body (interior ++ Re.nl ++ Re.fence) <> None.
Proof.
  induction interior as [|c i IH]; rewrite body_eq.
  - simpl. discriminate.
  - destruct (Re.closing _); [discriminate|].
    change ((String c i ++ Re.nl ++ Re.fence)%string)
      with (String c (i ++ Re.nl ++ Re.fence)).
    cbv iota.
    destruct (Re.body (i ++ Re.nl ++ Re.fence)); [discriminate|].
    now elim IH.
Qed.

Lemma after_label_sound (s g : string) :
  Re.after_label s = Some g ->
  exists w, all_space w = true
            /\ (s = (w ++ Re.nl ++ g ++ Re.nl ++ Re.fence)%string
                \/ s = (w ++ Re.nl ++ g ++ Re.nl ++ Re.fence ++ Re.nl)%string).
Proof.
  revert g. induction s as [|c r IH]; intros g H; simpl in H; [discriminate|].
  assert (Hhere : (if Ascii.eqb c PyStr.nl then Re.body r else None) = Some g
                  -> exists w, all_space w = true
                               /\ (String c r
                                   = (w ++ Re.nl ++ g ++ Re.nl
                                      ++ Re.fence)%string
                                   \/ String c r
                                      = (w ++ Re.nl ++ g ++ Re.nl
                                         ++ Re.fence ++ Re.nl)%string)).
  { destruct (Ascii.eqb_spec c PyStr.nl) as [->|];
      [|intros Hb; discriminate Hb].
    intros Hb. exists EmptyString. split; [reflexivity|].
    destruct (body_sound r g Hb) as [-> | ->]; [now left | now right]. }
  destruct (PyStr.is_space c) eqn:Ec; [|exact (Hhere H)].
  destruct (Re.after_label r) as [g'|] eqn:Er; [|exact (Hhere H)].
  injection H as ->.
  destruct (IH g eq_refl) as (w & Hw & Hs).
  exists (String c w). split.
  - simpl. now rewrite Ec, Hw.
  - destruct Hs as [-> | ->]; [now left | now right].
Qed.

Lemma after_label_complete (w interior : string) :
  all_space w = true ->
  Re.after_label (w ++ Re.nl ++ interior ++ Re.nl ++ Re.fence) <> None.
Proof.
  induction w as [|c w IH]; intros Hw.
  - change (Re.after_label
              (String PyStr.nl (interior ++ Re.nl ++ Re.fence)) <> None).
    simpl.
    destruct (Re.after_label _); [discriminate|].
    apply body_complete.
  - simpl in Hw. apply andb_true_iff in Hw. destruct Hw as [Hc Hw].
    simpl. rewrite Hc.
    destruct (Re.after_label _) eqn:E; [discriminate|].
    now elim (IH Hw).
Qed.

Lemma strip_prefix_sound (p s r : string) :
  Re.strip_prefix p s = Some r -> s = (p ++ r)%string.
Proof.
  revert s. induction p as [|a p IH]; intros s H; simpl in H.
  - now injection H as ->.
  - destruct s as [|b s]; [discriminate|].
    destruct (Ascii.eqb_spec a b) as [->|]; [|discriminate].
    simpl. now rewrite (IH s H).
Qed.

Lemma strip_prefix_app (p r : string) :
  Re.strip_prefix p (p ++ r) = Some r.
Proof.
  induction p as [|a p IH]; simpl; [reflexivity|].
  now rewrite Ascii.eqb_refl.
Qed.

(** On a stripped string the pattern matches exactly the fenced blocks,
    and group 1 is an interior of the block. *)
Lemma match_sound (content g : string) :
  Re.match_json_fence (PyStr.strip content) = Some g ->
  exists w, all_space w = true
            /\ PyStr.strip content
               = (Re.fence ++ "json" ++ w ++ PyStr.newline
                  ++ g ++ PyStr.newline ++ Re.fence)%string.
Proof.
  unfold Re.match_json_fence. intros H.
  destruct (Re.strip_prefix _ _) as [r|] eqn:Ep; [|discriminate].
  apply strip_prefix_sound in Ep.
  destruct (after_label_sound r g H) as (w & Hw & [Hr|Hr]).
  - exists w. split; [exact Hw|]. rewrite Ep, Hr.
    now rewrite StrFacts.app_assoc.
  - exfalso. subst r.
    assert (E : PyStr.strip content
                = ((Re.fence ++ "json" ++ w ++ Re.nl ++ g ++ Re.nl ++ Re.fence)
                   ++ String PyStr.nl "")%string).
    { rewrite Ep. rewrite !StrFacts.app_assoc. reflexivity. }
    apply StrFacts.strip_last in E. discriminate E.
Qed.

Lemma match_complete (t : string) :
  json_fenced t -> Re.match_json_fence t <> None.
Proof.
  intros (w & interior & Hw & ->). unfold Re.match_json_fence.
  rewrite <- StrFacts.app_assoc, strip_prefix_app.
  now apply after_label_complete.
Qed.

End ReFacts.

Lemma clean_unfenced (text : string) :
  ~ json_fenced (PyStr.strip text) -> clean_markdown_json text = text.
Proof.
  intros Hn. unfold clean_markdown_json.
  destruct (Re.match_json_fence (PyStr.strip text)) as [g|] eqn:E;
    [|reflexivity].
  exfalso. apply Hn.
  destruct (ReFacts.match_sound text g E) as (w & Hw & Hs).
  exists w, g. split; assumption.
Qed.

(** C6.  A response whose message text is exactly the fenced block holding
    [{"a":1}] is converted into the single text part [{"a":1}], without
    fences; and whenever the message text is not, after trimming, a single
    outer fenced block labelled json, the text part of the converted
    response is that text unchanged.  (When it is such a block, the text is
    replaced by an interior of the block.) *)
Theorem C6_fenced_text_unwrapped (json_loads : string -> option json) :
  (forall finish_reason : option string,
      exists out : gemini_response,
        convert_response_to_gemini json_loads
          (text_response (Re.fence ++ "json" ++ PyStr.newline ++ a1_text
                          ++ PyStr.newline ++ Re.fence) finish_reason)
        = Some out
        /\ cand_parts (gr_candidate out) = [TextPart a1_text])
  /\ (forall (response : chat_completion) (choice : response_choice)
             (rest : list response_choice) (text : string)
             (out : gemini_response),
         cc_choices response = choice :: rest ->
         rm_content (rc_message choice) = Some text ->
         text <> "" ->
         ~ json_fenced (PyStr.strip text) ->
         convert_response_to_gemini json_loads response = Some out ->
         exists calls : list gemini_part,
           cand_parts (gr_candidate out) = TextPart text :: calls)
  /\ (forall text : string,
         ~ json_fenced (PyStr.strip text) -> clean_markdown_json text = text)
  /\ (forall text : string,
         json_fenced (PyStr.strip text) ->
         exists w interior : string,
           all_space w = true
           /\ PyStr.strip text
              = (Re.fence ++ "json" ++ w ++ PyStr.newline
                 ++ interior ++ PyStr.newline ++ Re.fence)%string
           /\ clean_markdown_json text = interior).
Proof.
  split; [|split; [|split]]; [| | |intros text Hf].
  4:{ pose proof (ReFacts.match_complete _ Hf) as Hm.
      unfold clean_markdown_json.
      destruct (Re.match_json_fence (PyStr.strip text)) as [g|] eqn:E;
        [|congruence].
      destruct (ReFacts.match_sound text g E) as (w & Hw & Hs).
      exists w, g. repeat split; assumption. }
  - intros fr. eexists. split; reflexivity.
  - intros response choice rest text out Hc Ht Hne Hnf.
    unfold convert_response_to_gemini. rewrite Hc, Ht.
    destruct text as [|c text]; [congruence|].
    cbn [PyStr.truthy].
    destruct (function_call_parts json_loads _) as [calls|]; [|discriminate].
    intros [= <-]. exists calls. simpl.
    now rewrite (clean_unfenced _ Hnf).
  - apply clean_unfenced.
Qed.

Lemma C6_fenced_text_unwrapped_witness :
  (exists calls : list gemini_part,
      [TextPart "Hello!"] = TextPart "Hello!" :: calls)
  /\ clean_markdown_json "  plain text " = "  plain text ".
Proof.
  assert (H : ~ json_fenced (PyStr.strip "Hello!")).
  { intros (w & i & _ & E). discriminate E. }
  assert (H' : ~ json_fenced (PyStr.strip "  plain text ")).
  { intros (w & i & _ & E). discriminate E. }
  split.
  - apply (proj1 (proj2 (C6_fenced_text_unwrapped Json.loads))
             (text_response "Hello!" (Some "stop")) _ [] "Hello!"
             {| gr_candidate :=
                  {| cand_parts := [TextPart "Hello!"];
                     cand_finishReason := Some "STOP" |};
                gr_usageMetadata := None |}
             eq_refl eq_refl).
    + discriminate.
    + exact H.
    + reflexivity.
  - exact (proj1 (proj2 (proj2 (C6_fenced_text_unwrapped Json.loads))) _ H').
Defined.

(** ** The accumulation loop *)

Section AccumulatorFacts.

Variable json_loads : string -> option json.

Lemma accumulate_pending (acc : Dict.t acc_entry) (parts : list gemini_part)
    (tc : tool_call_delta) :
  PyStr.truthy (a_arguments (update_entry tc (slot acc tc)))
  && PyStr.truthy (a_name (update_entry tc (slot acc tc))) = false
  \/ json_loads (a_arguments (update_entry tc (slot acc tc))) = None ->
  accumulate json_loads (acc, parts) tc
  = (Dict.set (tool_call_key tc) (update_entry tc (slot acc tc)) acc, parts).
Proof.
  unfold accumulate, slot. intros [H|H]; rewrite H; [reflexivity|].
  now destruct (_ && _).
Qed.

Lemma accumulate_complete (acc : Dict.t acc_entry)
    (parts : list gemini_part) (tc : tool_call_delta) (v : json) :
  a_arguments (update_entry tc (slot acc tc)) <> "" ->
  a_name (update_entry tc (slot acc tc)) <> "" ->
  json_loads (a_arguments (update_entry tc (slot acc tc))) = Some v ->
  accumulate json_loads (acc, parts) tc
  = (Dict.del (tool_call_key tc)
              (Dict.set (tool_call_key tc)
                        (update_entry tc (slot acc tc)) acc),
     parts ++ [FunctionCallPart (a_name (update_entry tc (slot acc tc))) v]).
Proof.
  unfold accumulate, slot. intros Ha Hn Hv. rewrite Hv.
  destruct (a_arguments _); [congruence|].
  destruct (a_name _); [congruence|]. reflexivity.
Qed.

(** The mapping a call leaves does not depend on the parts built so
    far. *)
Lemma accumulate_fst (acc : Dict.t acc_entry) (p1 p2 : list gemini_part)
    (tc : tool_call_delta) :
  fst (accumulate json_loads (acc, p1) tc)
  = fst (accumulate json_loads (acc, p2) tc).
Proof.
  unfold accumulate. destruct (_ && _); [|reflexivity].
  now destruct (json_loads _).
Qed.

(** A fragment changes the mapping only through the loop over its
    tool-call entries. *)
Lemma chunk_mapping (c : chunk) (acc : Dict.t acc_entry) :
  snd (convert_streaming_chunk_to_gemini json_loads c acc)
  = fold_left (fun a tc => fst (accumulate json_loads (a, []) tc))
              (chunk_tool_calls c) acc.
Proof.
  unfold convert_streaming_chunk_to_gemini, chunk_tool_calls.
  destruct (ck_choices c) as [|choice rest]; [reflexivity|].
  destruct (ch_delta choice) as [d|]; [|reflexivity].
  set (parts0 := match d_content d with
                 | Some t => if PyStr.truthy t then [TextPart t] else []
                 | None => []
                 end).
  assert (H : forall tcs a ps,
             fst (fold_left (accumulate json_loads) tcs (a, ps))
             = fold_left (fun a tc => fst (accumulate json_loads (a, []) tc))
                         tcs a).
  { induction tcs as [|tc tcs IH]; intros a ps; [reflexivity|].
    cbn [fold_left].
    rewrite (surjective_pairing (accumulate json_loads (a, ps) tc)).
    rewrite IH. now rewrite (accumulate_fst a ps [] tc). }
  rewrite <- (H (delta_tool_calls d) acc parts0).
  destruct (fold_left (accumulate json_loads) _ _) as [acc1 parts].
  now destruct (_ && _).
Qed.

End AccumulatorFacts.

Section UpdateFacts.

Lemma truthy_false (s : string) : PyStr.truthy s = false <-> s = "".
Proof. destruct s; simpl; split; congruence. Qed.

Lemma truthy_true (s : string) : PyStr.truthy s = true <-> s <> "".
Proof. destruct s; simpl; split; congruence. Qed.

Lemma update_id_kept (tc : tool_call_delta) (e : acc_entry) :
  a_id e <> "" -> a_id (update_entry tc e) = a_id e.
Proof.
  intros H. unfold update_entry. simpl.
  destruct (td_id tc) as [i|]; [|reflexivity].
  apply truthy_true in H. rewrite H. now rewrite andb_false_r.
Qed.

Lemma update_id_set (tc : tool_call_delta) (e : acc_entry) :
  a_id e = "" -> a_id (update_entry tc e) = incoming_id tc.
Proof.
  intros H. unfold update_entry, incoming_id. simpl. rewrite H.
  destruct (td_id tc) as [i|]; [|reflexivity]. now destruct i.
Qed.

Lemma update_name_kept (tc : tool_call_delta) (e : acc_entry) :
  a_name e <> "" -> a_name (update_entry tc e) = a_name e.
Proof.
  intros H. unfold update_entry. simpl.
  destruct (td_function tc) as [f|]; [|reflexivity].
  destruct (fd_name f) as [n|]; [|reflexivity].
  apply truthy_true in H. rewrite H. now rewrite andb_false_r.
Qed.

Lemma update_name_set (tc : tool_call_delta) (e : acc_entry) :
  a_name e = "" -> a_name (update_entry tc e) = incoming_name tc.
Proof.
  intros H. unfold update_entry, incoming_name. simpl. rewrite H.
  destruct (td_function tc) as [f|]; [|reflexivity].
  destruct (fd_name f) as [n|]; [|reflexivity]. now destruct n.
Qed.

Lemma update_arguments_appended (tc : tool_call_delta) (e : acc_entry) :
  a_arguments (update_entry tc e)
  = (a_arguments e ++ incoming_arguments tc)%string.
Proof.
  unfold update_entry, incoming_arguments. simpl.
  destruct (td_function tc) as [f|];
    [|now rewrite StrFacts.app_nil_r].
  destruct (fd_arguments f) as [a|]; [|now rewrite StrFacts.app_nil_r].
  destruct a; simpl; [now rewrite StrFacts.app_nil_r | reflexivity].
Qed.

End UpdateFacts.

(** C4.  One pass of the accumulation loop over a tool-call entry leaves
    its slot as follows: an identifier, and a function name, that is already
    non-empty is kept, and an empty one takes the incoming value (so the
    first non-empty occurrence sets it, and nothing overwrites it); the
    incoming argument text is appended to the buffer; the slot is removed
    from the mapping exactly when, after the update, the function name is
    non-empty and the buffer parses as JSON, and otherwise holds the updated
    entry; no other slot changes.  Over a whole fragment, and so over any
    sequence of fragments, the mapping changes only by such passes. *)
Theorem C4_accumulation_invariants (json_loads : string -> option json) :
  json_loads "" = None ->
  (forall (acc : Dict.t acc_entry) (parts : list gemini_part)
          (tc : tool_call_delta),
      exists after : acc_entry,
        (a_id (slot acc tc) <> "" -> a_id after = a_id (slot acc tc))
        /\ (a_id (slot acc tc) = "" -> a_id after = incoming_id tc)
        /\ (a_name (slot acc tc) <> "" -> a_name after = a_name (slot acc tc))
        /\ (a_name (slot acc tc) = "" -> a_name after = incoming_name tc)
        /\ a_arguments after
           = (a_arguments (slot acc tc) ++ incoming_arguments tc)%string
        /\ (Dict.get (tool_call_key tc)
                     (fst (accumulate json_loads (acc, parts) tc)) = None
            <-> a_name after <> "" /\ json_loads (a_arguments after) <> None)
        /\ (Dict.get (tool_call_key tc)
                     (fst (accumulate json_loads (acc, parts) tc)) = None
            \/ Dict.get (tool_call_key tc)
                        (fst (accumulate json_loads (acc, parts) tc))
               = Some after)
        /\ (forall k : string,
               k <> tool_call_key tc ->
               Dict.get k (fst (accumulate json_loads (acc, parts) tc))
               = Dict.get k acc))
  /\ (forall (c : chunk) (acc : Dict.t acc_entry),
         snd (convert_streaming_chunk_to_gemini json_loads c acc)
         = fold_left (fun a tc => fst (accumulate json_loads (a, []) tc))
                     (chunk_tool_calls c) acc).
Proof.
  intros Hempty. split; [|apply chunk_mapping].
  intros acc parts tc.
  exists (update_entry tc (slot acc tc)).
  split; [apply update_id_kept|]. split; [apply update_id_set|].
  split; [apply update_name_kept|]. split; [apply update_name_set|].
  split; [apply update_arguments_appended|].
  set (after := update_entry tc (slot acc tc)).
  destruct (json_loads (a_arguments after)) as [v|] eqn:Ev.
  - destruct (PyStr.truthy (a_name after)) eqn:En.
    + assert (Ha : a_arguments after <> "").
      { intros E. rewrite E, Hempty in Ev. discriminate. }
      apply truthy_true in En.
      rewrite (accumulate_complete json_loads acc parts tc v Ha En Ev).
      cbn [fst]. fold after. rewrite DictFacts.get_del_same.
      split; [|split].
      * split; [intros _; split; [exact En | discriminate] | reflexivity].
      * now left.
      * intros k Hk. rewrite DictFacts.get_del_other by exact Hk.
        now apply DictFacts.get_set_other.
    + rewrite accumulate_pending
        by (left; fold after; rewrite En; apply andb_false_r).
      cbn [fst]. fold after. rewrite DictFacts.get_set_same.
      apply truthy_false in En.
      split; [|split].
      * split; [discriminate | intros [H _]; congruence].
      * now right.
      * intros k Hk. now apply DictFacts.get_set_other.
  - rewrite accumulate_pending by (right; exact Ev).
    cbn [fst]. fold after. rewrite DictFacts.get_set_same.
    split; [|split].
    + split; [discriminate | intros [_ H]; congruence].
    + now right.
    + intros k Hk. now apply DictFacts.get_set_other.
Qed.

Lemma C4_accumulation_invariants_witness :
  exists after : acc_entry,
    a_id after = "call_1"
    /\ a_name after = "f"
    /\ a_arguments after = "{}"
    /\ Dict.get "tool_0"
         (fst (accumulate Json.loads
                 ([("tool_0", {| a_id := "call_1"; a_name := "f";
                                 a_arguments := "{" |})], [])
                 {| td_index := Some 0%Z; td_id := Some "late";
                    td_function := Some {| fd_name := Some "g";
                                           fd_arguments := Some "}" |} |}))
       = None.
Proof.
  destruct (proj1 (C4_accumulation_invariants Json.loads eq_refl)
              [("tool_0", {| a_id := "call_1"; a_name := "f";
                             a_arguments := "{" |})] []
              {| td_index := Some 0%Z; td_id := Some "late";
                 td_function := Some {| fd_name := Some "g";
                                        fd_arguments := Some "}" |} |})
    as (after & Hid & _ & Hname & _ & Hargs & Hdel & _).
  exists after.
  assert (Ei : a_id after = "call_1") by (apply Hid; discriminate).
  assert (En : a_name after = "f") by (apply Hname; discriminate).
  assert (Ea : a_arguments after = "{}") by exact Hargs.
  split; [exact Ei|]. split; [exact En|]. split; [exact Ea|].
  apply Hdel. rewrite En, Ea. split; discriminate.
Defined.

(** ** One tool call split over three fragments *)

Section SplitCall.

Variable json_loads : string -> option json.

(** A fragment carrying one tool-call entry only is emitted exactly when
    the loop completes a call. *)
Lemma convert_tool_call_fragment (index : option Z)
    (id name args : option string) (acc : Dict.t acc_entry) :
  convert_streaming_chunk_to_gemini json_loads
    (tool_call_fragment index id name args) acc
  = (match snd (accumulate json_loads (acc, [])
                  (mk_tool_call_delta index id
                     (Some (mk_function_delta name args)))) with
     | [] => None
     | parts => Some {| cand_parts := parts; cand_finishReason := None |}
     end,
     fst (accumulate json_loads (acc, [])
            (mk_tool_call_delta index id
               (Some (mk_function_delta name args))))).
Proof.
  unfold convert_streaming_chunk_to_gemini, tool_call_fragment.
  cbn [ck_choices ch_delta d_content d_tool_calls delta_tool_calls
       fold_left ch_finish_reason PyStr.truthy_opt].
  destruct (accumulate json_loads _ _) as [a [|p ps]]; reflexivity.
Qed.

Lemma set_singleton {V} (k : string) (v v0 : V) :
  Dict.set k v [(k, v0)] = [(k, v)].
Proof. simpl. now rewrite String.eqb_refl. Qed.

Lemma del_singleton {V} (k : string) (v : V) :
  Dict.del k [(k, v)] = [].
Proof. simpl. now rewrite String.eqb_refl. Qed.

Lemma slot_singleton (k : string) (e : acc_entry) (tc : tool_call_delta) :
  tool_call_key tc = k -> slot [(k, e)] tc = e.
Proof.
  intros <-. unfold slot. cbn [Dict.get]. now rewrite String.eqb_refl.
Qed.

End SplitCall.

(** C2.  Let a stream deliver the function name of one tool call in a
    first fragment (with no argument text yet: absent or empty), the
    argument text [{"x":] in a second and [1}] in a third, none of them
    with text or a finish reason, where [{"x":] is not JSON and [{"x":1}]
    is.  Then the first and the second fragment produce
    no output fragment, and the third produces one fragment whose only part
    is the functionCall with that name and the parsed [{"x":1}]; the mapping
    is empty afterwards, so that the whole stream yields that one frame. *)
Theorem C2_split_arguments_emitted_once
    (json_loads : string -> option json) (json_dumps : bool -> json -> string)
    (parsed : json) (index : option Z) (id : option string) (name : string)
    (no_args : option string) :
  name <> "" ->
  PyStr.truthy_opt no_args = false ->
  json_loads args_head = None ->
  json_loads (args_head ++ args_tail)%string = Some parsed ->
  (exists acc1 acc2 : Dict.t acc_entry,
      convert_streaming_chunk_to_gemini json_loads
        (tool_call_fragment index id (Some name) no_args) Dict.empty
      = (None, acc1)
      /\ convert_streaming_chunk_to_gemini json_loads
           (tool_call_fragment index None None (Some args_head)) acc1
         = (None, acc2)
      /\ convert_streaming_chunk_to_gemini json_loads
           (tool_call_fragment index None None (Some args_tail)) acc2
         = (Some {| cand_parts := [FunctionCallPart name parsed];
                    cand_finishReason := None |}, Dict.empty))
  /\ consume json_loads json_dumps
       [tool_call_fragment index id (Some name) no_args;
        tool_call_fragment index None None (Some args_head);
        tool_call_fragment index None None (Some args_tail)] Dict.empty
     = ([data_frame json_dumps
           (json_of_chunk {| cand_parts := [FunctionCallPart name parsed];
                             cand_finishReason := None |})],
        Dict.empty)
  /\ flush json_loads json_dumps Dict.empty = [].
Proof.
  intros Hname Hno Hhead Hfull.
  set (tc1 := mk_tool_call_delta index id
                (Some (mk_function_delta (Some name) no_args))).
  set (tc2 := mk_tool_call_delta index None
                (Some (mk_function_delta None (Some args_head)))).
  set (tc3 := mk_tool_call_delta index None
                (Some (mk_function_delta None (Some args_tail)))).
  set (k := tool_call_key tc1).
  set (e1 := update_entry tc1 fresh_entry).
  set (e2 := update_entry tc2 e1).
  set (e3 := update_entry tc3 e2).
  assert (N1 : a_name e1 = name).
  { unfold e1. rewrite update_name_set by reflexivity. reflexivity. }
  assert (A1 : a_arguments e1 = "").
  { unfold e1. rewrite update_arguments_appended.
    destruct no_args as [[|c a]|]; [reflexivity | discriminate | reflexivity]. }
  assert (N2 : a_name e2 = name).
  { unfold e2. rewrite update_name_kept; congruence. }
  assert (A2 : a_arguments e2 = args_head).
  { unfold e2. rewrite update_arguments_appended, A1. reflexivity. }
  assert (N3 : a_name e3 = name).
  { unfold e3. rewrite update_name_kept; congruence. }
  assert (A3 : a_arguments e3 = (args_head ++ args_tail)%string).
  { unfold e3. rewrite update_arguments_appended, A2. reflexivity. }
  assert (S1 : accumulate json_loads (Dict.empty, []) tc1 = ([(k, e1)], [])).
  { rewrite accumulate_pending; [reflexivity|].
    left. change (slot Dict.empty tc1) with fresh_entry. fold e1.
    now rewrite A1. }
  assert (S2 : accumulate json_loads ([(k, e1)], []) tc2 = ([(k, e2)], [])).
  { rewrite accumulate_pending; rewrite (slot_singleton k e1 tc2 eq_refl);
      fold e2.
    - change (tool_call_key tc2) with k. now rewrite set_singleton.
    - right. now rewrite A2. }
  assert (S3 : accumulate json_loads ([(k, e2)], []) tc3
               = (Dict.empty, [FunctionCallPart name parsed])).
  { rewrite (accumulate_complete json_loads _ _ _ parsed);
      rewrite (slot_singleton k e2 tc3 eq_refl); fold e3.
    - change (tool_call_key tc3) with k.
      now rewrite set_singleton, del_singleton, N3.
    - rewrite A3. discriminate.
    - now rewrite N3.
    - now rewrite A3. }
  assert (C1 : convert_streaming_chunk_to_gemini json_loads
                 (tool_call_fragment index id (Some name) no_args) Dict.empty
               = (None, [(k, e1)])).
  { rewrite convert_tool_call_fragment. fold tc1. now use_step S1. }
  assert (C2 : convert_streaming_chunk_to_gemini json_loads
                 (tool_call_fragment index None None (Some args_head))
                 [(k, e1)]
               = (None, [(k, e2)])).
  { rewrite convert_tool_call_fragment. fold tc2. now use_step S2. }
  assert (C3 : convert_streaming_chunk_to_gemini json_loads
                 (tool_call_fragment index None None (Some args_tail))
                 [(k, e2)]
               = (Some {| cand_parts := [FunctionCallPart name parsed];
                          cand_finishReason := None |}, Dict.empty)).
  { rewrite convert_tool_call_fragment. fold tc3. now use_step S3. }
  split; [|split].
  - exists [(k, e1)], [(k, e2)]. repeat split; assumption.
  - cbn [consume]. rewrite C1, C2, C3. reflexivity.
  - reflexivity.
Qed.

Lemma C2_split_arguments_emitted_once_witness :
  consume Json.loads Json.dumps
    [tool_call_fragment (Some 0%Z) (Some "call_1") (Some "get_weather")
                        (Some "");
     tool_call_fragment (Some 0%Z) None None (Some args_head);
     tool_call_fragment (Some 0%Z) None None (Some args_tail)] Dict.empty
  = ([data_frame Json.dumps
        (json_of_chunk
           {| cand_parts := [FunctionCallPart "get_weather"
                                              (JObj [("x", JInt 1)])];
              cand_finishReason := None |})],
     Dict.empty).
Proof.
  refine (proj1 (proj2 (C2_split_arguments_emitted_once
                          Json.loads Json.dumps (JObj [("x", JInt 1)])
                          (Some 0%Z) (Some "call_1") "get_weather" (Some "")
                          _ _ _ _))).
  - discriminate.
  - reflexivity.
  - reflexivity.
  - reflexivity.
Defined.

(** ** The streaming exchange *)

Lemma json_of_chunk_not_error (c : candidate) (e : string) :
  json_of_chunk c <> error_response e.
Proof. unfold json_of_chunk, error_response. discriminate. Qed.

(** ** Mappings reachable in a stream *)

Section ReachableFacts.

Variable json_loads : string -> option json.
Variable json_dumps : bool -> json -> string.

Lemma all_pending_set (k : string) (e : acc_entry) (acc : Dict.t acc_entry) :
  pending json_loads e = true -> all_pending json_loads acc ->
  all_pending json_loads (Dict.set k e acc).
Proof.
  intros He. induction 1 as [|[k' e'] acc Hk Hacc IH]; simpl.
  - repeat constructor. exact He.
  - destruct (String.eqb k k'); constructor; assumption.
Qed.

Lemma all_pending_del (k : string) (acc : Dict.t acc_entry) :
  all_pending json_loads acc -> all_pending json_loads (Dict.del k acc).
Proof.
  induction 1 as [|[k' e'] acc Hk Hacc IH]; simpl.
  - constructor.
  - destruct (String.eqb k k'); [exact IH | constructor; assumption].
Qed.

Lemma all_pending_del_set (k : string) (e : acc_entry)
    (acc : Dict.t acc_entry) :
  all_pending json_loads acc ->
  all_pending json_loads (Dict.del k (Dict.set k e acc)).
Proof.
  induction 1 as [|[k' e'] acc Hk Hacc IH]; simpl.
  - rewrite String.eqb_refl. constructor.
  - destruct (String.eqb k k') eqn:E; simpl; rewrite E.
    + now apply all_pending_del.
    + constructor; assumption.
Qed.

(** One pass of the loop leaves only pending slots behind. *)
Lemma accumulate_all_pending (acc : Dict.t acc_entry)
    (parts : list gemini_part) (tc : tool_call_delta) :
  all_pending json_loads acc ->
  all_pending json_loads (fst (accumulate json_loads (acc, parts) tc)).
Proof.
  intros H. unfold accumulate.
  set (e := update_entry tc _).
  destruct (PyStr.truthy (a_arguments e) && PyStr.truthy (a_name e)) eqn:Et.
  - destruct (json_loads (a_arguments e)) as [v|] eqn:Ev; cbn [fst].
    + now apply all_pending_del_set.
    + apply all_pending_set; [|exact H].
      unfold pending. rewrite Et, Ev. reflexivity.
  - cbn [fst]. apply all_pending_set; [|exact H].
    unfold pending. rewrite Et. reflexivity.
Qed.

Lemma convert_chunk_all_pending (c : chunk) (acc : Dict.t acc_entry) :
  all_pending json_loads acc ->
  all_pending json_loads
    (snd (convert_streaming_chunk_to_gemini json_loads c acc)).
Proof.
  rewrite chunk_mapping. generalize (chunk_tool_calls c) as tcs.
  intros tcs. revert acc. induction tcs as [|tc tcs IH]; intros acc H.
  - exact H.
  - cbn [fold_left]. apply IH. now apply accumulate_all_pending.
Qed.

Lemma consume_all_pending (chunks : list chunk) (acc : Dict.t acc_entry) :
  all_pending json_loads acc ->
  all_pending json_loads (snd (consume json_loads json_dumps chunks acc)).
Proof.
  revert acc. induction chunks as [|c chunks IH]; intros acc H.
  - exact H.
  - cbn [consume].
    pose proof (convert_chunk_all_pending c acc H) as H1.
    destruct (convert_streaming_chunk_to_gemini json_loads c acc)
      as [g acc1].
    cbn [snd] in H1. specialize (IH acc1 H1).
    destruct (consume json_loads json_dumps chunks acc1) as [frames acc2].
    exact IH.
Qed.

Lemma flush_all_pending (acc : Dict.t acc_entry) :
  all_pending json_loads acc -> flush json_loads json_dumps acc = [].
Proof.
  unfold flush. induction 1 as [|[k e] acc Hk Hacc IH]; [reflexivity|].
  simpl. rewrite IH, app_nil_r. unfold flush_entry.
  unfold pending in Hk. cbn [snd] in Hk.
  rewrite (andb_comm (PyStr.truthy (a_name e))).
  destruct (PyStr.truthy (a_arguments e) && PyStr.truthy (a_name e));
    [|reflexivity].
  destruct (json_loads (a_arguments e)); [discriminate Hk | reflexivity].
Qed.

(** A slot that completes is emitted and removed by the fragment loop at
    once, so the loop at the end of the stream finds pending slots only:
    it yields no frame. *)
Lemma flush_after_stream (chunks : list chunk) :
  flush json_loads json_dumps
    (snd (consume json_loads json_dumps chunks Dict.empty)) = [].
Proof.
  apply flush_all_pending, consume_all_pending. constructor.
Qed.

End ReachableFacts.

(** With the printer of the library model, a frame carrying a fragment is
    never the error frame. *)
Lemma data_frame_not_error_frame (c : candidate) (e : string) :
  data_frame Json.dumps (json_of_chunk c) <> error_frame Json.dumps e.
Proof.
  unfold error_frame, data_frame, json_of_chunk, error_response.
  cbn [Json.dumps map Json.join Json.quote Json.escape Json.escape_char
       Json.dq String.append].
  intros H. discriminate H.
Qed.

(** ** Shape of the converted turns *)

Section TurnShape.

Variable json_dumps : json -> string.

Lemma user_fold_text (parts : list part) (t : string) (ms : list message) :
  fst (fold_left (user_part_step json_dumps) parts (t, ms))
  = (t ++ texts_of parts)%string.
Proof.
  revert t ms. induction parts as [|p parts IH]; intros t ms.
  - simpl. now rewrite StrFacts.app_nil_r.
  - cbn [fold_left]. unfold texts_of. cbn [map fold_right].
    fold (texts_of parts).
    destruct p as [d|s|]; cbn [user_part_step].
    + destruct (p_text d) as [x|].
      * rewrite IH. now rewrite StrFacts.app_assoc.
      * destruct (p_functionResponse d); rewrite IH; reflexivity.
    + rewrite IH. now rewrite StrFacts.app_assoc.
    + rewrite IH. reflexivity.
Qed.

Lemma convert_user_shape (parts : list part) :
  convert_user json_dumps parts
  = (if blank (texts_of parts) then []
     else [user_message (PyStr.strip (texts_of parts))])
    ++ map (tool_message json_dumps) (responses_of parts).
Proof.
  unfold convert_user, blank.
  pose proof (user_fold_text parts "" []) as Ht.
  pose proof (user_fold_messages json_dumps parts "" []) as Hm.
  destruct (fold_left _ _ _) as [text tms]. cbn [fst snd] in *.
  cbn [String.append app] in *. subst text tms.
  now destruct (PyStr.truthy _).
Qed.

Lemma model_fold_text (contents : list content) (i : nat) (parts : list part)
    (t : string) (tcs : list tool_call) :
  fst (fold_left (model_part_step json_dumps contents i) parts (t, tcs))
  = (t ++ texts_of parts)%string.
Proof.
  revert t tcs. induction parts as [|p parts IH]; intros t tcs.
  - simpl. now rewrite StrFacts.app_nil_r.
  - cbn [fold_left]. unfold texts_of. cbn [map fold_right].
    fold (texts_of parts).
    destruct p as [d|s|]; cbn [model_part_step].
    + destruct (p_text d) as [x|].
      * rewrite IH. now rewrite StrFacts.app_assoc.
      * destruct (p_functionCall d); [destruct (_ && _)|]; rewrite IH;
          reflexivity.
    + rewrite IH. now rewrite StrFacts.app_assoc.
    + rewrite IH. reflexivity.
Qed.

(** Before the last index the loop keeps every call, in order. *)
Lemma model_fold_calls (contents : list content) (i : nat) (parts : list part)
    (t : string) (tcs : list tool_call) :
  i <> List.length contents - 1 ->
  snd (fold_left (model_part_step json_dumps contents i) parts (t, tcs))
  = tcs ++ map (to_tool_call json_dumps) (calls_of parts).
Proof.
  intros Hi. apply Nat.eqb_neq in Hi.
  revert t tcs. induction parts as [|p parts IH]; intros t tcs.
  - simpl. now rewrite app_nil_r.
  - cbn [fold_left]. unfold calls_of. cbn [flat_map]. fold (calls_of parts).
    destruct p as [d|s|]; cbn [model_part_step]; try apply IH.
    destruct (p_text d) as [x|]; [apply IH|].
    destruct (p_functionCall d) as [fc|]; [|apply IH].
    rewrite Hi. cbn [andb]. rewrite IH, map_app, <- app_assoc. reflexivity.
Qed.

(** At the last index the search finds nothing. *)
Lemma has_response_at_last (contents : list content) (i : nat)
    (fc : function_call) :
  i = List.length contents - 1 -> has_response contents i fc = false.
Proof. intros ->. apply has_response_last. lia. Qed.

Lemma model_fold_calls_last (contents : list content) (i : nat)
    (parts : list part) (t : string) (tcs : list tool_call) :
  i = List.length contents - 1 ->
  snd (fold_left (model_part_step json_dumps contents i) parts (t, tcs))
  = tcs.
Proof.
  intros Hi. revert t tcs.
  induction parts as [|p parts IH]; intros t tcs; [reflexivity|].
  cbn [fold_left].
  destruct p as [d|s|]; cbn [model_part_step]; try apply IH.
  destruct (p_text d); [apply IH|].
  destruct (p_functionCall d) as [fc|]; [|apply IH].
  rewrite (has_response_at_last contents i fc Hi).
  apply Nat.eqb_eq in Hi. rewrite Hi. cbn [andb negb]. apply IH.
Qed.

Lemma convert_model_shape (contents : list content) (i : nat)
    (parts : list part) :
  convert_model json_dumps contents i parts
  = let calls := if Nat.eqb i (List.length contents - 1)
                 then []
                 else map (to_tool_call json_dumps) (calls_of parts) in
    if blank (texts_of parts)
       && match calls with [] => true | _ => false end
    then []
    else [assistant_message (texts_of parts) calls].
Proof.
  unfold convert_model, blank. cbv zeta.
  pose proof (model_fold_text contents i parts "" []) as Ht.
  destruct (Nat.eqb_spec i (List.length contents - 1)) as [Hi|Hi].
  - pose proof (model_fold_calls_last contents i parts "" [] Hi) as Hc.
    destruct (fold_left _ _ _) as [text tcs]. cbn [fst snd] in *.
    cbn [String.append] in Ht. subst text tcs.
    now destruct (PyStr.truthy _).
  - pose proof (model_fold_calls contents i parts "" [] Hi) as Hc.
    destruct (fold_left _ _ _) as [text tcs]. cbn [fst snd app] in *.
    cbn [String.append] in Ht. subst text tcs.
    destruct (PyStr.truthy _); destruct (map _ _); reflexivity.
Qed.

End TurnShape.

Module StripFacts.

Lemma lstrip_tight (s : string) : starts_tight (PyStr.lstrip s) = true.
Proof.
  induction s as [|c r IH]; [reflexivity|]. simpl.
  destruct (PyStr.is_space c) eqn:E; [exact IH|]. simpl. now rewrite E.
Qed.

Lemma lstrip_id (s : string) : starts_tight s = true -> PyStr.lstrip s = s.
Proof.
  destruct s as [|c r]; [reflexivity|]. simpl.
  now destruct (PyStr.is_space c).
Qed.

Lemma rstrip_tight (s : string) :
  starts_tight s = true -> starts_tight (PyStr.rstrip s) = true.
Proof.
  destruct s as [|c r]; [reflexivity|]. simpl. intros H.
  destruct (PyStr.rstrip r); [|exact H].
  destruct (PyStr.is_space c) eqn:E; [reflexivity|]. simpl. now rewrite E.
Qed.

Lemma rstrip_idem (s : string) :
  PyStr.rstrip (PyStr.rstrip s) = PyStr.rstrip s.
Proof.
  induction s as [|c r IH]; [reflexivity|]. simpl.
  destruct (PyStr.rstrip r) as [|b r'] eqn:E.
  - destruct (PyStr.is_space c) eqn:Ec; [reflexivity|]. simpl. now rewrite Ec.
  - change (match PyStr.rstrip (String b r') with
            | EmptyString =>
                if PyStr.is_space c then EmptyString else String c EmptyString
            | String _ _ as r'' => String c r''
            end = String c (String b r')).
    now rewrite IH.
Qed.

(** Trimming twice is trimming once. *)
Lemma strip_idem (s : string) :
  PyStr.strip (PyStr.strip s) = PyStr.strip s.
Proof.
  unfold PyStr.strip.
  rewrite (lstrip_id (PyStr.rstrip (PyStr.lstrip s))).
  - apply rstrip_idem.
  - apply rstrip_tight, lstrip_tight.
Qed.

Lemma rstrip_length (s : string) :
  String.length (PyStr.rstrip s) <= String.length s.
Proof.
  induction s as [|c r IH]; [reflexivity|]. simpl.
  destruct (PyStr.rstrip r) as [|b r'].
  - destruct (PyStr.is_space c); simpl; lia.
  - simpl in *. lia.
Qed.

Lemma lstrip_length (s : string) :
  String.length (PyStr.lstrip s) <= String.length s.
Proof.
  induction s as [|c r IH]; [reflexivity|]. simpl.
  destruct (PyStr.is_space c); simpl; lia.
Qed.

End StripFacts.

Section TurnTheorems.

Variable json_dumps : json -> string.

Lemma convert_from_in (contents rest : list content) (i : nat)
    (m : message) :
  In m (convert_from json_dumps contents i rest) ->
  exists j c, nth_error rest j = Some c
              /\ In m (convert_content json_dumps contents (i + j) c).
Proof.
  revert i. induction rest as [|c0 rest IH]; intros i H; [contradiction|].
  simpl in H. apply in_app_or in H. destruct H as [H|H].
  - exists 0, c0. rewrite Nat.add_0_r. now split.
  - destruct (IH (S i) H) as (j & c & Hn & Hin).
    exists (S j), c. split; [exact Hn|].
    now replace (i + S j) with (S i + j) by lia.
Qed.

Lemma tool_message_well_formed (fr : function_response) :
  well_formed_message (tool_message json_dumps fr).
Proof.
  right. left. repeat split; try reflexivity.
  - eexists. reflexivity.
  - eexists. reflexivity.
Qed.

Lemma strip_trimmed (text : string) :
  blank text = false -> trimmed (PyStr.strip text).
Proof.
  unfold blank, trimmed. intros H. apply negb_false_iff in H. split.
  - now apply truthy_true.
  - apply StripFacts.strip_idem.
Qed.

Lemma assistant_message_well_formed (text : string)
    (fcs : list function_call) :
  blank text && match map (to_tool_call json_dumps) fcs with
                | [] => true
                | _ => false
                end = false ->
  well_formed_message
    (assistant_message text (map (to_tool_call json_dumps) fcs)).
Proof.
  intros H. right. right. unfold assistant_message. cbn.
  split; [reflexivity|].
  destruct (blank text) eqn:Eb.
  - unfold blank in Eb. apply negb_true_iff in Eb. rewrite Eb.
    destruct fcs as [|fc fcs]; [discriminate|]. cbn [map].
    repeat split.
    + now left.
    + right. do 2 eexists. split; [reflexivity|].
      intros c Hc. change (In c (map (to_tool_call json_dumps) (fc :: fcs)))
        in Hc.
      apply in_map_iff in Hc. destruct Hc as (x & <- & _).
      split; [reflexivity|]. eexists. reflexivity.
    + right. discriminate.
  - pose proof (strip_trimmed text Eb) as Ht.
    unfold blank in Eb. apply negb_false_iff in Eb. rewrite Eb.
    repeat split.
    + right. eexists. split; [reflexivity | exact Ht].
    + destruct fcs as [|fc fcs]; [now left|]. cbn [map].
      right. do 2 eexists. split; [reflexivity|].
      intros c Hc. change (In c (map (to_tool_call json_dumps) (fc :: fcs)))
        in Hc.
      apply in_map_iff in Hc. destruct Hc as (x & <- & _).
      split; [reflexivity|]. eexists. reflexivity.
    + left. discriminate.
Qed.

Lemma convert_content_well_formed (contents : list content) (i : nat)
    (c : content) (m : message) :
  In m (convert_content json_dumps contents i c) -> well_formed_message m.
Proof.
  unfold convert_content.
  destruct (String.eqb (get_role c) "user").
  - rewrite convert_user_shape. intros H. apply in_app_or in H.
    destruct H as [H|H].
    + destruct (blank _) eqn:Eb; [contradiction|].
      destruct H as [<-|[]]. left. repeat split; try reflexivity.
      eexists. split; [reflexivity|]. now apply strip_trimmed.
    + apply in_map_iff in H. destruct H as (fr & <- & _).
      apply tool_message_well_formed.
  - destruct (String.eqb (get_role c) "model"); [|contradiction].
    rewrite convert_model_shape. cbv zeta.
    destruct (Nat.eqb i (List.length contents - 1)).
    + destruct (blank _ && _) eqn:E; [contradiction|].
      intros [<-|[]].
      exact (assistant_message_well_formed _ [] E).
    + destruct (blank _ && _) eqn:E; [contradiction|].
      intros [<-|[]]. now apply assistant_message_well_formed.
Qed.

End TurnTheorems.

(** X1.  A user turn is converted into at most one user message, holding
    the trimmed concatenation of its text parts and bare strings and left
    out when that text is blank, followed by one tool message per function
    response, in the order of the parts: the tool messages come after the
    text wherever the function responses stand among the parts. *)
Theorem X1_user_turn_messages (json_dumps : json -> string)
    (contents : list content) (i : nat) (c : content) :
  get_role c = "user" ->
  convert_content json_dumps contents i c
  = (if blank (texts_of (get_parts c)) then []
     else [{| m_role := "user";
              m_content := Some (PyStr.strip (texts_of (get_parts c)));
              m_tool_call_id := None;
              m_tool_calls := None |}])
    ++ map (fun fr =>
              {| m_role := "tool";
                 m_content :=
                   Some (json_dumps (match fr_response fr with
                                     | Some r => r
                                     | None => JObj []
                                     end));
                 m_tool_call_id :=
                   Some ((match fr_name fr with
                          | Some n => n
                          | None => "unknown"
                          end) ++ ":0")%string;
                 m_tool_calls := None |})
           (responses_of (get_parts c)).
Proof.
  intros Hrole. unfold convert_content. rewrite Hrole. cbn [String.eqb].
  change (String.eqb "user" "user") with true. cbv iota.
  apply convert_user_shape.
Qed.

Lemma X1_user_turn_messages_witness :
  convert_content (Json.dumps true) [] 0
    (turn "user"
          [functionResponse_part (mk_function_response (Some "f") None);
           text_part " a"; PartStr "b "])
  = [{| m_role := "user"; m_content := Some "ab";
        m_tool_call_id := None; m_tool_calls := None |};
     {| m_role := "tool"; m_content := Some "{}";
        m_tool_call_id := Some "f:0"; m_tool_calls := None |}].
Proof.
  exact (X1_user_turn_messages (Json.dumps true) [] 0
           (turn "user"
                 [functionResponse_part (mk_function_response (Some "f") None);
                  text_part " a"; PartStr "b "])
           eq_refl).
Defined.

(** X2.  A model turn is converted into at most one assistant message.
    Its content is the trimmed concatenation of the text parts and bare
    strings, or [None] when that text is blank.  Before the last index of
    the history its tool calls are all the function calls of the turn, in
    order, and the message is left out only when the text is blank and
    there is no call; at the last index it has no tool calls and is left
    out when the text is blank. *)
Theorem X2_model_turn_message (json_dumps : json -> string)
    (contents : list content) (i : nat) (c : content) :
  get_role c = "model" ->
  (i <> List.length contents - 1 ->
   convert_content json_dumps contents i c
   = if blank (texts_of (get_parts c))
        && match calls_of (get_parts c) with [] => true | _ => false end
     then []
     else [{| m_role := "assistant";
              m_content :=
                if blank (texts_of (get_parts c)) then None
                else Some (PyStr.strip (texts_of (get_parts c)));
              m_tool_call_id := None;
              m_tool_calls :=
                match calls_of (get_parts c) with
                | [] => None
                | calls => Some (map (to_tool_call json_dumps) calls)
                end |}])
  /\ (i = List.length contents - 1 ->
      convert_content json_dumps contents i c
      = if blank (texts_of (get_parts c)) then []
        else [{| m_role := "assistant";
                 m_content := Some (PyStr.strip (texts_of (get_parts c)));
                 m_tool_call_id := None;
                 m_tool_calls := None |}]).
Proof.
  intros Hrole.
  assert (E : convert_content json_dumps contents i c
              = convert_model json_dumps contents i (get_parts c)).
  { unfold convert_content. now rewrite Hrole. }
  rewrite E, convert_model_shape. cbv zeta. unfold assistant_message, blank.
  split; intros Hi.
  - apply Nat.eqb_neq in Hi. rewrite Hi.
    destruct (PyStr.truthy _); destruct (calls_of _); reflexivity.
  - apply Nat.eqb_eq in Hi. rewrite Hi.
    destruct (PyStr.truthy _); reflexivity.
Qed.

Lemma X2_model_turn_message_witness :
  convert_content (Json.dumps true) sample_history 0 (turn "model" [call_f])
  = [{| m_role := "assistant"; m_content := None; m_tool_call_id := None;
        m_tool_calls :=
          Some [{| tc_id := "f:0"; tc_type := "function"; tc_name := "f";
                   tc_arguments := "{}" |}] |}]
  /\ convert_content (Json.dumps true) sample_history 2
       (turn "model" [text_part "done"; call_g])
     = [{| m_role := "assistant"; m_content := Some "done";
           m_tool_call_id := None; m_tool_calls := None |}].
Proof.
  split.
  - refine (proj1 (X2_model_turn_message (Json.dumps true) sample_history 0
                     (turn "model" [call_f]) eq_refl) _).
    simpl. lia.
  - exact (proj2 (X2_model_turn_message (Json.dumps true) sample_history 2
                    (turn "model" [text_part "done"; call_g]) eq_refl)
             eq_refl).
Defined.

Lemma convert_content_context (json_dumps : json -> string)
    (contents contents' : list content) (i i' : nat) (c : content) :
  Nat.eqb i (List.length contents - 1)
  = Nat.eqb i' (List.length contents' - 1) ->
  convert_content json_dumps contents i c
  = convert_content json_dumps contents' i' c.
Proof.
  intros H. unfold convert_content.
  destruct (String.eqb (get_role c) "user"); [reflexivity|].
  destruct (String.eqb (get_role c) "model"); [|reflexivity].
  rewrite !convert_model_shape. cbv zeta. now rewrite H.
Qed.

(** X3.  The search for a matching function response never changes the
    result: a turn is converted alike in any two histories and at any two
    indexes, provided it stands at the last index in both or in neither. *)
Theorem X3_conversion_ignores_context (json_dumps : json -> string)
    (contents contents' : list content) (i i' : nat) (c : content) :
  Nat.eqb i (List.length contents - 1)
  = Nat.eqb i' (List.length contents' - 1) ->
  convert_content json_dumps contents i c
  = convert_content json_dumps contents' i' c.
Proof.
  apply convert_content_context.
Qed.

Lemma X3_conversion_ignores_context_witness :
  convert_content (Json.dumps true) sample_history 0 (turn "model" [call_f])
  = convert_content (Json.dumps true)
      [turn "model" [call_f];
       turn "user"
            [functionResponse_part (mk_function_response (Some "f") None)]]
      0 (turn "model" [call_f]).
Proof.
  exact (X3_conversion_ignores_context (Json.dumps true) sample_history
           [turn "model" [call_f];
            turn "user"
                 [functionResponse_part
                    (mk_function_response (Some "f") None)]]
           0 0 (turn "model" [call_f]) eq_refl).
Defined.

(** X4.  Every message of a converted history is well formed: its role is
    user, tool or assistant; a user message holds a non-empty trimmed text;
    a tool message holds a payload and a call identifier ending in [:0]; an
    assistant message holds a non-empty trimmed text or [None], tool calls
    that are absent or a non-empty list of calls of type function with
    identifiers ending in [:0], and never lacks both. *)
Theorem X4_messages_well_formed (json_dumps : json -> string)
    (contents : list content) (m : message) :
  In m (convert_contents_to_messages json_dumps contents) ->
  well_formed_message m.
Proof.
  intros H. apply convert_from_in in H. destruct H as (j & c & _ & H).
  now apply convert_content_well_formed in H.
Qed.

Lemma X4_messages_well_formed_witness :
  well_formed_message
    {| m_role := "assistant"; m_content := Some "done";
       m_tool_call_id := None; m_tool_calls := None |}.
Proof.
  apply (X4_messages_well_formed (Json.dumps true) sample_history).
  right. right. left. reflexivity.
Defined.

(** ** Tool declarations *)

Lemma flat_map_declared (groups : list tool_group) :
  flat_map (fun tool => match functionDeclarations tool with
                        | Some decls => map declared_tool decls
                        | None => []
                        end) groups
  = map declared_tool (declarations_of (Some groups)).
Proof.
  induction groups as [|g groups IH]; [reflexivity|].
  cbn [flat_map declarations_of] in *. rewrite IH, map_app.
  now destruct (functionDeclarations g).
Qed.

(** X5.  The tool list is flattened: the result is absent exactly when the
    groups hold no function declaration at all (no tool list, no group, or
    only groups without declarations), and otherwise lists one tool per
    declaration, group after group in order, with an empty name or
    description and an empty schema where the declaration has none; it is
    never an empty list. *)
Theorem X5_tools_flattened (tools : option (list tool_group)) :
  match convert_tools_to_openai tools with
  | None => declarations_of tools = []
  | Some openai_tools =>
      openai_tools <> []
      /\ openai_tools = map declared_tool (declarations_of tools)
  end.
Proof.
  destruct tools as [groups|]; [|reflexivity].
  unfold convert_tools_to_openai.
  change (flat_map _ groups)
    with (flat_map (fun tool => match functionDeclarations tool with
                                | Some decls => map declared_tool decls
                                | None => []
                                end) groups).
  rewrite flat_map_declared.
  destruct (declarations_of (Some groups)) as [|d ds]; [reflexivity|].
  cbn [map]. split; [discriminate | reflexivity].
Qed.

(** ** A fenced block and its interior *)

Module FenceFacts.

Lemma lstrip_pad (pad s : string) :
  all_space pad = true -> PyStr.lstrip (pad ++ s) = PyStr.lstrip s.
Proof.
  induction pad as [|c pad IH]; intros H; [reflexivity|].
  simpl in *. apply andb_true_iff in H. destruct H as [Hc Hp].
  rewrite Hc. now apply IH.
Qed.

Lemma rstrip_all_space (pad : string) :
  all_space pad = true -> PyStr.rstrip pad = "".
Proof.
  induction pad as [|c pad IH]; intros H; [reflexivity|].
  simpl in *. apply andb_true_iff in H. destruct H as [Hc Hp].
  now rewrite (IH Hp), Hc.
Qed.

Lemma rstrip_pad (s pad : string) :
  all_space pad = true -> PyStr.rstrip (s ++ pad) = PyStr.rstrip s.
Proof.
  intros H. induction s as [|c s IH].
  - simpl. now apply rstrip_all_space.
  - simpl. now rewrite IH.
Qed.

Lemma rstrip_tight_end (s : string) (c : ascii) :
  PyStr.is_space c = false ->
  PyStr.rstrip (s ++ String c "") = (s ++ String c "")%string.
Proof.
  intros Hc. induction s as [|d s IH].
  - simpl. now rewrite Hc.
  - change (PyStr.rstrip (String d (s ++ String c "")) =
            String d (s ++ String c "")).
    cbn [PyStr.rstrip]. rewrite IH. now destruct s.
Qed.

(** The lazy group takes exactly the text before the closing fence. *)
Lemma body_exact (g : string) :
  Re.body (g ++ Re.nl ++ Re.fence) = Some g.
Proof.
  induction g as [|c g IH]; [reflexivity|].
  rewrite ReFacts.body_eq.
  destruct (Re.closing _) eqn:E.
  - exfalso. unfold Re.closing in E. apply orb_true_iff in E.
    destruct E as [E|E]; apply String.eqb_eq in E;
      destruct g as [|? [|? [|? [|? [|? ?]]]]]; cbv in E; discriminate E.
  - change ((String c g ++ Re.nl ++ Re.fence)%string)
      with (String c (g ++ Re.nl ++ Re.fence)).
    cbv iota. now rewrite IH.
Qed.

(** The white-space run stops at the first line break when the interior
    does not start with white space. *)
Lemma after_label_tight (interior : string) :
  starts_tight interior = true ->
  Re.after_label (interior ++ Re.nl ++ Re.fence) = None.
Proof.
  destruct interior as [|c i]; [reflexivity|].
  simpl. intros H. apply negb_true_iff in H. rewrite H.
  destruct (Ascii.eqb_spec c PyStr.nl) as [->|]; [discriminate H | reflexivity].
Qed.

Lemma match_wrapped (interior : string) :
  starts_tight interior = true ->
  Re.match_json_fence (wrap_json interior) = Some interior.
Proof.
  intros H. unfold Re.match_json_fence, wrap_json.
  rewrite <- StrFacts.app_assoc, ReFacts.strip_prefix_app.
  change ((PyStr.newline ++ interior ++ PyStr.newline ++ Re.fence)%string)
    with (String PyStr.nl (interior ++ Re.nl ++ Re.fence)).
  cbn [Re.after_label].
  rewrite (after_label_tight interior H).
  change (PyStr.is_space PyStr.nl) with true.
  rewrite Ascii.eqb_refl. apply body_exact.
Qed.

Lemma strip_padded_wrap (pad1 pad2 interior : string) :
  all_space pad1 = true -> all_space pad2 = true ->
  PyStr.strip (pad1 ++ wrap_json interior ++ pad2) = wrap_json interior.
Proof.
  intros H1 H2. unfold PyStr.strip.
  rewrite (lstrip_pad _ _ H1).
  rewrite StripFacts.lstrip_id by reflexivity.
  rewrite (rstrip_pad _ _ H2).
  assert (E : wrap_json interior
              = ((Re.fence ++ "json" ++ PyStr.newline ++ interior
                  ++ PyStr.newline ++ "``") ++ String "`" "")%string).
  { unfold wrap_json. rewrite !StrFacts.app_assoc. reflexivity. }
  rewrite E. now apply rstrip_tight_end.
Qed.

End FenceFacts.

(** X7.  A fenced block labelled json whose interior is empty or starts
    with a character other than white space is unwrapped to exactly that
    interior, also when white space surrounds the block. *)
Theorem X7_fence_round_trip (pad1 pad2 interior : string) :
  all_space pad1 = true ->
  all_space pad2 = true ->
  starts_tight interior = true ->
  clean_markdown_json (pad1 ++ wrap_json interior ++ pad2) = interior.
Proof.
  intros H1 H2 Hi. unfold clean_markdown_json.
  rewrite (FenceFacts.strip_padded_wrap pad1 pad2 interior H1 H2).
  now rewrite (FenceFacts.match_wrapped interior Hi).
Qed.

Lemma X7_fence_round_trip_witness :
  clean_markdown_json (" " ++ wrap_json a1_text ++ PyStr.newline) = a1_text.
Proof.
  exact (X7_fence_round_trip " " PyStr.newline a1_text
           eq_refl eq_refl eq_refl).
Defined.

(** ** Fragments and the mapping *)

Section FragmentFacts.

Variable json_loads : string -> option json.

(** One pass of the loop adds only well-formed parts. *)
Lemma accumulate_well_formed (acc : Dict.t acc_entry)
    (parts : list gemini_part) (tc : tool_call_delta) :
  Forall (well_formed_part json_loads) parts ->
  Forall (well_formed_part json_loads)
         (snd (accumulate json_loads (acc, parts) tc)).
Proof.
  intros H. unfold accumulate.
  set (e := update_entry tc _).
  destruct (PyStr.truthy (a_arguments e)) eqn:Ea; [|exact H].
  destruct (PyStr.truthy (a_name e)) eqn:En; [|exact H].
  cbn [andb].
  destruct (json_loads (a_arguments e)) as [v|] eqn:Ev; [|exact H].
  cbn [snd]. apply Forall_app. split; [exact H|].
  constructor; [|constructor]. split.
  - now apply truthy_true.
  - exists (a_arguments e). split; [now apply truthy_true | exact Ev].
Qed.

Lemma fold_accumulate_well_formed (tcs : list tool_call_delta)
    (acc : Dict.t acc_entry) (parts : list gemini_part) :
  Forall (well_formed_part json_loads) parts ->
  Forall (well_formed_part json_loads)
         (snd (fold_left (accumulate json_loads) tcs (acc, parts))).
Proof.
  revert acc parts. induction tcs as [|tc tcs IH]; intros acc parts H.
  - exact H.
  - cbn [fold_left].
    pose proof (accumulate_well_formed acc parts tc H) as H1.
    destruct (accumulate json_loads (acc, parts) tc) as [a1 p1].
    now apply IH.
Qed.

(** One pass of the loop only appends to the parts. *)
Lemma accumulate_parts_prefix (acc : Dict.t acc_entry)
    (parts : list gemini_part) (tc : tool_call_delta) :
  exists more, snd (accumulate json_loads (acc, parts) tc) = parts ++ more.
Proof.
  unfold accumulate. destruct (_ && _); [|exists []; now rewrite app_nil_r].
  destruct (json_loads _); [eexists; reflexivity|].
  exists []. now rewrite app_nil_r.
Qed.

Lemma fold_accumulate_parts_prefix (tcs : list tool_call_delta)
    (acc : Dict.t acc_entry) (parts : list gemini_part) :
  exists more,
    snd (fold_left (accumulate json_loads) tcs (acc, parts)) = parts ++ more.
Proof.
  revert acc parts. induction tcs as [|tc tcs IH]; intros acc parts.
  - exists []. simpl. now rewrite app_nil_r.
  - cbn [fold_left].
    destruct (accumulate_parts_prefix acc parts tc) as [m1 H1].
    destruct (accumulate json_loads (acc, parts) tc) as [a1 p1].
    cbn [snd] in H1. subst p1.
    destruct (IH a1 (parts ++ m1)) as [m2 H2].
    exists (m1 ++ m2). now rewrite H2, app_assoc.
Qed.

(** What the slot of a tool-call entry, and any other slot, holds after one
    pass of the loop. *)
Lemma accumulate_get (acc : Dict.t acc_entry) (parts : list gemini_part)
    (tc : tool_call_delta) (k : string) :
  Dict.get k (fst (accumulate json_loads (acc, parts) tc))
  = if String.eqb k (tool_call_key tc)
    then if pending json_loads (update_entry tc (slot acc tc))
         then Some (update_entry tc (slot acc tc))
         else None
    else Dict.get k acc.
Proof.
  unfold accumulate, pending. fold (slot acc tc).
  set (e := update_entry tc (slot acc tc)).
  destruct (String.eqb_spec k (tool_call_key tc)) as [->|Hk].
  - destruct (_ && _); cbn [andb negb fst].
    + destruct (json_loads _); cbn [negb fst].
      * apply DictFacts.get_del_same.
      * apply DictFacts.get_set_same.
    + apply DictFacts.get_set_same.
  - destruct (_ && _); cbn [fst].
    + destruct (json_loads _); cbn [fst].
      * rewrite DictFacts.get_del_other by exact Hk.
        now apply DictFacts.get_set_other.
      * now apply DictFacts.get_set_other.
    + now apply DictFacts.get_set_other.
Qed.

(** What one pass of the loop emits depends on the slot of the entry
    only. *)
Lemma accumulate_snd (acc : Dict.t acc_entry) (tc : tool_call_delta) :
  snd (accumulate json_loads (acc, []) tc)
  = if pending json_loads (update_entry tc (slot acc tc)) then []
    else match json_loads (a_arguments (update_entry tc (slot acc tc))) with
         | Some v =>
             [FunctionCallPart (a_name (update_entry tc (slot acc tc))) v]
         | None => []
         end.
Proof.
  unfold accumulate, pending. fold (slot acc tc).
  set (e := update_entry tc (slot acc tc)).
  destruct (_ && _); cbn [andb negb]; [|reflexivity].
  now destruct (json_loads _).
Qed.

End FragmentFacts.

(** ** Whole exchanges *)

Section ExchangeBounds.

Variable json_loads : string -> option json.
Variable json_dumps : bool -> json -> string.

Lemma consume_length (chunks : list chunk) (acc : Dict.t acc_entry) :
  List.length (fst (consume json_loads json_dumps chunks acc))
  <= List.length chunks.
Proof.
  revert acc. induction chunks as [|c chunks IH]; intros acc; [reflexivity|].
  cbn [consume].
  destruct (convert_streaming_chunk_to_gemini json_loads c acc) as [g acc1].
  specialize (IH acc1).
  destruct (consume json_loads json_dumps chunks acc1) as [frames acc2].
  cbn [fst] in *. destruct g; simpl; lia.
Qed.

End ExchangeBounds.

(** X12.  An exchange yields at most one frame per fragment the client
    delivered, and one more, the error frame, exactly when the client
    raised; an exchange whose request the client refused yields one
    frame. *)
Theorem X12_frames_bounded
    (json_loads : string -> option json) (json_dumps : bool -> json -> string)
    (MODEL_MAPPING : Dict.t string) (DEFAULT_OPENAI_MODEL : string)
    (create : completion_params -> outcome stream) (rq : request_data) :
  match create (build_completion_params json_dumps MODEL_MAPPING
                  DEFAULT_OPENAI_MODEL rq) with
  | Raised _ =>
      List.length (stream_generate_content json_loads json_dumps
                     MODEL_MAPPING DEFAULT_OPENAI_MODEL create rq) = 1
  | Returned s =>
      List.length (stream_generate_content json_loads json_dumps
                     MODEL_MAPPING DEFAULT_OPENAI_MODEL create rq)
      <= List.length (delivered s)
         + match failure s with Some _ => 1 | None => 0 end
  end.
Proof.
  unfold stream_generate_content.
  destruct (create _) as [s|e]; [|reflexivity].
  pose proof (consume_length json_loads json_dumps (delivered s) Dict.empty)
    as Hl.
  pose proof (flush_after_stream json_loads json_dumps (delivered s)) as Hfl.
  destruct (consume _ _ _ _) as [frames acc]. cbn [fst snd] in *.
  destruct (failure s).
  - rewrite length_app. simpl. lia.
  - rewrite Hfl, app_nil_r. lia.
Qed.

(** X13.  Slots accumulate independently: when two tool-call entries have
    different keys, passing the first through the loop before the second
    changes neither what the second emits nor, compared with the other
    order, what any key of the mapping holds afterwards. *)
Theorem X13_slots_independent (json_loads : string -> option json)
    (acc : Dict.t acc_entry) (tc1 tc2 : tool_call_delta) :
  tool_call_key tc1 <> tool_call_key tc2 ->
  snd (accumulate json_loads
         (fst (accumulate json_loads (acc, []) tc1), []) tc2)
  = snd (accumulate json_loads (acc, []) tc2)
  /\ forall k : string,
      Dict.get k (fst (accumulate json_loads
                         (fst (accumulate json_loads (acc, []) tc1), []) tc2))
      = Dict.get k (fst (accumulate json_loads
                           (fst (accumulate json_loads (acc, []) tc2), [])
                           tc1)).
Proof.
  intros Hne.
  assert (S12 : slot (fst (accumulate json_loads (acc, []) tc1)) tc2
                = slot acc tc2).
  { unfold slot. rewrite accumulate_get.
    destruct (String.eqb_spec (tool_call_key tc2) (tool_call_key tc1));
      [congruence | reflexivity]. }
  assert (S21 : slot (fst (accumulate json_loads (acc, []) tc2)) tc1
                = slot acc tc1).
  { unfold slot. rewrite accumulate_get.
    destruct (String.eqb_spec (tool_call_key tc1) (tool_call_key tc2));
      [congruence | reflexivity]. }
  split.
  - now rewrite !accumulate_snd, S12.
  - intros k. rewrite !accumulate_get, S12, S21.
    destruct (String.eqb_spec k (tool_call_key tc2)) as [E2|H2];
      destruct (String.eqb_spec k (tool_call_key tc1)) as [E1|H1];
      try reflexivity.
    congruence.
Qed.

Lemma X13_slots_independent_witness :
  snd (accumulate Json.loads
         (fst (accumulate Json.loads
                 (Dict.empty, [])
                 {| td_index := Some 0%Z; td_id := None;
                    td_function := Some {| fd_name := Some "f";
                                           fd_arguments := Some "{" |} |}),
          [])
         {| td_index := Some 1%Z; td_id := None;
            td_function := Some {| fd_name := Some "g";
                                   fd_arguments := Some "{}" |} |})
  = [FunctionCallPart "g" (JObj [])].
Proof.
  refine (proj1 (X13_slots_independent Json.loads Dict.empty
                   {| td_index := Some 0%Z; td_id := None;
                      td_function := Some {| fd_name := Some "f";
                                             fd_arguments := Some "{" |} |}
                   {| td_index := Some 1%Z; td_id := None;
                      td_function := Some {| fd_name := Some "g";
                                             fd_arguments := Some "{}" |} |}
                   _)).
  discriminate.
Defined.

(** ** Argument text split in any way *)

Section AnySplit.

Variable json_loads : string -> option json.
Variable json_dumps : bool -> json -> string.

Lemma piece_entry_update (index : option Z) (piece : string) (e : acc_entry) :
  a_name (update_entry (piece_entry index piece) e) = a_name e
  /\ a_arguments (update_entry (piece_entry index piece) e)
     = (a_arguments e ++ piece)%string.
Proof.
  split; [reflexivity|]. now rewrite update_arguments_appended.
Qed.

(** A slot with a name, fed the pieces of an argument text none of whose
    proper prefixes parses, is emitted by the last piece. *)
Lemma pieces_run (index : option Z) (name : string) (parsed : json)
    (pieces : list string) :
  name <> "" ->
  pieces <> [] ->
  forall e : acc_entry,
    a_name e = name ->
    (forall n, n < List.length pieces ->
               json_loads (a_arguments e ++ joined (firstn n pieces)) = None) ->
    json_loads (a_arguments e ++ joined pieces) = Some parsed ->
    consume json_loads json_dumps (map (args_fragment index) pieces)
            [(tool_call_key (piece_entry index ""), e)]
    = ([data_frame json_dumps
          (json_of_chunk {| cand_parts := [FunctionCallPart name parsed];
                            cand_finishReason := None |})],
       Dict.empty).
Proof.
  intros Hname. set (k := tool_call_key (piece_entry index "")).
  induction pieces as [|p ps IH]; intros Hne e He Hpre Hfull; [congruence|].
  destruct (piece_entry_update index p e) as [Hn Ha].
  set (tc := piece_entry index p) in *.
  set (e' := update_entry tc e) in *.
  assert (Hslot : slot [(k, e)] tc = e) by now apply slot_singleton.
  cbn [map consume]. unfold args_fragment at 1.
  rewrite convert_tool_call_fragment. fold (piece_entry index p). fold tc.
  destruct ps as [|p2 ps].
  - (* the last piece *)
    assert (Hv : json_loads (a_arguments e') = Some parsed).
    { rewrite Ha. cbn [joined fold_right] in Hfull.
      now rewrite StrFacts.app_nil_r in Hfull. }
    assert (Hnone : json_loads (a_arguments e) = None).
    { specialize (Hpre 0 (Nat.lt_0_succ _)).
      cbn [firstn joined fold_right] in Hpre.
      now rewrite StrFacts.app_nil_r in Hpre. }
    assert (Hargs : a_arguments e' <> "").
    { intros E. rewrite Ha in E.
      destruct (a_arguments e) as [|? ?] eqn:Eb; [|discriminate E].
      cbn in E. subst p. rewrite Ha in Hv. cbn in Hv. congruence. }
    assert (Hstep : accumulate json_loads ([(k, e)], []) tc
                = (Dict.empty, [FunctionCallPart name parsed])).
    { rewrite (accumulate_complete json_loads _ _ _ parsed);
        rewrite Hslot; fold e'.
      - change (tool_call_key tc) with k.
        now rewrite set_singleton, del_singleton, Hn, He.
      - exact Hargs.
      - rewrite Hn, He. exact Hname.
      - exact Hv. }
    use_step Hstep. reflexivity.
  - (* a piece before the last *)
    assert (Hnone : json_loads (a_arguments e') = None).
    { rewrite Ha. specialize (Hpre 1). cbn [firstn joined fold_right] in Hpre.
      rewrite StrFacts.app_nil_r in Hpre. apply Hpre. simpl. lia. }
    assert (Hstep : accumulate json_loads ([(k, e)], []) tc = ([(k, e')], [])).
    { rewrite accumulate_pending; rewrite Hslot; fold e'.
      - change (tool_call_key tc) with k. now rewrite set_singleton.
      - now right. }
    use_step Hstep. cbn [fst snd].
    rewrite (IH ltac:(discriminate) e').
    + reflexivity.
    + now rewrite Hn.
    + intros n Hlt. rewrite Ha, StrFacts.app_assoc.
      apply (Hpre (S n)). simpl in *. lia.
    + rewrite Ha, StrFacts.app_assoc. exact Hfull.
Qed.

End AnySplit.

(** X14.  However the argument text of a tool call is split over the
    fragments that follow the one carrying its function name, if no proper
    prefix of the text is JSON and the whole text is, then the stream
    yields exactly one frame, at the last piece, holding the function call
    with that name and the parsed text, and leaves the mapping empty. *)
Theorem X14_any_split_emitted_once
    (json_loads : string -> option json) (json_dumps : bool -> json -> string)
    (parsed : json) (index : option Z) (id : option string) (name : string)
    (no_args : option string) (pieces : list string) :
  name <> "" ->
  PyStr.truthy_opt no_args = false ->
  pieces <> [] ->
  (forall n, n < List.length pieces ->
             json_loads (joined (firstn n pieces)) = None) ->
  json_loads (joined pieces) = Some parsed ->
  consume json_loads json_dumps
    (tool_call_fragment index id (Some name) no_args
     :: map (args_fragment index) pieces) Dict.empty
  = ([data_frame json_dumps
        (json_of_chunk {| cand_parts := [FunctionCallPart name parsed];
                          cand_finishReason := None |})],
     Dict.empty).
Proof.
  intros Hname Hno Hne Hpre Hfull.
  set (tc1 := mk_tool_call_delta index id
                (Some (mk_function_delta (Some name) no_args))).
  set (e1 := update_entry tc1 fresh_entry).
  assert (N1 : a_name e1 = name).
  { unfold e1. rewrite update_name_set by reflexivity. reflexivity. }
  assert (A1 : a_arguments e1 = "").
  { unfold e1. rewrite update_arguments_appended.
    destruct no_args as [[|c a]|]; [reflexivity | discriminate | reflexivity]. }
  assert (S1 : accumulate json_loads (Dict.empty, []) tc1
               = ([(tool_call_key tc1, e1)], [])).
  { rewrite accumulate_pending; [reflexivity|].
    left. change (slot Dict.empty tc1) with fresh_entry. fold e1.
    now rewrite A1. }
  cbn [consume]. rewrite convert_tool_call_fragment. fold tc1.
  use_step S1. cbn [fst snd].
  change (tool_call_key tc1) with (tool_call_key (piece_entry index "")).
  assert (R : consume json_loads json_dumps (map (args_fragment index) pieces)
                [(tool_call_key (piece_entry index ""), e1)]
              = ([data_frame json_dumps
                    (json_of_chunk
                       {| cand_parts := [FunctionCallPart name parsed];
                          cand_finishReason := None |})],
                 Dict.empty)).
  { apply (pieces_run json_loads json_dumps index name parsed pieces
             Hname Hne e1 N1).
    - intros n Hn. rewrite A1. now apply Hpre.
    - rewrite A1. exact Hfull. }
  match goal with
  | |- context [consume ?l ?d ?cs ?a] =>
      replace (consume l d cs a) with
        ([data_frame json_dumps
            (json_of_chunk {| cand_parts := [FunctionCallPart name parsed];
                              cand_finishReason := None |})],
         @Dict.empty acc_entry) by (symmetry; exact R)
  end.
  reflexivity.
Qed.

Lemma X14_any_split_emitted_once_witness :
  consume Json.loads Json.dumps
    (tool_call_fragment (Some 0%Z) (Some "call_1") (Some "f") (Some "")
     :: map (args_fragment (Some 0%Z))
            ["{"; (Json.dq ++ "x" ++ Json.dq)%string; ":1"; "}"])
    Dict.empty
  = ([data_frame Json.dumps
        (json_of_chunk
           {| cand_parts := [FunctionCallPart "f" (JObj [("x", JInt 1)])];
              cand_finishReason := None |})],
     Dict.empty).
Proof.
  refine (X14_any_split_emitted_once Json.loads Json.dumps
            (JObj [("x", JInt 1)]) (Some 0%Z) (Some "call_1") "f" (Some "")
            ["{"; (Json.dq ++ "x" ++ Json.dq)%string; ":1"; "}"] _ _ _ _ _).
  - discriminate.
  - reflexivity.
  - discriminate.
  - intros n Hn.
    destruct n as [|[|[|[|n]]]]; try reflexivity. simpl in Hn. lia.
  - reflexivity.
Defined.

(** X15.  Argument text that arrives for a slot without a function name,
    in an entry that brings no name either (as happens when text follows a
    call that was already emitted and removed), is kept in the mapping but
    emits nothing, and the slot it leaves yields nothing at the end of the
    stream. *)
Theorem X15_nameless_slot_silent
    (json_loads : string -> option json) (json_dumps : bool -> json -> string)
    (acc : Dict.t acc_entry) (parts : list gemini_part)
    (tc : tool_call_delta) :
  a_name (slot acc tc) = "" ->
  incoming_name tc = "" ->
  snd (accumulate json_loads (acc, parts) tc) = parts
  /\ exists e : acc_entry,
      Dict.get (tool_call_key tc)
               (fst (accumulate json_loads (acc, parts) tc)) = Some e
      /\ a_name e = ""
      /\ a_arguments e
         = (a_arguments (slot acc tc) ++ incoming_arguments tc)%string
      /\ flush_entry json_loads json_dumps e = [].
Proof.
  intros Hs Hi.
  assert (Hn : a_name (update_entry tc (slot acc tc)) = "").
  { rewrite update_name_set by exact Hs. exact Hi. }
  rewrite accumulate_pending by (left; rewrite Hn; apply andb_false_r).
  split; [reflexivity|].
  exists (update_entry tc (slot acc tc)). cbn [fst].
  split; [apply DictFacts.get_set_same|]. split; [exact Hn|].
  split; [apply update_arguments_appended|].
  unfold flush_entry. now rewrite Hn.
Qed.

Lemma X15_nameless_slot_silent_witness :
  snd (accumulate Json.loads (Dict.empty, []) (piece_entry (Some 0%Z) "{}"))
  = [].
Proof.
  exact (proj1 (X15_nameless_slot_silent Json.loads Json.dumps Dict.empty []
                  (piece_entry (Some 0%Z) "{}") eq_refl eq_refl)).
Defined.

(** ** Requests sent to the backend *)

Lemma well_formed_not_system (m : message) :
  well_formed_message m -> m_role m <> "system".
Proof.
  intros [(H & _)|[(H & _)|(H & _)]]; rewrite H; discriminate.
Qed.

Lemma system_message_shape (parts : list part_dict) :
  system_message parts = []
  \/ exists t, trimmed t
               /\ system_message parts
                  = [{| m_role := "system"; m_content := Some t;
                        m_tool_call_id := None; m_tool_calls := None |}].
Proof.
  unfold system_message.
  destruct (PyStr.truthy (PyStr.strip _)) eqn:E; [|now left].
  right. eexists. split; [|reflexivity]. split.
  - now apply truthy_true.
  - apply StripFacts.strip_idem.
Qed.

(** X16.  The messages of a streaming request are the converted history,
    preceded by at most one system message; the system message holds a
    non-empty trimmed text, and no message converted from the history has
    the system role.  The model is the entry of the model table for the
    requested model ([gemini-1.5-pro] when the request names none), or the
    default model when the table has no such entry. *)
Theorem X16_request_messages (json_dumps : bool -> json -> string)
    (MODEL_MAPPING : Dict.t string) (DEFAULT_OPENAI_MODEL : string)
    (rq : request_data) :
  (exists sys : list message,
      cp_messages (build_completion_params json_dumps MODEL_MAPPING
                     DEFAULT_OPENAI_MODEL rq)
      = sys ++ convert_contents_to_messages (json_dumps true)
                 (match rq_contents rq with Some c => c | None => [] end)
      /\ (sys = []
          \/ exists t, trimmed t
                       /\ sys = [{| m_role := "system"; m_content := Some t;
                                    m_tool_call_id := None;
                                    m_tool_calls := None |}]))
  /\ (forall m : message,
         In m (convert_contents_to_messages (json_dumps true)
                 (match rq_contents rq with Some c => c | None => [] end)) ->
         m_role m <> "system")
  /\ cp_model (build_completion_params json_dumps MODEL_MAPPING
                 DEFAULT_OPENAI_MODEL rq)
     = match Dict.get (match rq_model rq with
                       | Some m => m
                       | None => "gemini-1.5-pro"
                       end) MODEL_MAPPING with
       | Some mapped => mapped
       | None => DEFAULT_OPENAI_MODEL
       end.
Proof.
  split; [|split; [|reflexivity]].
  - unfold build_completion_params. cbn [cp_messages].
    destruct (rq_systemInstruction rq) as [parts|].
    + exists (system_message parts). split; [reflexivity|].
      apply system_message_shape.
    + exists []. split; [reflexivity | now left].
  - intros m H. apply well_formed_not_system.
    apply convert_from_in in H. destruct H as (j & c & _ & H).
    now apply convert_content_well_formed in H.
Qed.

Lemma X16_request_messages_witness :
  m_role {| m_role := "user"; m_content := Some "Hi";
            m_tool_call_id := None; m_tool_calls := None |} <> "system".
Proof.
  apply (proj1 (proj2 (X16_request_messages Json.dumps Dict.empty "gpt-4o"
                         sample_request))).
  left. reflexivity.
Defined.

(** X18.  The single-shot and the streaming exchange send the backend the
    same request, the stream flag apart: the same model, messages,
    generation parameters and tools. *)
Theorem X18_same_backend_request (json_dumps : bool -> json -> string)
    (MODEL_MAPPING : Dict.t string) (DEFAULT_OPENAI_MODEL : string)
    (rq : request_data) :
  single_completion_params json_dumps MODEL_MAPPING DEFAULT_OPENAI_MODEL rq
  = {| cp_model := cp_model (build_completion_params json_dumps MODEL_MAPPING
                               DEFAULT_OPENAI_MODEL rq);
       cp_messages := cp_messages (build_completion_params json_dumps
                                     MODEL_MAPPING DEFAULT_OPENAI_MODEL rq);
       cp_stream := false;
       cp_params := cp_params (build_completion_params json_dumps
                                 MODEL_MAPPING DEFAULT_OPENAI_MODEL rq);
       cp_tools := cp_tools (build_completion_params json_dumps MODEL_MAPPING
                               DEFAULT_OPENAI_MODEL rq) |}
  /\ cp_stream (build_completion_params json_dumps MODEL_MAPPING
                  DEFAULT_OPENAI_MODEL rq) = true.
Proof. split; reflexivity. Qed.

(** ** Slot keys *)

Lemma of_Z_inj (a b : Z) : PyStr.of_Z a = PyStr.of_Z b -> a = b.
Proof.
  unfold PyStr.of_Z. intros H.
  assert (Hnil : forall z, Z.to_int z <> Decimal.Pos Decimal.Nil
                           /\ Z.to_int z <> Decimal.Neg Decimal.Nil).
  { intros [|p|p]; simpl; split; try discriminate;
      intros [= E]; now apply (DecimalPos.Unsigned.to_uint_nonnil p). }
  apply DecimalZ.to_int_inj.
  assert (E : NilZero.int_of_string (NilZero.string_of_int (Z.to_int a))
              = NilZero.int_of_string (NilZero.string_of_int (Z.to_int b)))
    by now rewrite H.
  rewrite !NilZero.isi in E; try apply Hnil. now injection E.
Qed.

(** X19.  Slots are filed by index: two tool-call entries meet the same
    slot exactly when their indexes are equal, an entry without index
    counting as index 0. *)
Theorem X19_slot_key_is_index (tc1 tc2 : tool_call_delta) :
  tool_call_key tc1 = tool_call_key tc2 <-> slot_index tc1 = slot_index tc2.
Proof.
  unfold tool_call_key. fold (slot_index tc1). fold (slot_index tc2). split.
  - intros H. cbn in H. injection H as H. now apply of_Z_inj.
  - now intros ->.
Qed.

(** ** Histories turn by turn *)

Lemma convert_from_kept (json_dumps : json -> string)
    (contents rest : list content) (i : nat) :
  i + List.length rest < List.length contents ->
  convert_from json_dumps contents i rest
  = flat_map (kept_turn json_dumps) rest.
Proof.
  revert i. induction rest as [|c rest IH]; intros i H; [reflexivity|].
  cbn [convert_from flat_map]. simpl in H.
  rewrite IH by lia. f_equal.
  apply convert_content_context.
  replace (Nat.eqb i (List.length contents - 1)) with false
    by (symmetry; apply Nat.eqb_neq; lia).
  reflexivity.
Qed.

(** X20.  A history is converted turn by turn, in order: the messages of
    the history are those of each turn but the last, converted as a turn
    that keeps its function calls, followed by those of the last turn,
    converted as a turn that loses them.  Nothing else of the history
    enters the conversion of a turn. *)
Theorem X20_history_turn_by_turn (json_dumps : json -> string)
    (pre : list content) (c : content) :
  convert_contents_to_messages json_dumps (pre ++ [c])
  = flat_map (kept_turn json_dumps) pre ++ final_turn json_dumps c.
Proof.
  unfold convert_contents_to_messages. rewrite convert_from_app.
  rewrite convert_from_kept by (rewrite length_app; simpl; lia).
  f_equal. cbn [convert_from]. rewrite app_nil_r.
  apply convert_content_context.
  rewrite length_app. cbn [List.length].
  replace (List.length pre + 1 - 1) with (0 + List.length pre) by lia.
  now rewrite Nat.eqb_refl.
Qed.

(** ** Values of the finish reason *)

Lemma mapped_finish_reason (mapping : Dict.t string) (r : option string)
    (v : string) :
  Forall (fun kv => gemini_finish_reason (snd kv) = true) mapping ->
  mapping_get mapping r = Some v -> gemini_finish_reason v = true.
Proof.
  destruct r as [k|]; [|discriminate]. simpl.
  induction 1 as [|[k0 v0] m Hk Hm IH]; simpl; [discriminate|].
  destruct (String.eqb k k0); [|exact IH].
  now intros [= <-].
Qed.

(** X21.  The finishReason of a converted complete response is always
    present and is STOP, MAX_TOKENS or SAFETY; the finishReason of a
    streamed fragment is one of these or absent. *)
Theorem X21_finish_reason_values (json_loads : string -> option json) :
  (forall (response : chat_completion) (out : gemini_response),
      convert_response_to_gemini json_loads response = Some out ->
      exists r, cand_finishReason (gr_candidate out) = Some r
                /\ gemini_finish_reason r = true)
  /\ (forall (c : chunk) (acc acc' : Dict.t acc_entry) (out : candidate)
             (r : string),
         convert_streaming_chunk_to_gemini json_loads c acc
         = (Some out, acc') ->
         cand_finishReason out = Some r ->
         gemini_finish_reason r = true).
Proof.
  assert (T1 : Forall (fun kv => gemini_finish_reason (snd kv) = true)
                      finish_reason_mapping)
    by (repeat constructor).
  assert (T2 : Forall (fun kv => gemini_finish_reason (snd kv) = true)
                      streaming_finish_reason_mapping)
    by (repeat constructor).
  split.
  - intros response out. unfold convert_response_to_gemini.
    destruct (cc_choices response) as [|choice rest]; [discriminate|].
    destruct (function_call_parts json_loads _); [|discriminate].
    intros [= <-]. cbn [gr_candidate cand_finishReason].
    eexists. split; [reflexivity|].
    destruct (mapping_get finish_reason_mapping (rc_finish_reason choice))
      as [v|] eqn:E; [|reflexivity].
    exact (mapped_finish_reason _ _ _ T1 E).
  - intros c acc acc' out r H Hr.
    destruct (convert_chunk_finish_reason json_loads c acc acc' out H)
      as (choice & rest & _ & Hf).
    rewrite Hf in Hr.
    destruct (PyStr.truthy_opt (ch_finish_reason choice)); [|discriminate].
    exact (mapped_finish_reason _ _ _ T2 Hr).
Qed.

Lemma X21_finish_reason_values_witness :
  exists r, Some "STOP" = Some r /\ gemini_finish_reason r = true.
Proof.
  exact (proj1 (X21_finish_reason_values Json.loads)
           (text_response "Hello!" (Some "eos"))
           {| gr_candidate :=
                {| cand_parts := [TextPart "Hello!"];
                   cand_finishReason := Some "STOP" |};
              gr_usageMetadata := None |}
           eq_refl).
Defined.

Lemma X19_slot_key_is_index_witness :
  tool_call_key (piece_entry None "{")
  = tool_call_key (piece_entry (Some 0%Z) "}").
Proof.
  exact (proj2 (X19_slot_key_is_index (piece_entry None "{")
                  (piece_entry (Some 0%Z) "}")) eq_refl).
Defined.

(** ** Conversions that raise *)

Section ValuesFacts.

Context {V : Type} (P : V -> Prop).

Lemma forall_values_set (k : string) (v : V) (d : Dict.t V) :
  P v -> Forall (fun kv => P (snd kv)) d ->
  Forall (fun kv => P (snd kv)) (Dict.set k v d).
Proof.
  intros Hv. induction 1 as [|[k' v'] d Hk Hd IH]; simpl.
  - repeat constructor. exact Hv.
  - destruct (String.eqb k k'); constructor; assumption.
Qed.

Lemma forall_values_del (k : string) (d : Dict.t V) :
  Forall (fun kv => P (snd kv)) d ->
  Forall (fun kv => P (snd kv)) (Dict.del k d).
Proof.
  induction 1 as [|[k' v'] d Hk Hd IH]; simpl.
  - constructor.
  - destruct (String.eqb k k'); [exact IH | constructor; assumption].
Qed.

Lemma forall_values_del_set (k : string) (v : V) (d : Dict.t V) :
  Forall (fun kv => P (snd kv)) d ->
  Forall (fun kv => P (snd kv)) (Dict.del k (Dict.set k v d)).
Proof.
  induction 1 as [|[k' v'] d Hk Hd IH]; simpl.
  - rewrite String.eqb_refl. constructor.
  - destruct (String.eqb k k') eqn:E; simpl; rewrite E.
    + now apply forall_values_del.
    + constructor; assumption.
Qed.

End ValuesFacts.

Section RaisingFacts.

Variable json_loads : string -> loaded.
Variable json_dumps : bool -> json -> string.

(** A pass of the loop that raises nothing is the pass described above,
    for the loader seen through its values. *)
Lemma accumulate_continue (st st' : Dict.t acc_entry * list gemini_part)
    (tc : tool_call_delta) :
  Raising.accumulate json_loads st tc = Raising.Continue st' ->
  accumulate (loads_value json_loads) st tc = st'.
Proof.
  destruct st as [acc parts]. unfold Raising.accumulate, accumulate.
  set (e := update_entry tc _).
  destruct (PyStr.truthy (a_arguments e) && PyStr.truthy (a_name e)).
  - unfold loads_value.
    destruct (json_loads (a_arguments e)) as [v|m|m]; intros H;
      now inversion H.
  - intros H. now inversion H.
Qed.

(** A pass raises exactly when the slot it has updated has a name and a
    buffer on which [json.loads] raises an exception other than
    [json.JSONDecodeError]; the mapping then holds the updated slot. *)
Lemma accumulate_abort (acc acc' : Dict.t acc_entry)
    (parts : list gemini_part) (tc : tool_call_delta) (m : string) :
  Raising.accumulate json_loads (acc, parts) tc = Raising.Abort acc' m
  <-> (a_name (update_entry tc (slot acc tc)) <> ""
       /\ a_arguments (update_entry tc (slot acc tc)) <> ""
       /\ json_loads (a_arguments (update_entry tc (slot acc tc)))
          = OtherError m
       /\ acc' = Dict.set (tool_call_key tc)
                          (update_entry tc (slot acc tc)) acc).
Proof.
  unfold Raising.accumulate. fold (slot acc tc).
  set (e := update_entry tc (slot acc tc)).
  split.
  - destruct (PyStr.truthy (a_arguments e) && PyStr.truthy (a_name e))
      eqn:Et; [|discriminate].
    apply andb_true_iff in Et. destruct Et as [Ha Hn].
    apply truthy_true in Ha. apply truthy_true in Hn.
    destruct (json_loads (a_arguments e)) as [v|m'|m']; try discriminate.
    intros H. inversion H. subst. repeat split; assumption.
  - intros (Hn & Ha & Hl & ->).
    apply truthy_true in Ha. apply truthy_true in Hn.
    now rewrite Ha, Hn, Hl.
Qed.

Lemma accumulate_all_continue (tcs : list tool_call_delta)
    (st st' : Dict.t acc_entry * list gemini_part) :
  Raising.accumulate_all json_loads tcs st = Raising.Continue st' ->
  fold_left (accumulate (loads_value json_loads)) tcs st = st'.
Proof.
  revert st. induction tcs as [|tc tcs IH]; intros st; cbn [fold_left].
  - intros H. now inversion H.
  - cbn [Raising.accumulate_all].
    destruct (Raising.accumulate json_loads st tc) as [st1|a m] eqn:E;
      [|discriminate].
    apply accumulate_continue in E. rewrite E. apply IH.
Qed.

Lemma accumulate_all_abort (tcs : list tool_call_delta)
    (st : Dict.t acc_entry * list gemini_part) (acc' : Dict.t acc_entry)
    (m : string) :
  Raising.accumulate_all json_loads tcs st = Raising.Abort acc' m ->
  exists buffer : string,
    buffer <> "" /\ json_loads buffer = OtherError m.
Proof.
  revert st. induction tcs as [|tc tcs IH]; intros st;
    cbn [Raising.accumulate_all]; [discriminate|].
  destruct (Raising.accumulate json_loads st tc) as [st1|a m'] eqn:E.
  - apply IH.
  - intros H. inversion H. subst. destruct st as [acc parts].
    apply accumulate_abort in E. destruct E as (_ & Ha & Hl & _).
    eexists. split; [exact Ha | exact Hl].
Qed.

(** A call that returns is the call described above. *)
Lemma convert_returned (c : chunk) (acc acc' : Dict.t acc_entry)
    (r : option candidate) :
  Raising.convert_streaming_chunk_to_gemini json_loads c acc
  = (Returned r, acc') ->
  convert_streaming_chunk_to_gemini (loads_value json_loads) c acc
  = (r, acc').
Proof.
  unfold Raising.convert_streaming_chunk_to_gemini,
    convert_streaming_chunk_to_gemini.
  destruct (ck_choices c) as [|choice rest]; [intros H; now inversion H|].
  destruct (ch_delta choice) as [d|]; [|intros H; now inversion H].
  destruct (Raising.accumulate_all json_loads _ _) as [[acc1 parts]|a m]
    eqn:E; [|discriminate].
  apply accumulate_all_continue in E. rewrite E.
  destruct (_ && _); intros H; now inversion H.
Qed.

(** A call raises only what [json.loads] raised on a buffer. *)
Lemma convert_raised (c : chunk) (acc acc' : Dict.t acc_entry) (m : string) :
  Raising.convert_streaming_chunk_to_gemini json_loads c acc
  = (Raised m, acc') ->
  exists buffer : string,
    buffer <> "" /\ json_loads buffer = OtherError m.
Proof.
  unfold Raising.convert_streaming_chunk_to_gemini.
  destruct (ck_choices c) as [|choice rest]; [discriminate|].
  destruct (ch_delta choice) as [d|]; [|discriminate].
  destruct (Raising.accumulate_all json_loads _ _) as [[acc1 parts]|a m']
    eqn:E.
  - destruct (_ && _); discriminate.
  - intros H. inversion H. subst.
    now apply accumulate_all_abort in E.
Qed.

End RaisingFacts.

Section RaisingExchange.

Variable json_loads : string -> loaded.
Variable json_dumps : bool -> json -> string.

(** A pass that raises nothing leaves only slots that the loop at the end
    of the stream discards. *)
Lemma accumulate_discarded (acc acc' : Dict.t acc_entry)
    (parts parts' : list gemini_part) (tc : tool_call_delta) :
  all_discarded json_loads acc ->
  Raising.accumulate json_loads (acc, parts) tc
  = Raising.Continue (acc', parts') ->
  all_discarded json_loads acc'.
Proof.
  intros H. unfold Raising.accumulate.
  set (e := update_entry tc _).
  destruct (PyStr.truthy (a_arguments e) && PyStr.truthy (a_name e)) eqn:Et.
  - destruct (json_loads (a_arguments e)) as [v|m|m] eqn:El;
      intros E; inversion E; subst.
    + now apply (forall_values_del_set
                   (fun x => discarded json_loads x = true)).
    + apply (forall_values_set (fun x => discarded json_loads x = true));
        [|exact H].
      unfold discarded. rewrite El. apply orb_true_r.
  - intros E. inversion E. subst.
    apply (forall_values_set (fun x => discarded json_loads x = true));
      [|exact H].
    unfold discarded. rewrite andb_comm, Et. reflexivity.
Qed.

Lemma accumulate_all_discarded (tcs : list tool_call_delta)
    (acc acc' : Dict.t acc_entry) (parts parts' : list gemini_part) :
  all_discarded json_loads acc ->
  Raising.accumulate_all json_loads tcs (acc, parts)
  = Raising.Continue (acc', parts') ->
  all_discarded json_loads acc'.
Proof.
  revert acc parts. induction tcs as [|tc tcs IH]; intros acc parts H;
    cbn [Raising.accumulate_all].
  - intros E. inversion E. now subst.
  - destruct (Raising.accumulate json_loads (acc, parts) tc)
      as [[acc1 parts1]|a m] eqn:E; [|discriminate].
    apply IH. exact (accumulate_discarded _ _ _ _ _ H E).
Qed.

Lemma convert_discarded (c : chunk) (acc acc' : Dict.t acc_entry)
    (r : option candidate) :
  all_discarded json_loads acc ->
  Raising.convert_streaming_chunk_to_gemini json_loads c acc
  = (Returned r, acc') ->
  all_discarded json_loads acc'.
Proof.
  intros H. unfold Raising.convert_streaming_chunk_to_gemini.
  destruct (ck_choices c) as [|choice rest];
    [intros E; inversion E; now subst|].
  destruct (ch_delta choice) as [d|]; [|intros E; inversion E; now subst].
  destruct (Raising.accumulate_all json_loads _ _) as [[acc1 parts]|a m]
    eqn:E; [|discriminate].
  apply accumulate_all_discarded in E; [|exact H].
  destruct (_ && _); intros E'; inversion E'; now subst.
Qed.

(** A fragment loop that raises nothing leaves only such slots. *)
Lemma consume_discarded (chunks : list chunk) (acc acc' : Dict.t acc_entry)
    (frames : list string) :
  all_discarded json_loads acc ->
  Raising.consume json_loads json_dumps chunks acc = (frames, acc', None) ->
  all_discarded json_loads acc'.
Proof.
  revert acc frames. induction chunks as [|c chunks IH]; intros acc frames H;
    cbn [Raising.consume].
  - intros E. inversion E. now subst.
  - destruct (Raising.convert_streaming_chunk_to_gemini json_loads c acc)
      as [[r|m] acc1] eqn:E; [|discriminate].
    apply convert_discarded in E; [|exact H].
    specialize (IH acc1).
    destruct (Raising.consume json_loads json_dumps chunks acc1)
      as [[frames1 acc2] raised].
    intros E'. inversion E'. subst. now apply (IH frames1).
Qed.

(** The loop at the end of the stream yields nothing and raises nothing on
    such slots. *)
Lemma flush_discarded (acc : Dict.t acc_entry) :
  all_discarded json_loads acc ->
  Raising.flush json_loads json_dumps acc = ([], None).
Proof.
  unfold Raising.flush.
  induction 1 as [|[k e] acc Hk Hacc IH]; [reflexivity|].
  cbn [Dict.values map snd Raising.flush_values] in *.
  unfold Dict.values in IH. rewrite IH.
  unfold Raising.flush_entry. unfold discarded in Hk. cbn [snd] in Hk.
  destruct (PyStr.truthy (a_name e) && PyStr.truthy (a_arguments e));
    [|reflexivity].
  cbn [negb orb] in Hk.
  destruct (json_loads (a_arguments e)); [discriminate Hk | reflexivity
                                         | discriminate Hk].
Qed.

(** Every frame of the fragment loop carries a fragment. *)
Lemma consume_fragments (chunks : list chunk) (acc : Dict.t acc_entry) :
  exists cands : list candidate,
    fst (fst (Raising.consume json_loads json_dumps chunks acc))
    = map (fun c => data_frame json_dumps (json_of_chunk c)) cands.
Proof.
  revert acc. induction chunks as [|c chunks IH]; intros acc.
  - exists []. reflexivity.
  - cbn [Raising.consume].
    destruct (Raising.convert_streaming_chunk_to_gemini json_loads c acc)
      as [[r|m] acc1]; [|exists []; reflexivity].
    destruct (IH acc1) as [cands Hc].
    destruct (Raising.consume json_loads json_dumps chunks acc1)
      as [[frames acc2] raised].
    cbn [fst] in *. subst frames.
    destruct r as [g|]; [exists (g :: cands) | exists cands]; reflexivity.
Qed.

(** The fragment loop raises only what [json.loads] raised on a buffer. *)
Lemma consume_raised (chunks : list chunk) (acc acc' : Dict.t acc_entry)
    (frames : list string) (m : string) :
  Raising.consume json_loads json_dumps chunks acc = (frames, acc', Some m) ->
  exists buffer : string,
    buffer <> "" /\ json_loads buffer = OtherError m.
Proof.
  revert acc frames. induction chunks as [|c chunks IH]; intros acc frames;
    cbn [Raising.consume]; [discriminate|].
  destruct (Raising.convert_streaming_chunk_to_gemini json_loads c acc)
    as [[r|m'] acc1] eqn:E.
  - specialize (IH acc1).
    destruct (Raising.consume json_loads json_dumps chunks acc1)
      as [[frames1 acc2] raised].
    intros E'. inversion E'. subst. now apply (IH frames1).
  - intros E'. inversion E'. subst. now apply convert_raised in E.
Qed.

End RaisingExchange.

Section RaisingStream.

Variable json_loads : string -> loaded.
Variable json_dumps : bool -> json -> string.

(** While no slot raises, the loop at the end of the stream yields the
    frames of the slots, in order. *)
Lemma flush_values_frames (values : list acc_entry) :
  (forall (e : acc_entry) (m : string),
      In e values -> Raising.flush_entry json_loads json_dumps e <> Raised m) ->
  Raising.flush_values json_loads json_dumps values
  = (flat_map (fun e => match Raising.flush_entry json_loads json_dumps e with
                        | Returned frames => frames
                        | Raised _ => []
                        end) values, None).
Proof.
  induction values as [|e values IH]; intros H; [reflexivity|].
  cbn [Raising.flush_values flat_map].
  destruct (Raising.flush_entry json_loads json_dumps e) as [frames|m] eqn:E.
  - rewrite IH; [reflexivity|].
    intros e' m' Hin. apply H. now right.
  - exfalso. apply (H e m); [now left | exact E].
Qed.

(** The fragment loop stops at the first fragment whose conversion
    raises. *)
Lemma consume_stops (before after : list chunk) (c : chunk)
    (acc acc0 acc1 : Dict.t acc_entry) (frames : list string) (m : string) :
  Raising.consume json_loads json_dumps before acc = (frames, acc0, None) ->
  Raising.convert_streaming_chunk_to_gemini json_loads c acc0
  = (Raised m, acc1) ->
  Raising.consume json_loads json_dumps (before ++ c :: after) acc
  = (frames, acc1, Some m).
Proof.
  revert acc frames. induction before as [|b before IH]; intros acc frames.
  - cbn [Raising.consume app]. intros E Hc. inversion E. subst.
    now rewrite Hc.
  - cbn [Raising.consume app].
    destruct (Raising.convert_streaming_chunk_to_gemini json_loads b acc)
      as [[r|m'] acc2]; [|discriminate].
    specialize (IH acc2).
    destruct (Raising.consume json_loads json_dumps before acc2)
      as [[frames1 acc3] raised].
    intros E Hc. inversion E. subst.
    rewrite (IH frames1 eq_refl Hc). reflexivity.
Qed.

End RaisingStream.

(** C3.  At the end of the stream the loop over the slots still in the
    mapping visits each of them once, in order.  A slot with a non-empty
    function name and a non-empty argument buffer that [json.loads] parses
    yields exactly one frame: [data: ], the fragment whose single part is
    the functionCall with that name and the parsed arguments, with role
    model, finishReason STOP, index 0 and no safety ratings, and a blank
    line.  A slot whose name or buffer is empty, or whose buffer is not
    JSON, yields nothing and raises nothing.  A buffer on which
    [json.loads] raises another exception would end the loop with that
    exception, but no slot reaches the loop with one: whenever the client
    and the fragment loop raised nothing, every slot left in the mapping is
    one that is discarded, the loop yields nothing and raises nothing, and
    the frames of the exchange are those of the fragment loop, each of them
    a fragment and none an error. *)
Theorem C3_residual_flush
    (json_loads : string -> loaded) (json_dumps : bool -> json -> string) :
  (forall (e : acc_entry) (v : json),
      a_name e <> "" -> a_arguments e <> "" ->
      json_loads (a_arguments e) = Parsed v ->
      Raising.flush_entry json_loads json_dumps e
      = Returned
          [("data: "
            ++ json_dumps false
                 (JObj
                    [("candidates",
                      JArr
                        [JObj
                           [("content",
                             JObj
                               [("parts",
                                 JArr
                                   [JObj
                                      [("functionCall",
                                        JObj [("name", JStr (a_name e));
                                              ("args", v)])]]);
                                ("role", JStr "model")]);
                            ("finishReason", JStr "STOP");
                            ("index", JInt 0);
                            ("safetyRatings", JArr [])]])])
            ++ PyStr.newline ++ PyStr.newline)%string])
  /\ (forall e : acc_entry,
         a_name e = "" \/ a_arguments e = ""
         \/ (exists m, json_loads (a_arguments e) = DecodeError m) ->
         Raising.flush_entry json_loads json_dumps e = Returned [])
  /\ (forall (e : acc_entry) (m : string),
         a_name e <> "" -> a_arguments e <> "" ->
         json_loads (a_arguments e) = OtherError m ->
         Raising.flush_entry json_loads json_dumps e = Raised m)
  /\ (forall acc : Dict.t acc_entry,
         (forall (e : acc_entry) (m : string),
             In e (Dict.values acc) ->
             Raising.flush_entry json_loads json_dumps e <> Raised m) ->
         Raising.flush json_loads json_dumps acc
         = (flat_map
              (fun e =>
                 match Raising.flush_entry json_loads json_dumps e with
                 | Returned frames => frames
                 | Raised _ => []
                 end) (Dict.values acc), None))
  /\ (forall (MODEL_MAPPING : Dict.t string) (DEFAULT_OPENAI_MODEL : string)
             (create : completion_params -> outcome stream)
             (rq : request_data) (s : stream)
             (frames : list string) (acc : Dict.t acc_entry),
         create (build_completion_params json_dumps MODEL_MAPPING
                   DEFAULT_OPENAI_MODEL rq) = Returned s ->
         failure s = None ->
         Raising.consume json_loads json_dumps (delivered s) Dict.empty
         = (frames, acc, None) ->
         all_discarded json_loads acc
         /\ Raising.flush json_loads json_dumps acc = ([], None)
         /\ Raising.stream_generate_content json_loads json_dumps
              MODEL_MAPPING DEFAULT_OPENAI_MODEL create rq
            = frames
         /\ exists cands : list candidate,
             frames = map (fun c => data_frame json_dumps (json_of_chunk c))
                          cands
             /\ forall (c : candidate) (msg : string),
                 In c cands -> json_of_chunk c <> error_response msg).
Proof.
  split; [|split; [|split; [|split]]].
  - intros e v Hn Ha Hv. unfold Raising.flush_entry.
    apply truthy_true in Hn. apply truthy_true in Ha.
    now rewrite Hn, Ha, Hv.
  - intros e [H|[H|[m H]]]; unfold Raising.flush_entry.
    + rewrite H. reflexivity.
    + rewrite H. now rewrite andb_false_r.
    + rewrite H. now destruct (_ && _).
  - intros e m Hn Ha Hv. unfold Raising.flush_entry.
    apply truthy_true in Hn. apply truthy_true in Ha.
    now rewrite Hn, Ha, Hv.
  - intros acc H. unfold Raising.flush. now apply flush_values_frames.
  - intros MM DM create rq s frames acc Hc Hf Hl.
    assert (Hd : all_discarded json_loads acc).
    { apply (consume_discarded json_loads json_dumps (delivered s)
               Dict.empty acc frames); [constructor | exact Hl]. }
    pose proof (flush_discarded json_loads json_dumps acc Hd) as Hq.
    split; [exact Hd|]. split; [exact Hq|]. split.
    + unfold Raising.stream_generate_content.
      rewrite Hc, Hl, Hf, Hq. apply app_nil_r.
    + destruct (consume_fragments json_loads json_dumps (delivered s)
                  Dict.empty) as [cands H].
      rewrite Hl in H. cbn [fst] in H.
      exists cands. split; [exact H|].
      intros c msg _. apply json_of_chunk_not_error.
Qed.

Lemma C3_residual_flush_witness :
  Raising.flush_entry (loads_within 4300) Json.dumps
    {| a_id := "call_1"; a_name := "f"; a_arguments := "{}" |}
  = Returned
      [("data: {" ++ Json.dq ++ "candidates" ++ Json.dq ++ ": [{"
        ++ Json.dq ++ "content" ++ Json.dq ++ ": {"
        ++ Json.dq ++ "parts" ++ Json.dq ++ ": [{"
        ++ Json.dq ++ "functionCall" ++ Json.dq ++ ": {"
        ++ Json.dq ++ "name" ++ Json.dq ++ ": " ++ Json.dq ++ "f" ++ Json.dq
        ++ ", " ++ Json.dq ++ "args" ++ Json.dq ++ ": {}}}], "
        ++ Json.dq ++ "role" ++ Json.dq ++ ": " ++ Json.dq ++ "model"
        ++ Json.dq ++ "}, "
        ++ Json.dq ++ "finishReason" ++ Json.dq ++ ": " ++ Json.dq ++ "STOP"
        ++ Json.dq ++ ", " ++ Json.dq ++ "index" ++ Json.dq ++ ": 0, "
        ++ Json.dq ++ "safetyRatings" ++ Json.dq ++ ": []}]}"
        ++ PyStr.newline ++ PyStr.newline)%string]
  /\ Raising.flush_entry (loads_within 4300) Json.dumps
       {| a_id := "call_1"; a_name := "f"; a_arguments := args_head |}
     = Returned []
  /\ Raising.stream_generate_content (loads_within 4300) Json.dumps
       Dict.empty "gpt-4o"
       (serving_client
          [tool_call_fragment (Some 0%Z) (Some "call_1") (Some "f") None;
           tool_call_fragment (Some 0%Z) None None (Some args_head)])
       sample_request
     = [].
Proof.
  split; [|split].
  - refine (proj1 (C3_residual_flush (loads_within 4300) Json.dumps)
              {| a_id := "call_1"; a_name := "f"; a_arguments := "{}" |}
              (JObj []) _ _ _).
    + discriminate.
    + discriminate.
    + reflexivity.
  - apply (proj1 (proj2 (C3_residual_flush (loads_within 4300) Json.dumps))
             {| a_id := "call_1"; a_name := "f"; a_arguments := args_head |}).
    right. right. exists "Expecting value". reflexivity.
  - refine (proj1 (proj2 (proj2 (proj2 (proj2 (proj2 (proj2
              (C3_residual_flush (loads_within 4300) Json.dumps))))
              Dict.empty "gpt-4o"
              (serving_client
                 [tool_call_fragment (Some 0%Z) (Some "call_1") (Some "f")
                                     None;
                  tool_call_fragment (Some 0%Z) None None (Some args_head)])
              sample_request _ []
              [("tool_0", {| a_id := "call_1"; a_name := "f";
                             a_arguments := args_head |})]
              eq_refl eq_refl _)))).
    reflexivity.
Defined.

(** C9.  Whatever raises in a streaming exchange, the frames end with one
    error frame carrying the message of the exception, and nothing follows
    it.  If the client raises when the stream is requested, the exchange is
    that frame alone.  If the conversion of a fragment raises, which it does
    exactly when [json.loads] raises an exception other than
    [json.JSONDecodeError] on the buffer of a named slot, the exchange is the
    frames of the fragments before it followed by the error frame, and the
    fragments after it are not converted.  If the client raises while the
    stream is iterated, the exchange is the frames of the fragments
    delivered followed by the error frame.  If nothing raises there is no
    error frame.  The frames before the error frame carry fragments, never
    an error.  The error frame is [data: ] followed by the JSON object with
    the single key [error] holding [message], the text of the exception, and
    [type], [internal_error], and by a blank line. *)
Theorem C9_terminal_error_frame
    (json_loads : string -> loaded) (json_dumps : bool -> json -> string)
    (MODEL_MAPPING : Dict.t string) (DEFAULT_OPENAI_MODEL : string)
    (create : completion_params -> outcome stream) (rq : request_data) :
  (forall e : string,
      create (build_completion_params json_dumps MODEL_MAPPING
                DEFAULT_OPENAI_MODEL rq) = Raised e ->
      Raising.stream_generate_content json_loads json_dumps MODEL_MAPPING
        DEFAULT_OPENAI_MODEL create rq
      = [error_frame json_dumps e])
  /\ (forall (s : stream) (frames : list string) (acc : Dict.t acc_entry)
             (e : string),
         create (build_completion_params json_dumps MODEL_MAPPING
                   DEFAULT_OPENAI_MODEL rq) = Returned s ->
         Raising.consume json_loads json_dumps (delivered s) Dict.empty
         = (frames, acc, Some e) ->
         Raising.stream_generate_content json_loads json_dumps MODEL_MAPPING
           DEFAULT_OPENAI_MODEL create rq
         = frames ++ [error_frame json_dumps e]
         /\ exists buffer : string,
             buffer <> "" /\ json_loads buffer = OtherError e)
  /\ (forall (s : stream) (frames : list string) (acc : Dict.t acc_entry)
             (e : string),
         create (build_completion_params json_dumps MODEL_MAPPING
                   DEFAULT_OPENAI_MODEL rq) = Returned s ->
         Raising.consume json_loads json_dumps (delivered s) Dict.empty
         = (frames, acc, None) ->
         failure s = Some e ->
         Raising.stream_generate_content json_loads json_dumps MODEL_MAPPING
           DEFAULT_OPENAI_MODEL create rq
         = frames ++ [error_frame json_dumps e])
  /\ (forall (s : stream) (frames : list string) (acc : Dict.t acc_entry),
         create (build_completion_params json_dumps MODEL_MAPPING
                   DEFAULT_OPENAI_MODEL rq) = Returned s ->
         Raising.consume json_loads json_dumps (delivered s) Dict.empty
         = (frames, acc, None) ->
         failure s = None ->
         Raising.stream_generate_content json_loads json_dumps MODEL_MAPPING
           DEFAULT_OPENAI_MODEL create rq
         = frames)
  /\ (forall (acc acc' : Dict.t acc_entry) (parts : list gemini_part)
             (tc : tool_call_delta) (m : string),
         Raising.accumulate json_loads (acc, parts) tc
         = Raising.Abort acc' m
         <-> (a_name (update_entry tc (slot acc tc)) <> ""
              /\ a_arguments (update_entry tc (slot acc tc)) <> ""
              /\ json_loads (a_arguments (update_entry tc (slot acc tc)))
                 = OtherError m
              /\ acc' = Dict.set (tool_call_key tc)
                                 (update_entry tc (slot acc tc)) acc))
  /\ (forall (before after : list chunk) (c : chunk)
             (acc0 acc1 : Dict.t acc_entry) (frames : list string)
             (m : string),
         Raising.consume json_loads json_dumps before Dict.empty
         = (frames, acc0, None) ->
         Raising.convert_streaming_chunk_to_gemini json_loads c acc0
         = (Raised m, acc1) ->
         Raising.consume json_loads json_dumps (before ++ c :: after)
           Dict.empty
         = (frames, acc1, Some m))
  /\ (forall chunks : list chunk,
         exists cands : list candidate,
           fst (fst (Raising.consume json_loads json_dumps chunks
                       Dict.empty))
           = map (fun c => data_frame json_dumps (json_of_chunk c)) cands
           /\ forall (c : candidate) (msg : string),
               In c cands ->
               json_of_chunk c <> error_response msg
               /\ data_frame Json.dumps (json_of_chunk c)
                  <> error_frame Json.dumps msg)
  /\ (forall e : string,
         error_frame json_dumps e
         = ("data: "
            ++ json_dumps false
                 (JObj [("error",
                         JObj [("message", JStr e);
                               ("type", JStr "internal_error")])])
            ++ PyStr.newline ++ PyStr.newline)%string)
  /\ error_frame Json.dumps "boom"
     = ("data: {" ++ Json.dq ++ "error" ++ Json.dq ++ ": {"
        ++ Json.dq ++ "message" ++ Json.dq ++ ": " ++ Json.dq ++ "boom"
        ++ Json.dq ++ ", " ++ Json.dq ++ "type" ++ Json.dq ++ ": "
        ++ Json.dq ++ "internal_error" ++ Json.dq ++ "}}"
        ++ PyStr.newline ++ PyStr.newline)%string.
Proof.
  split; [|split; [|split; [|split; [|split; [|split; [|split; [|split]]]]]]].
  - intros e Hc. unfold Raising.stream_generate_content. now rewrite Hc.
  - intros s frames acc e Hc Hl. split.
    + unfold Raising.stream_generate_content. now rewrite Hc, Hl.
    + exact (consume_raised json_loads json_dumps _ _ _ _ _ Hl).
  - intros s frames acc e Hc Hl Hf.
    unfold Raising.stream_generate_content. now rewrite Hc, Hl, Hf.
  - intros s frames acc Hc Hl Hf.
    unfold Raising.stream_generate_content. rewrite Hc, Hl, Hf.
    rewrite (flush_discarded json_loads json_dumps acc).
    + apply app_nil_r.
    + apply (consume_discarded json_loads json_dumps (delivered s)
               Dict.empty acc frames); [constructor | exact Hl].
  - intros acc acc' parts tc m. apply accumulate_abort.
  - intros before after c acc0 acc1 frames m.
    apply consume_stops.
  - intros chunks.
    destruct (consume_fragments json_loads json_dumps chunks Dict.empty)
      as [cands H].
    exists cands. split; [exact H|].
    intros c msg _. split.
    + apply json_of_chunk_not_error.
    + apply data_frame_not_error_frame.
  - reflexivity.
  - reflexivity.
Qed.

Lemma C9_terminal_error_frame_witness :
  Raising.stream_generate_content (loads_within 4300) Json.dumps Dict.empty
    "gpt-4o" (refusing_client "401 Unauthorized") sample_request
  = [error_frame Json.dumps "401 Unauthorized"]
  /\ Raising.stream_generate_content (loads_within 4300) Json.dumps
       Dict.empty "gpt-4o" (breaking_client "connection reset")
       sample_request
     = [data_frame Json.dumps
          (json_of_chunk {| cand_parts := [TextPart "Hel"];
                            cand_finishReason := None |});
        error_frame Json.dumps "connection reset"]
  /\ Raising.stream_generate_content (loads_within 4300) Json.dumps
       Dict.empty "gpt-4o"
       (serving_client
          [text_fragment "Hel" None;
           tool_call_fragment (Some 0%Z) (Some "call_1") (Some "f")
                              (Some (ones 4301));
           text_fragment "lo" (Some "stop")])
       sample_request
     = [data_frame Json.dumps
          (json_of_chunk {| cand_parts := [TextPart "Hel"];
                            cand_finishReason := None |});
        error_frame Json.dumps (digit_limit_message 4300 4301)].
Proof.
  split; [|split].
  - exact (proj1 (C9_terminal_error_frame (loads_within 4300) Json.dumps
                    Dict.empty "gpt-4o" (refusing_client "401 Unauthorized")
                    sample_request)
             "401 Unauthorized" eq_refl).
  - exact (proj1 (proj2 (proj2
             (C9_terminal_error_frame (loads_within 4300) Json.dumps
                Dict.empty "gpt-4o" (breaking_client "connection reset")
                sample_request)))
             _ _ [] "connection reset" eq_refl eq_refl eq_refl).
  - refine (proj1 (proj1 (proj2
              (C9_terminal_error_frame (loads_within 4300) Json.dumps
                 Dict.empty "gpt-4o"
                 (serving_client
                    [text_fragment "Hel" None;
                     tool_call_fragment (Some 0%Z) (Some "call_1")
                                        (Some "f") (Some (ones 4301));
                     text_fragment "lo" (Some "stop")])
                 sample_request))
              _
              [data_frame Json.dumps
                 (json_of_chunk {| cand_parts := [TextPart "Hel"];
                                   cand_finishReason := None |})]
              [("tool_0", {| a_id := "call_1"; a_name := "f";
                             a_arguments := ones 4301 |})]
              (digit_limit_message 4300 4301) eq_refl _)).
    vm_compute. reflexivity.
Defined.

(** ** Complete responses that cannot be converted *)

Section RaisingResponse.

Variable json_loads : string -> loaded.

Lemma function_call_parts_returned (tcs : list response_tool_call)
    (ps : list gemini_part) :
  Raising.function_call_parts json_loads tcs = inl ps ->
  function_call_parts (loads_value json_loads) tcs = Some ps.
Proof.
  revert ps. induction tcs as [|tc tcs IH]; intros ps;
    cbn [Raising.function_call_parts function_call_parts].
  - intros H. now inversion H.
  - unfold loads_value at 1.
    destruct (json_loads (rtc_arguments tc)) as [v|m|m]; try discriminate.
    destruct (Raising.function_call_parts json_loads tcs) as [qs|e];
      [|discriminate].
    rewrite (IH qs eq_refl). intros H. now inversion H.
Qed.

(** A conversion that returns is the conversion described above. *)
Lemma convert_response_returned (response : chat_completion)
    (out : gemini_response) :
  Raising.convert_response_to_gemini json_loads response = inl out ->
  convert_response_to_gemini (loads_value json_loads) response = Some out.
Proof.
  unfold Raising.convert_response_to_gemini, convert_response_to_gemini.
  destruct (cc_choices response) as [|choice rest]; [discriminate|].
  destruct (Raising.function_call_parts json_loads _) as [ps|e] eqn:E;
    [|discriminate].
  rewrite (function_call_parts_returned _ _ E).
  intros H. now inversion H.
Qed.

End RaisingResponse.

(** C5.  A complete response maps the backend finish reason through stop
    to STOP, length to MAX_TOKENS, content_filter to SAFETY, tool_calls to
    STOP, function_call to STOP, and any other or missing value to STOP, as
    the claim says.  A streamed fragment carrying no finish reason ([None]
    or the empty string) has an absent finishReason, as the claim says, and
    maps stop, length, content_filter and tool_calls as the table does; but
    its own table has four entries and is looked up without the default, so
    every other value, function_call included, gives an absent finishReason
    where the claim and the table of the complete responses give STOP: so
    it is for the text fragments whose finish reason is function_call and
    eos. *)
Theorem C5_streamed_reason_without_default (json_loads : string -> loaded) :
  (forall (response : chat_completion) (out : gemini_response),
      Raising.convert_response_to_gemini json_loads response = inl out ->
      exists choice rest,
        cc_choices response = choice :: rest
        /\ cand_finishReason (gr_candidate out)
           = Some (spec_finish_reason (rc_finish_reason choice)))
  /\ (forall (c : chunk) (acc acc' : Dict.t acc_entry) (out : candidate),
         Raising.convert_streaming_chunk_to_gemini json_loads c acc
         = (Returned (Some out), acc') ->
         exists choice rest,
           ck_choices c = choice :: rest
           /\ cand_finishReason out
              = match ch_finish_reason choice with
                | Some r =>
                    if String.eqb r "stop" then Some "STOP"
                    else if String.eqb r "length" then Some "MAX_TOKENS"
                    else if String.eqb r "content_filter" then Some "SAFETY"
                    else if String.eqb r "tool_calls" then Some "STOP"
                    else None
                | None => None
                end)
  /\ Raising.convert_streaming_chunk_to_gemini json_loads
       (text_fragment "x" (Some "function_call")) Dict.empty
     = (Returned (Some {| cand_parts := [TextPart "x"];
                          cand_finishReason := None |}), Dict.empty)
  /\ spec_finish_reason (Some "function_call") = "STOP"
  /\ Raising.convert_streaming_chunk_to_gemini json_loads
       (text_fragment "x" (Some "eos")) Dict.empty
     = (Returned (Some {| cand_parts := [TextPart "x"];
                          cand_finishReason := None |}), Dict.empty)
  /\ spec_finish_reason (Some "eos") = "STOP".
Proof.
  split; [|split; [|repeat split]].
  - intros response out H. apply convert_response_returned in H.
    exact (convert_response_finish_reason _ _ _ H).
  - intros c acc acc' out H. apply convert_returned in H.
    destruct (convert_chunk_finish_reason _ c acc acc' out H)
      as (choice & rest & Hc & Hf).
    exists choice, rest. split; [exact Hc|]. rewrite Hf.
    destruct (ch_finish_reason choice) as [r|]; [|reflexivity].
    unfold PyStr.truthy_opt, mapping_get, streaming_finish_reason_mapping.
    cbn [Dict.get].
    destruct r as [|a r]; [reflexivity|].
    cbn [PyStr.truthy].
    repeat match goal with
           | |- context [String.eqb ?x ?k] => destruct (String.eqb x k)
           end; reflexivity.
Qed.

Lemma C5_streamed_reason_without_default_witness :
  (exists choice rest,
      cc_choices (text_response "Hello!" (Some "length")) = choice :: rest
      /\ Some "MAX_TOKENS"
         = Some (spec_finish_reason (rc_finish_reason choice)))
  /\ (exists choice rest,
         ck_choices (text_fragment "Hel" (Some "length")) = choice :: rest
         /\ Some "MAX_TOKENS"
            = match ch_finish_reason choice with
              | Some r =>
                  if String.eqb r "stop" then Some "STOP"
                  else if String.eqb r "length" then Some "MAX_TOKENS"
                  else if String.eqb r "content_filter" then Some "SAFETY"
                  else if String.eqb r "tool_calls" then Some "STOP"
                  else None
              | None => None
              end).
Proof.
  split.
  - exact (proj1 (C5_streamed_reason_without_default (loads_within 4300))
             (text_response "Hello!" (Some "length"))
             {| gr_candidate :=
                  {| cand_parts := [TextPart "Hello!"];
                     cand_finishReason := Some "MAX_TOKENS" |};
                gr_usageMetadata := None |}
             eq_refl).
  - exact (proj1 (proj2 (C5_streamed_reason_without_default
                           (loads_within 4300)))
             (text_fragment "Hel" (Some "length")) [] []
             {| cand_parts := [TextPart "Hel"];
                cand_finishReason := Some "MAX_TOKENS" |}
             eq_refl).
Defined.

(** ** Roles of the turns *)

Section RoleFacts.

Variable json_dumps : json -> string.

Lemma convert_history (pre : list content) (c : content) :
  convert_contents_to_messages json_dumps (pre ++ [c])
  = flat_map (kept_turn json_dumps) pre ++ final_turn json_dumps c.
Proof.
  unfold convert_contents_to_messages. rewrite convert_from_app.
  rewrite convert_from_kept by (rewrite length_app; simpl; lia).
  f_equal. cbn [convert_from]. rewrite app_nil_r.
  apply convert_content_context.
  rewrite length_app. cbn [List.length].
  replace (List.length pre + 1 - 1) with (0 + List.length pre) by lia.
  now rewrite Nat.eqb_refl.
Qed.

Lemma other_role_nothing (contents : list content) (i : nat) (c : content)
    (r : string) :
  c_role c = Some r -> r <> "user" -> r <> "model" ->
  convert_content json_dumps contents i c = [].
Proof.
  intros Hr Hu Hm. unfold convert_content, get_role. rewrite Hr.
  apply String.eqb_neq in Hu. apply String.eqb_neq in Hm.
  now rewrite Hu, Hm.
Qed.

End RoleFacts.

(** C7, as the converter behaves.  Only the roles [user] and [model] are
    converted.  A turn whose role is [user], or absent, gives at most one
    user message, holding the trimmed concatenation of its texts and left
    out when that is blank, followed by one tool message per function
    response.  A turn whose role is [model] gives at most one assistant
    message: its content is the trimmed concatenation of the texts, [None]
    when that is blank, and its tool calls are the function calls of the
    turn under the pruning rule, which keeps them all, in order, before the
    last index of the history and drops them all at the last index; the
    message is left out when it would hold neither.  A turn with any other
    role, [assistant] included, gives no message whatever its parts: a
    history converts as it does without that turn when other turns follow
    it, and as its earlier turns, none of them pruned, when it is the
    last. *)
Theorem C7_only_user_and_model_converted (json_dumps : json -> string) :
  (forall (contents : list content) (i : nat) (c : content),
      c_role c = None \/ c_role c = Some "user" ->
      convert_content json_dumps contents i c
      = (if blank (texts_of (get_parts c)) then []
         else [{| m_role := "user";
                  m_content := Some (PyStr.strip (texts_of (get_parts c)));
                  m_tool_call_id := None;
                  m_tool_calls := None |}])
        ++ map (fun fr =>
                  {| m_role := "tool";
                     m_content :=
                       Some (json_dumps (match fr_response fr with
                                         | Some r => r
                                         | None => JObj []
                                         end));
                     m_tool_call_id :=
                       Some ((match fr_name fr with
                              | Some n => n
                              | None => "unknown"
                              end) ++ ":0")%string;
                     m_tool_calls := None |})
               (responses_of (get_parts c)))
  /\ (forall (contents : list content) (i : nat) (c : content),
         c_role c = Some "model" ->
         (i <> List.length contents - 1 ->
          convert_content json_dumps contents i c
          = if blank (texts_of (get_parts c))
               && match calls_of (get_parts c) with
                  | [] => true
                  | _ => false
                  end
            then []
            else [{| m_role := "assistant";
                     m_content :=
                       if blank (texts_of (get_parts c)) then None
                       else Some (PyStr.strip (texts_of (get_parts c)));
                     m_tool_call_id := None;
                     m_tool_calls :=
                       match calls_of (get_parts c) with
                       | [] => None
                       | calls =>
                           Some (map (fun fc =>
                                        {| tc_id :=
                                             ((match fc_name fc with
                                               | Some n => n
                                               | None => "unknown"
                                               end) ++ ":0")%string;
                                           tc_type := "function";
                                           tc_name :=
                                             match fc_name fc with
                                             | Some n => n
                                             | None => ""
                                             end;
                                           tc_arguments :=
                                             json_dumps
                                               (match fc_args fc with
                                                | Some a => a
                                                | None => JObj []
                                                end) |}) calls)
                       end |}])
         /\ (i = List.length contents - 1 ->
             convert_content json_dumps contents i c
             = if blank (texts_of (get_parts c)) then []
               else [{| m_role := "assistant";
                        m_content :=
                          Some (PyStr.strip (texts_of (get_parts c)));
                        m_tool_call_id := None;
                        m_tool_calls := None |}]))
  /\ (forall (contents : list content) (i : nat) (c : content) (r : string),
         c_role c = Some r -> r <> "user" -> r <> "model" ->
         convert_content json_dumps contents i c = [])
  /\ (forall (pre post : list content) (c d : content) (r : string),
         c_role c = Some r -> r <> "user" -> r <> "model" ->
         convert_contents_to_messages json_dumps (pre ++ c :: d :: post)
         = convert_contents_to_messages json_dumps (pre ++ d :: post))
  /\ (forall (pre : list content) (c : content) (r : string),
         c_role c = Some r -> r <> "user" -> r <> "model" ->
         convert_contents_to_messages json_dumps (pre ++ [c])
         = flat_map (fun c' => convert_content json_dumps [c'; c'] 0 c') pre).
Proof.
  split; [|split; [|split; [|split]]].
  - intros contents i c Hrole.
    assert (E : get_role c = "user").
    { unfold get_role. destruct Hrole as [-> | ->]; reflexivity. }
    unfold convert_content. rewrite E.
    change (String.eqb "user" "user") with true. cbv iota.
    apply convert_user_shape.
  - intros contents i c Hrole.
    assert (E : convert_content json_dumps contents i c
                = convert_model json_dumps contents i (get_parts c)).
    { unfold convert_content, get_role. now rewrite Hrole. }
    rewrite E, convert_model_shape. cbv zeta. unfold assistant_message, blank.
    split; intros Hi.
    + apply Nat.eqb_neq in Hi. rewrite Hi.
      destruct (PyStr.truthy _); destruct (calls_of _); reflexivity.
    + apply Nat.eqb_eq in Hi. rewrite Hi.
      destruct (PyStr.truthy _); reflexivity.
  - intros contents i c r. apply other_role_nothing.
  - intros pre post c d r Hr Hu Hm.
    destruct (exists_last (l := d :: post)) as (mid & z & E);
      [discriminate|].
    rewrite E.
    replace (pre ++ c :: mid ++ [z]) with ((pre ++ c :: mid) ++ [z])
      by now rewrite <- app_assoc.
    rewrite app_assoc, !convert_history, !flat_map_app.
    cbn [flat_map]. unfold kept_turn at 2.
    now rewrite (other_role_nothing json_dumps _ _ c r Hr Hu Hm).
  - intros pre c r Hr Hu Hm. rewrite convert_history.
    unfold final_turn.
    rewrite (other_role_nothing json_dumps _ _ c r Hr Hu Hm).
    apply app_nil_r.
Qed.

Lemma C7_only_user_and_model_converted_witness :
  convert_content (Json.dumps true) [] 0
    {| c_role := None; c_parts := Some [text_part " hi "] |}
  = [{| m_role := "user"; m_content := Some "hi";
        m_tool_call_id := None; m_tool_calls := None |}]
  /\ convert_content (Json.dumps true) sample_history 0
       (turn "model" [call_f])
     = [{| m_role := "assistant"; m_content := None; m_tool_call_id := None;
           m_tool_calls :=
             Some [{| tc_id := "f:0"; tc_type := "function"; tc_name := "f";
                      tc_arguments := "{}" |}] |}]
  /\ convert_content (Json.dumps true) sample_history 2
       (turn "model" [text_part "done"; call_g])
     = [{| m_role := "assistant"; m_content := Some "done";
           m_tool_call_id := None; m_tool_calls := None |}]
  /\ convert_content (Json.dumps true)
       [turn "assistant" [text_part "hi"]] 0
       (turn "assistant" [text_part "hi"])
     = []
  /\ convert_contents_to_messages (Json.dumps true)
       ([turn "user" [text_part "a"]]
        ++ turn "assistant" [text_part "hi"]
        :: turn "user" [text_part "b"] :: [])
     = convert_contents_to_messages (Json.dumps true)
         ([turn "user" [text_part "a"]]
          ++ turn "user" [text_part "b"] :: [])
  /\ convert_contents_to_messages (Json.dumps true)
       ([turn "model" [call_f]] ++ [turn "assistant" [text_part "hi"]])
     = flat_map (fun c' => convert_content (Json.dumps true) [c'; c'] 0 c')
                [turn "model" [call_f]].
Proof.
  split; [|split; [|split; [|split; [|split]]]].
  - exact (proj1 (C7_only_user_and_model_converted (Json.dumps true))
             [] 0 {| c_role := None; c_parts := Some [text_part " hi "] |}
             (or_introl eq_refl)).
  - refine (proj1 (proj1 (proj2
              (C7_only_user_and_model_converted (Json.dumps true)))
              sample_history 0 (turn "model" [call_f]) eq_refl) _).
    simpl. lia.
  - exact (proj2 (proj1 (proj2
             (C7_only_user_and_model_converted (Json.dumps true)))
             sample_history 2 (turn "model" [text_part "done"; call_g])
             eq_refl) eq_refl).
  - refine (proj1 (proj2 (proj2
              (C7_only_user_and_model_converted (Json.dumps true))))
              [turn "assistant" [text_part "hi"]] 0
              (turn "assistant" [text_part "hi"]) "assistant" eq_refl _ _);
      discriminate.
  - refine (proj1 (proj2 (proj2 (proj2
              (C7_only_user_and_model_converted (Json.dumps true)))))
              [turn "user" [text_part "a"]] []
              (turn "assistant" [text_part "hi"])
              (turn "user" [text_part "b"]) "assistant" eq_refl _ _);
      discriminate.
  - refine (proj2 (proj2 (proj2 (proj2
              (C7_only_user_and_model_converted (Json.dumps true)))))
              [turn "model" [call_f]]
              (turn "assistant" [text_part "hi"]) "assistant" eq_refl _ _);
      discriminate.
Defined.

(** ** Complete responses and the single-shot exchange *)

Lemma forall2_in_left {A B : Type} (R : A -> B -> Prop) (l : list A)
    (l' : list B) (x : A) :
  Forall2 R l l' -> In x l -> exists y, In y l' /\ R x y.
Proof.
  induction 1 as [|a b l l' Hab Hl IH]; intros Hin; [destruct Hin|].
  destruct Hin as [<- | Hin].
  - exists b. split; [now left | exact Hab].
  - destruct (IH Hin) as (y & Hy & Hr). exists y. split; [now right | exact Hr].
Qed.

Section RaisingCalls.

Variable json_loads : string -> loaded.

Lemma function_call_parts_inl (tcs : list response_tool_call)
    (ps : list gemini_part) :
  Raising.function_call_parts json_loads tcs = inl ps ->
  Forall2 (call_converted json_loads) tcs ps.
Proof.
  revert ps. induction tcs as [|tc tcs IH]; intros ps;
    cbn [Raising.function_call_parts].
  - intros H. inversion H. constructor.
  - destruct (json_loads (rtc_arguments tc)) as [v|m|m] eqn:E;
      try discriminate.
    destruct (Raising.function_call_parts json_loads tcs) as [qs|e];
      [|discriminate].
    intros H. inversion H. subst. constructor; [|now apply IH].
    now exists v.
Qed.

Lemma function_call_parts_all (tcs : list response_tool_call) :
  (forall tc, In tc tcs ->
              exists v, json_loads (rtc_arguments tc) = Parsed v) ->
  exists ps, Raising.function_call_parts json_loads tcs = inl ps.
Proof.
  induction tcs as [|tc tcs IH]; intros H;
    cbn [Raising.function_call_parts].
  - now exists [].
  - destruct (H tc (or_introl eq_refl)) as [v Hv]. rewrite Hv.
    destruct IH as [ps Hps]; [intros t Ht; apply H; now right|].
    rewrite Hps. eexists. reflexivity.
Qed.

(** The first argument text that [json.loads] does not return on decides
    the exception. *)
Lemma function_call_parts_first (before after : list response_tool_call)
    (tc : response_tool_call) :
  (forall t, In t before ->
             exists v, json_loads (rtc_arguments t) = Parsed v) ->
  Raising.function_call_parts json_loads (before ++ tc :: after)
  = match json_loads (rtc_arguments tc) with
    | Parsed _ =>
        Raising.function_call_parts json_loads (before ++ tc :: after)
    | DecodeError m => inr (JSONDecodeError m)
    | OtherError m => inr (OtherException m)
    end.
Proof.
  induction before as [|b before IH]; intros H;
    cbn [app Raising.function_call_parts].
  - now destruct (json_loads (rtc_arguments tc)).
  - destruct (H b (or_introl eq_refl)) as [v Hv]. rewrite Hv.
    rewrite IH by (intros t Ht; apply H; now right).
    now destruct (json_loads (rtc_arguments tc)).
Qed.

End RaisingCalls.

(** X6.  A complete response without a choice raises [IndexError].
    Otherwise the tool calls of the first choice are gone through in order,
    and the first argument text on which [json.loads] does not return
    decides the exception: [json.JSONDecodeError] when the text is not
    JSON, and whatever else [json.loads] raises, which it may on JSON too.
    The conversion returns exactly when [json.loads] returns on every
    argument text; the parts are then the text part of the first choice
    (present when its content is not empty) followed by one function call
    per tool call, in order, each with the name of the tool call and its
    parsed arguments. *)
Theorem X6_response_parts (json_loads : string -> loaded)
    (response : chat_completion) :
  (cc_choices response = [] ->
   Raising.convert_response_to_gemini json_loads response = inr IndexError)
  /\ (forall (choice : response_choice) (rest : list response_choice)
             (before after : list response_tool_call)
             (tc : response_tool_call) (m : string),
         cc_choices response = choice :: rest ->
         response_tool_calls choice = before ++ tc :: after ->
         (forall t, In t before ->
                    exists v, json_loads (rtc_arguments t) = Parsed v) ->
         (json_loads (rtc_arguments tc) = DecodeError m ->
          Raising.convert_response_to_gemini json_loads response
          = inr (JSONDecodeError m))
         /\ (json_loads (rtc_arguments tc) = OtherError m ->
             Raising.convert_response_to_gemini json_loads response
             = inr (OtherException m)))
  /\ ((exists out,
          Raising.convert_response_to_gemini json_loads response = inl out)
      <-> exists choice rest,
          cc_choices response = choice :: rest
          /\ forall tc, In tc (response_tool_calls choice) ->
                        exists v, json_loads (rtc_arguments tc) = Parsed v)
  /\ (forall (choice : response_choice) (rest : list response_choice)
             (out : gemini_response),
         cc_choices response = choice :: rest ->
         Raising.convert_response_to_gemini json_loads response = inl out ->
         exists calls : list gemini_part,
           cand_parts (gr_candidate out) = response_text_parts choice ++ calls
           /\ Forall2 (call_converted json_loads)
                      (response_tool_calls choice) calls).
Proof.
  unfold Raising.convert_response_to_gemini.
  split; [|split; [|split]].
  - now intros ->.
  - intros choice rest before after tc m Hc Ht Hb. rewrite Hc.
    fold (response_tool_calls choice). rewrite Ht.
    rewrite (function_call_parts_first json_loads before after tc Hb).
    split; intros ->; reflexivity.
  - destruct (cc_choices response) as [|choice rest].
    + split; [intros [out H]; discriminate H|].
      intros (c & r & H & _). discriminate H.
    + fold (response_tool_calls choice).
      split.
      * intros [out H]. exists choice, rest. split; [reflexivity|].
        destruct (Raising.function_call_parts json_loads
                    (response_tool_calls choice)) as [ps|e] eqn:E;
          [|discriminate H].
        apply function_call_parts_inl in E.
        intros tc Hin.
        destruct (forall2_in_left _ _ _ _ E Hin) as (p & _ & v & Hv & _).
        now exists v.
      * intros (c & r & H & Hall). inversion H. subst c r.
        destruct (function_call_parts_all json_loads _ Hall) as [ps Hps].
        rewrite Hps. eexists. reflexivity.
  - intros choice rest out Hc. rewrite Hc.
    fold (response_tool_calls choice). fold (response_text_parts choice).
    destruct (Raising.function_call_parts json_loads
                (response_tool_calls choice)) as [ps|e] eqn:E;
      [|discriminate].
    intros H. inversion H. subst out. exists ps. split; [reflexivity|].
    now apply function_call_parts_inl.
Qed.

Lemma X6_response_parts_witness :
  Raising.convert_response_to_gemini (loads_within 4300)
    {| cc_choices :=
         [{| rc_message :=
               {| rm_content := Some "ok";
                  rm_tool_calls :=
                    Some [mk_response_tool_call "f" "{}";
                          mk_response_tool_call "g" (ones 4301)] |};
             rc_finish_reason := Some "tool_calls" |}];
       cc_usage := None |}
  = inr (OtherException (digit_limit_message 4300 4301))
  /\ exists calls : list gemini_part,
      [TextPart "ok"; FunctionCallPart "f" (JObj [])]
      = response_text_parts
          {| rc_message :=
               {| rm_content := Some "ok";
                  rm_tool_calls := Some [mk_response_tool_call "f" "{}"] |};
             rc_finish_reason := Some "tool_calls" |}
        ++ calls
      /\ Forall2 (call_converted (loads_within 4300))
                 [mk_response_tool_call "f" "{}"] calls.
Proof.
  split.
  - refine (proj2 (proj1 (proj2 (X6_response_parts (loads_within 4300)
                     {| cc_choices :=
                          [{| rc_message :=
                                {| rm_content := Some "ok";
                                   rm_tool_calls :=
                                     Some [mk_response_tool_call "f" "{}";
                                           mk_response_tool_call "g"
                                             (ones 4301)] |};
                              rc_finish_reason := Some "tool_calls" |}];
                        cc_usage := None |}))
                     _ [] [mk_response_tool_call "f" "{}"] []
                     (mk_response_tool_call "g" (ones 4301))
                     (digit_limit_message 4300 4301) eq_refl eq_refl _) _).
    + intros t [<- | []]. exists (JObj []). reflexivity.
    + vm_compute. reflexivity.
  - exact (proj2 (proj2 (proj2 (X6_response_parts (loads_within 4300)
                  {| cc_choices :=
                       [{| rc_message :=
                             {| rm_content := Some "ok";
                                rm_tool_calls :=
                                  Some [mk_response_tool_call "f" "{}"] |};
                           rc_finish_reason := Some "tool_calls" |}];
                     cc_usage := None |})))
             _ [] {| gr_candidate :=
                       {| cand_parts := [TextPart "ok";
                                         FunctionCallPart "f" (JObj [])];
                          cand_finishReason := Some "STOP" |};
                     gr_usageMetadata := None |}
             eq_refl eq_refl).
Defined.

(** X17.  The single-shot exchange returns exactly when the client
    returned a response that the converter converts, and it returns that
    conversion; in every other case it raises an HTTP exception with status
    500 whose detail is the text of the exception: the message of the
    client when the client raised, [list index out of range] for a response
    without a choice, and the message of [json.loads] when it raised on the
    argument text of a tool call, be it [json.JSONDecodeError] or another
    exception. *)
Theorem X17_single_shot_outcome
    (json_loads : string -> loaded) (json_dumps : bool -> json -> string)
    (MODEL_MAPPING : Dict.t string) (DEFAULT_OPENAI_MODEL : string)
    (create_completion : completion_params -> outcome chat_completion)
    (rq : request_data) :
  (forall g,
      Raising.generate_content json_loads json_dumps MODEL_MAPPING
        DEFAULT_OPENAI_MODEL create_completion rq = inl g
      <-> exists response,
          create_completion (single_completion_params json_dumps
                               MODEL_MAPPING DEFAULT_OPENAI_MODEL rq)
          = Returned response
          /\ Raising.convert_response_to_gemini json_loads response = inl g)
  /\ (forall e,
         create_completion (single_completion_params json_dumps
                              MODEL_MAPPING DEFAULT_OPENAI_MODEL rq)
         = Raised e ->
         Raising.generate_content json_loads json_dumps MODEL_MAPPING
           DEFAULT_OPENAI_MODEL create_completion rq
         = inr {| status_code := 500; detail := e |})
  /\ (forall response,
         create_completion (single_completion_params json_dumps
                              MODEL_MAPPING DEFAULT_OPENAI_MODEL rq)
         = Returned response ->
         cc_choices response = [] ->
         Raising.generate_content json_loads json_dumps MODEL_MAPPING
           DEFAULT_OPENAI_MODEL create_completion rq
         = inr {| status_code := 500; detail := "list index out of range" |})
  /\ (forall response choice rest before tc after m,
         create_completion (single_completion_params json_dumps
                              MODEL_MAPPING DEFAULT_OPENAI_MODEL rq)
         = Returned response ->
         cc_choices response = choice :: rest ->
         response_tool_calls choice = before ++ tc :: after ->
         (forall t, In t before ->
                    exists v, json_loads (rtc_arguments t) = Parsed v) ->
         json_loads (rtc_arguments tc) = DecodeError m
         \/ json_loads (rtc_arguments tc) = OtherError m ->
         Raising.generate_content json_loads json_dumps MODEL_MAPPING
           DEFAULT_OPENAI_MODEL create_completion rq
         = inr {| status_code := 500; detail := m |})
  /\ (forall err,
         Raising.generate_content json_loads json_dumps MODEL_MAPPING
           DEFAULT_OPENAI_MODEL create_completion rq = inr err ->
         status_code err = 500%Z).
Proof.
  unfold Raising.generate_content.
  split; [|split; [|split; [|split]]].
  - intros g. destruct (create_completion _) as [response|e].
    + destruct (Raising.convert_response_to_gemini json_loads response)
        as [g'|x] eqn:E.
      * split.
        -- intros H. inversion H. subst. now exists response.
        -- intros (r & Hr & Hg). inversion Hr. subst r.
           rewrite E in Hg. now inversion Hg.
      * split; [discriminate|].
        intros (r & Hr & Hg). inversion Hr. subst r.
        rewrite E in Hg. discriminate Hg.
    + split; [discriminate|]. intros (r & Hr & _). discriminate Hr.
  - intros e ->. reflexivity.
  - intros response -> Hc.
    unfold Raising.convert_response_to_gemini. now rewrite Hc.
  - intros response choice rest before tc after m -> Hc Ht Hb Hl.
    unfold Raising.convert_response_to_gemini. rewrite Hc.
    fold (response_tool_calls choice). rewrite Ht.
    rewrite (function_call_parts_first json_loads before after tc Hb).
    destruct Hl as [-> | ->]; reflexivity.
  - intros err. destruct (create_completion _) as [response|e].
    + destruct (Raising.convert_response_to_gemini json_loads response);
        [discriminate|].
      intros H. now inversion H.
    + intros H. now inversion H.
Qed.

Lemma X17_single_shot_outcome_witness :
  Raising.generate_content (loads_within 4300) Json.dumps Dict.empty
    "gpt-4o" (raising_client "timeout") sample_request
  = inr {| status_code := 500; detail := "timeout" |}
  /\ Raising.generate_content (loads_within 4300) Json.dumps Dict.empty
       "gpt-4o"
       (answering_client
          {| cc_choices :=
               [{| rc_message :=
                     {| rm_content := None;
                        rm_tool_calls :=
                          Some [mk_response_tool_call "g" (ones 4301)] |};
                   rc_finish_reason := Some "tool_calls" |}];
             cc_usage := None |})
       sample_request
     = inr {| status_code := 500;
              detail := digit_limit_message 4300 4301 |}.
Proof.
  split.
  - exact (proj1 (proj2 (X17_single_shot_outcome (loads_within 4300)
                           Json.dumps Dict.empty "gpt-4o"
                           (raising_client "timeout") sample_request))
             "timeout" eq_refl).
  - refine (proj1 (proj2 (proj2 (proj2
              (X17_single_shot_outcome (loads_within 4300) Json.dumps
                 Dict.empty "gpt-4o"
                 (answering_client
                    {| cc_choices :=
                         [{| rc_message :=
                               {| rm_content := None;
                                  rm_tool_calls :=
                                    Some [mk_response_tool_call "g"
                                            (ones 4301)] |};
                             rc_finish_reason := Some "tool_calls" |}];
                       cc_usage := None |})
                 sample_request))))
              _ _ [] [] (mk_response_tool_call "g" (ones 4301)) []
              (digit_limit_message 4300 4301) eq_refl eq_refl eq_refl _ _).
    + intros t [].
    + right. vm_compute. reflexivity.
Defined.

(** ** Fragments, with the exceptions *)

(** X8.  A fragment with no choice, or whose first choice has no delta,
    yields nothing, raises nothing and leaves the mapping as it was; a
    fragment with no tool-call entry raises nothing and leaves the mapping
    as it was.  A fragment whose delta holds a non-empty text is emitted
    with that text, verbatim, as its first part, unless a tool-call entry
    of the same fragment makes [json.loads] raise an exception other than
    [json.JSONDecodeError]: the call then raises it and the text is lost.
    With no tool-call entry the text is the only part. *)
Theorem X8_fragment_edges (json_loads : string -> loaded)
    (c : chunk) (acc : Dict.t acc_entry) :
  (ck_choices c = [] ->
   Raising.convert_streaming_chunk_to_gemini json_loads c acc
   = (Returned None, acc))
  /\ (forall choice rest,
         ck_choices c = choice :: rest -> ch_delta choice = None ->
         Raising.convert_streaming_chunk_to_gemini json_loads c acc
         = (Returned None, acc))
  /\ (chunk_tool_calls c = [] ->
      exists r,
        Raising.convert_streaming_chunk_to_gemini json_loads c acc
        = (Returned r, acc))
  /\ (forall choice rest d t,
         ck_choices c = choice :: rest -> ch_delta choice = Some d ->
         d_content d = Some t -> t <> "" ->
         (exists out calls acc',
             Raising.convert_streaming_chunk_to_gemini json_loads c acc
             = (Returned (Some out), acc')
             /\ cand_parts out = TextPart t :: calls)
         \/ (exists m acc' buffer,
                Raising.convert_streaming_chunk_to_gemini json_loads c acc
                = (Raised m, acc')
                /\ buffer <> "" /\ json_loads buffer = OtherError m))
  /\ (forall choice rest d t,
         ck_choices c = choice :: rest -> ch_delta choice = Some d ->
         d_content d = Some t -> t <> "" -> delta_tool_calls d = [] ->
         Raising.convert_streaming_chunk_to_gemini json_loads c acc
         = (Returned
              (Some {| cand_parts := [TextPart t];
                       cand_finishReason :=
                         if PyStr.truthy_opt (ch_finish_reason choice)
                         then mapping_get streaming_finish_reason_mapping
                                          (ch_finish_reason choice)
                         else None |}), acc)).
Proof.
  split; [|split; [|split; [|split]]].
  - intros H. unfold Raising.convert_streaming_chunk_to_gemini.
    now rewrite H.
  - intros choice rest Hc Hd.
    unfold Raising.convert_streaming_chunk_to_gemini. now rewrite Hc, Hd.
  - unfold chunk_tool_calls, Raising.convert_streaming_chunk_to_gemini.
    destruct (ck_choices c) as [|choice rest]; [now eexists|].
    destruct (ch_delta choice) as [d|]; [|now eexists].
    intros ->. cbn [Raising.accumulate_all].
    destruct (_ && _); eexists; reflexivity.
  - intros choice rest d t Hc Hd Ht Hne.
    destruct (Raising.convert_streaming_chunk_to_gemini json_loads c acc)
      as [[r|m] acc'] eqn:E.
    + left. pose proof (convert_returned _ _ _ _ _ E) as E'.
      unfold convert_streaming_chunk_to_gemini in E'.
      rewrite Hc, Hd, Ht in E'.
      apply truthy_true in Hne. rewrite Hne in E'.
      destruct (fold_accumulate_parts_prefix (loads_value json_loads)
                  (delta_tool_calls d) acc [TextPart t]) as [more Hm].
      destruct (fold_left _ _ _) as [acc1 parts]. cbn [snd] in Hm.
      subst parts. cbn [app andb] in E'. inversion E'. subst.
      do 3 eexists. split; reflexivity.
    + right. destruct (convert_raised _ _ _ _ _ E) as (buffer & Hb & Hl).
      now exists m, acc', buffer.
  - intros choice rest d t Hc Hd Ht Hne Hn.
    unfold Raising.convert_streaming_chunk_to_gemini.
    rewrite Hc, Hd, Ht, Hn. apply truthy_true in Hne. rewrite Hne.
    reflexivity.
Qed.

Lemma X8_fragment_edges_witness :
  Raising.convert_streaming_chunk_to_gemini (loads_within 4300)
    (text_fragment (wrap_json a1_text) None) Dict.empty
  = (Returned (Some {| cand_parts := [TextPart (wrap_json a1_text)];
                       cand_finishReason := None |}), Dict.empty).
Proof.
  refine (proj2 (proj2 (proj2 (proj2 (X8_fragment_edges (loads_within 4300)
                                 (text_fragment (wrap_json a1_text) None)
                                 Dict.empty))))
            _ [] _ (wrap_json a1_text) eq_refl eq_refl eq_refl _ eq_refl).
  discriminate.
Defined.

(** X9.  The parts of every fragment the converter emits are well formed:
    a text part is never empty, and a function call always has a non-empty
    name and arguments parsed from a non-empty buffer.  The finishReason of
    an emitted fragment is the entry of the four-entry table for the
    finish reason of the incoming fragment, absent when that is empty or
    has no entry.  A fragment is emitted without parts only when the
    incoming fragment carries a non-empty finish reason; it may then have
    neither parts nor a finishReason, as for eos. *)
Theorem X9_emitted_fragment_well_formed (json_loads : string -> loaded) :
  (forall (c : chunk) (acc acc' : Dict.t acc_entry) (out : candidate),
      Raising.convert_streaming_chunk_to_gemini json_loads c acc
      = (Returned (Some out), acc') ->
      Forall (well_formed_part (loads_value json_loads)) (cand_parts out)
      /\ exists choice rest,
          ck_choices c = choice :: rest
          /\ cand_finishReason out
             = (if PyStr.truthy_opt (ch_finish_reason choice)
                then mapping_get streaming_finish_reason_mapping
                                 (ch_finish_reason choice)
                else None)
          /\ (cand_parts out = [] ->
              PyStr.truthy_opt (ch_finish_reason choice) = true))
  /\ (forall acc : Dict.t acc_entry,
         Raising.convert_streaming_chunk_to_gemini json_loads
           {| ck_choices :=
                [{| ch_delta := Some {| d_content := None;
                                        d_tool_calls := None |};
                    ch_finish_reason := Some "eos" |}] |} acc
         = (Returned (Some {| cand_parts := [];
                              cand_finishReason := None |}), acc)).
Proof.
  split; [|reflexivity].
  intros c acc acc' out H. apply convert_returned in H.
  revert H. unfold convert_streaming_chunk_to_gemini.
  destruct (ck_choices c) as [|choice rest]; [discriminate|].
  destruct (ch_delta choice) as [d|]; [|discriminate].
  set (parts0 := match d_content d with
                 | Some t => if PyStr.truthy t then [TextPart t] else []
                 | None => []
                 end).
  assert (H0 : Forall (well_formed_part (loads_value json_loads)) parts0).
  { unfold parts0. destruct (d_content d) as [t|]; [|constructor].
    destruct (PyStr.truthy t) eqn:E; constructor; [|constructor].
    now apply truthy_true. }
  pose proof (fold_accumulate_well_formed (loads_value json_loads)
                (delta_tool_calls d) acc parts0 H0) as Hwf.
  destruct (fold_left _ _ _) as [acc1 parts]. cbn [snd] in Hwf.
  destruct parts as [|p parts].
  - cbn [andb]. destruct (PyStr.truthy_opt (ch_finish_reason choice)) eqn:Ef;
      [|discriminate].
    intros H. inversion H. subst. split; [constructor|].
    exists choice, rest. cbn [cand_finishReason cand_parts].
    rewrite Ef. repeat split.
  - cbn [andb]. intros H. inversion H. subst. split; [exact Hwf|].
    exists choice, rest. cbn [cand_finishReason cand_parts].
    split; [reflexivity|]. split; [reflexivity | discriminate].
Qed.

Lemma X9_emitted_fragment_well_formed_witness :
  Forall (well_formed_part (loads_value (loads_within 4300)))
         [TextPart "Hel"; FunctionCallPart "f" (JObj [])].
Proof.
  exact (proj1 (proj1 (X9_emitted_fragment_well_formed (loads_within 4300))
                  {| ck_choices :=
                       [{| ch_delta :=
                             Some {| d_content := Some "Hel";
                                     d_tool_calls :=
                                       Some [{| td_index := None;
                                                td_id := Some "c1";
                                                td_function :=
                                                  Some {| fd_name := Some "f";
                                                          fd_arguments :=
                                                            Some "{}" |} |}] |};
                           ch_finish_reason := None |}] |}
                  Dict.empty Dict.empty
                  {| cand_parts := [TextPart "Hel";
                                    FunctionCallPart "f" (JObj [])];
                     cand_finishReason := None |}
                  eq_refl)).
Defined.

(** X11.  A call that completes is emitted and removed by the fragment
    loop at once, and a buffer on which [json.loads] raises another
    exception ends that loop.  So whenever the fragment loop ends without
    an exception, every slot still in the mapping is one that the loop at
    the end of the stream discards, and that loop yields no frame and
    raises nothing: when the client raises nothing either, the frames of
    the exchange are exactly those of the fragment loop. *)
Theorem X11_end_of_stream_yields_nothing
    (json_loads : string -> loaded) (json_dumps : bool -> json -> string)
    (MODEL_MAPPING : Dict.t string) (DEFAULT_OPENAI_MODEL : string)
    (create : completion_params -> outcome stream) (rq : request_data)
    (s : stream) (frames : list string) (acc : Dict.t acc_entry) :
  create (build_completion_params json_dumps MODEL_MAPPING
            DEFAULT_OPENAI_MODEL rq) = Returned s ->
  Raising.consume json_loads json_dumps (delivered s) Dict.empty
  = (frames, acc, None) ->
  (forall (k : string) (e : acc_entry),
      In (k, e) acc ->
      a_name e = "" \/ a_arguments e = ""
      \/ exists m, json_loads (a_arguments e) = DecodeError m)
  /\ Raising.flush json_loads json_dumps acc = ([], None)
  /\ (failure s = None ->
      Raising.stream_generate_content json_loads json_dumps MODEL_MAPPING
        DEFAULT_OPENAI_MODEL create rq
      = frames).
Proof.
  intros Hc Hl.
  assert (Hd : all_discarded json_loads acc).
  { apply (consume_discarded json_loads json_dumps (delivered s)
             Dict.empty acc frames); [constructor | exact Hl]. }
  pose proof (flush_discarded json_loads json_dumps acc Hd) as Hq.
  split; [|split; [exact Hq|]].
  - intros k e Hin. unfold all_discarded in Hd.
    rewrite Forall_forall in Hd. specialize (Hd (k, e) Hin).
    cbn [snd] in Hd. unfold discarded in Hd.
    apply orb_true_iff in Hd. destruct Hd as [Hd|Hd].
    + apply negb_true_iff, andb_false_iff in Hd.
      destruct Hd as [Hd|Hd]; apply truthy_false in Hd; auto.
    + right. right.
      destruct (json_loads (a_arguments e)) as [v|m|m];
        [discriminate | now exists m | discriminate].
  - intros Hf. unfold Raising.stream_generate_content.
    rewrite Hc, Hl, Hf, Hq. apply app_nil_r.
Qed.

Lemma X11_end_of_stream_yields_nothing_witness :
  Raising.stream_generate_content (loads_within 4300) Json.dumps Dict.empty
    "gpt-4o"
    (serving_client
       [tool_call_fragment (Some 0%Z) (Some "call_1") (Some "f") (Some "{}");
        tool_call_fragment (Some 0%Z) None None (Some "{")])
    sample_request
  = [data_frame Json.dumps
       (json_of_chunk {| cand_parts := [FunctionCallPart "f" (JObj [])];
                         cand_finishReason := None |})].
Proof.
  refine (proj2 (proj2 (X11_end_of_stream_yields_nothing
                          (loads_within 4300) Json.dumps Dict.empty "gpt-4o"
                          (serving_client
                             [tool_call_fragment (Some 0%Z) (Some "call_1")
                                                 (Some "f") (Some "{}");
                              tool_call_fragment (Some 0%Z) None None
                                                 (Some "{")])
                          sample_request _ _
                          [("tool_0", {| a_id := ""; a_name := "";
                                         a_arguments := "{" |})]
                          eq_refl _)) eq_refl).
  reflexivity.
Defined.
